(** * blackbox_exporter: the HTTP, ICMP and DNS probers

    A shallow embedding of [probeHTTP] (http.go), of the two versions of
    [probeICMP] with [getICMPSequence] (icmp.go: one writing text lines to
    the response writer, one setting registered gauges) and of [ProbeDNS]
    with [validRRs] and [validRcode] (prober package), followed by the
    properties established about them.

    The probers are imperative Go functions that write metrics, log, call
    the network and return early.  They are embedded in a small monad over
    a [World] that records what a run wrote and called; everything a call
    into a library or into the network returns is supplied by an
    environment record, so a run is a function of its inputs. *)

From Stdlib Require Import ZArith String Ascii List Bool Lia.
From stdpp Require Import base option list strings gmap.
Import ListNotations.

Local Open Scope string_scope.
Local Open Scope Z_scope.

(** ** The world of a probe run *)

Inductive Level := LDebug | LWarn | LError.

(** A log call: its level and its message (the format string; the
    arguments are not kept). *)
Record LogEntry := mkLog { level : Level; msg : string }.

(** A metric value.  Every metric of the probers is an integer except the
    two that are a number of seconds ([probe_dns_lookup_time_seconds],
    [probe_ssl_earliest_cert_expiry]); those are float64 values that the
    code computes from an integer count of nanoseconds, and it is that
    count which is kept here. *)
Record Sample := mkSample { sname : string; svalue : Z }.

Record World := mkWorld {
  w : list Sample;                  (* lines written to the http.ResponseWriter, oldest first *)
  registry : gmap string Z;         (* gauges registered in the prometheus.Registry *)
  logs : list LogEntry;             (* log calls, oldest first *)
  lookups : list (string * string); (* calls of net.ResolveIPAddr: network, host *)
  icmpSequence : Z                  (* var icmpSequence uint16 *)
}.

Definition emptyWorld : World := mkWorld [] ∅ [] [] 0.

(** What a statement leaves behind: control goes on with a value, the
    function has returned, the run is blocked in a read for which the
    environment has no event left, or the goroutine has panicked. *)
Inductive Step (R A : Type) :=
| Next (a : A)
| Return (r : R)
| Blocked
| Panic.
Arguments Next {R A} a.
Arguments Return {R A} r.
Arguments Blocked {R A}.
Arguments Panic {R A}.

Definition Run (R A : Type) : Type := World -> World * Step R A.

#[global] Instance run_ret {R} : MRet (Run R) :=
  fun A (a : A) s => (s, Next a).

#[global] Instance run_bind {R} : MBind (Run R) :=
  fun A B (k : A -> Run R B) (m : Run R A) s =>
    match m s with
    | (s', Next a) => k a s'
    | (s', Return r) => (s', Return r)
    | (s', Blocked) => (s', Blocked)
    | (s', Panic) => (s', Panic)
    end.

(** [return r] *)
Definition exit {R A} (r : R) : Run R A := fun s => (s, Return r).

(** [if b { m }] *)
Definition when_ {R} (b : bool) (m : Run R unit) : Run R unit :=
  if b then m else mret tt.

(** A call of a function of this program: its return value is the value
    of the call. *)
Definition call {R R'} (m : Run R' R') : Run R R' :=
  fun s =>
    match m s with
    | (s', Next r) | (s', Return r) => (s', Next r)
    | (s', Blocked) => (s', Blocked)
    | (s', Panic) => (s', Panic)
    end.

(** fmt.Fprintf(w, "<name> <value>\n") *)
Definition Fprint {R} (name : string) (v : Z) : Run R unit :=
  fun s => (mkWorld (w s ++ [mkSample name v]) (registry s) (logs s) (lookups s) (icmpSequence s),
            Next tt).

Definition logf {R} (l : Level) (m : string) : Run R unit :=
  fun s => (mkWorld (w s) (registry s) (logs s ++ [mkLog l m]) (lookups s) (icmpSequence s),
            Next tt).

(** registry.MustRegister(gauge): it panics when a collector of that name
    is registered already; a new gauge has the value 0. *)
Definition MustRegister {R} (name : string) : Run R unit :=
  fun s =>
    match registry s !! name with
    | Some _ => (s, Panic)
    | None => (mkWorld (w s) (<[name := 0]> (registry s)) (logs s) (lookups s) (icmpSequence s),
               Next tt)
    end.

Definition GaugeSet {R} (name : string) (v : Z) : Run R unit :=
  fun s => (mkWorld (w s) (<[name := v]> (registry s)) (logs s) (lookups s) (icmpSequence s),
            Next tt).

Definition GaugeAdd {R} (name : string) (v : Z) : Run R unit :=
  fun s => (mkWorld (w s) (<[name := default 0 (registry s !! name) + v]> (registry s))
              (logs s) (lookups s) (icmpSequence s),
            Next tt).

(** net.IPAddr, as far as the probers look at it: whether [ip.IP.To4()]
    is nil, and [ip.String()]. *)
Record IPAddr := mkIPAddr { To4_nil : bool; IPString : string }.

(** net.ResolveIPAddr(network, host); the answer is the environment's. *)
Definition ResolveIPAddr {R} (resolver : string -> string -> option IPAddr)
    (network host : string) : Run R (option IPAddr) :=
  fun s => (mkWorld (w s) (registry s) (logs s) (lookups s ++ [(network, host)]) (icmpSequence s),
            Next (resolver network host)).

(** regexp.MatchString(pattern, s): compile, then match. *)
Definition MatchString (Compile : string -> option (string -> bool))
    (pattern s : string) : option bool :=
  match Compile pattern with
  | None => None
  | Some re => Some (re s)
  end.

(** ** Go library functions on strings used by the probers *)

Module GoStrings.

Definition code (c : ascii) : N := N_of_ascii c.

Definition isLower (c : ascii) : bool := ((97 <=? code c) && (code c <=? 122))%N.
Definition isUpper (c : ascii) : bool := ((65 <=? code c) && (code c <=? 90))%N.
Definition isDigit (c : ascii) : bool := ((48 <=? code c) && (code c <=? 57))%N.

Definition toUpper (c : ascii) : ascii :=
  if isLower c then ascii_of_N (code c - 32) else c.
Definition toLower (c : ascii) : ascii :=
  if isUpper c then ascii_of_N (code c + 32) else c.

(** strings.isSeparator on a byte below 0x80: everything but letters,
    digits and the underscore.  The keys met here are ASCII; a byte from
    0x80 on is taken as part of a word. *)
Definition isSeparator (c : ascii) : bool :=
  if (code c <=? 127)%N
  then negb (isDigit c || isLower c || isUpper c || Ascii.eqb c "_")
  else false.

(** strings.Title: the first letter of every word goes to title case,
    every other character stays as it is. *)
Fixpoint TitleFrom (prev : ascii) (s : string) : string :=
  match s with
  | EmptyString => EmptyString
  | String r rest =>
      String (if isSeparator prev then toUpper r else r) (TitleFrom r rest)
  end.

Definition Title (s : string) : string := TitleFrom " " s.

(** net/textproto: the bytes allowed in a header field name. *)
Definition validHeaderFieldByte (c : ascii) : bool :=
  isDigit c || isLower c || isUpper c
  || existsb (Ascii.eqb c) (list_ascii_of_string "!#$%&'*+-.^_`|~").

Fixpoint allBytes (p : ascii -> bool) (s : string) : bool :=
  match s with
  | EmptyString => true
  | String c rest => p c && allBytes p rest
  end.

Fixpoint canonicalFrom (upper : bool) (s : string) : string :=
  match s with
  | EmptyString => EmptyString
  | String c rest =>
      let c' := if upper then toUpper c else toLower c in
      String c' (canonicalFrom (Ascii.eqb c' "-") rest)
  end.

(** textproto.CanonicalMIMEHeaderKey: a well-formed key gets an upper
    case letter first and after every dash and lower case elsewhere; any
    other key is returned as it is. *)
Definition CanonicalMIMEHeaderKey (s : string) : string :=
  if allBytes validHeaderFieldByte s then canonicalFrom true s else s.

(** strings.ContainsAny(s, chars) *)
Fixpoint containsAny (chars : list ascii) (s : string) : bool :=
  match s with
  | EmptyString => false
  | String c rest => existsb (Ascii.eqb c) chars || containsAny chars rest
  end.

(** net.JoinHostPort *)
Definition JoinHostPort (host port : string) : string :=
  if containsAny [":"%char; "%"%char] host
  then "[" ++ host ++ "]:" ++ port
  else host ++ ":" ++ port.

End GoStrings.

(** ** http.go *)

Module HTTP.

(** The fields of the HTTP part of a module that [probeHTTP] reads (the
    declarations of Module and HTTPProbe are not among the sources at
    hand; the fields have the types at which the function uses them).
    [Headers] is a Go map; it is given in the order in which the [range]
    loop of this run visits it. *)
Record HTTPProbe := mkHTTPProbe {
  ValidStatusCodes : list Z;
  NoFollowRedirects : bool;
  FailIfSSL : bool;
  FailIfNotSSL : bool;
  Method : string;
  Headers : list (string * string);
  FailIfMatchesRegexp : list string;
  FailIfNotMatchesRegexp : list string;
  Body : string;
  Protocol : string;
  PreferredIPProtocol : string
}.

Record ModuleConfig := mkModule { Timeout : Z; HTTP : HTTPProbe }.

(** tls.ConnectionState: the NotAfter times of the peer certificates. *)
Definition ConnectionState := list Z.

(** http.Response; [RespBody] is what ioutil.ReadAll returns on the body,
    [None] for a read error. *)
Record Response := mkResponse {
  StatusCode : Z;
  ContentLength : Z;
  TLS : option ConnectionState;
  RespBody : option string
}.

(** &http.Response{} *)
Definition emptyResponse : Response := mkResponse 0 0 None (Some "").

Record Request := mkRequest {
  ReqMethod : string;
  URL : string;
  Host : string;
  Header : gmap string (list string);
  ReqBody : option string
}.

(** What the server does with one request of a redirect chain. *)
Inductive Hop :=
| HopError                    (* the transport fails *)
| HopRedirect (r : Response)  (* a response that the client would follow *)
| HopFinal (r : Response).    (* any other response *)

(** What the calls out of [probeHTTP] return in one run. *)
Record Env := mkEnv {
  url_Parse : string -> option string;            (* the Host of the parsed URL *)
  net_SplitHostPort : string -> option (string * string);
  net_ResolveIPAddr : string -> string -> option IPAddr;
  GenerateConfig : bool;                          (* TLSConfig.GenerateConfig() gave no error *)
  http_NewRequest : string -> string -> option string; (* the Host of the new request *)
  server : Request -> list Hop;
  regexp_Compile : string -> option (string -> bool);
  getEarliestCertExpiry : ConnectionState -> Z    (* UnixNano of the earliest expiry *)
}.

Definition Result : Type := bool * string.

(** *** matchRegularExpressions (lines 30-57) *)

Fixpoint failIfMatches (e : Env) (body : string) (exprs : list string)
    : Run Result unit :=
  match exprs with
  | [] => mret tt
  | expression :: rest =>
      match regexp_Compile e expression with
      | None =>
          logf LError "Could not compile expression %q as regular expression: %s";;
          exit (false, "Could not compile regexp")
      | Some re =>
          if re body then exit (false, "Match failed")
          else failIfMatches e body rest
      end
  end.

Fixpoint failIfNotMatches (e : Env) (body : string) (exprs : list string)
    : Run Result unit :=
  match exprs with
  | [] => mret tt
  | expression :: rest =>
      match regexp_Compile e expression with
      | None =>
          logf LError "Could not compile expression %q as regular expression: %s";;
          exit (false, "Could not compile regexp")
      | Some re =>
          if negb (re body) then exit (false, "Match failed")
          else failIfNotMatches e body rest
      end
  end.

Definition matchRegularExpressions (e : Env) (reader : option string)
    (config : HTTPProbe) : Run Result Result :=
  body ← match reader with
         | None =>
             logf LError "Error reading HTTP body: %s";;
             exit (false, "Error reading HTTP body")
         | Some body => mret body
         end;
  failIfMatches e body (FailIfMatchesRegexp config);;
  failIfNotMatches e body (FailIfNotMatchesRegexp config);;
  exit (true, "").

(** *** The pieces of probeHTTP *)

(** client.CheckRedirect (lines 132-138): the new value of [redirects]
    and whether an error is returned. *)
Definition CheckRedirect (config : HTTPProbe) (via : Z) : Z * bool :=
  let redirects := via in
  (redirects, (10 <? redirects) || NoFollowRedirects config).

(** What client.Do hands back: an error and no response, or a response,
    together with an error when CheckRedirect stopped the chain. *)
Inductive DoResult :=
| DoError
| DoResponse (resp : Response) (err : bool).

Definition closeBody (r : Response) : Response :=
  mkResponse (StatusCode r) (ContentLength r) (TLS r) None.

(** net/http's client.Do over the answers of the server: [via] requests
    have been made before the one that meets the first hop.  Before a
    redirect is followed CheckRedirect is asked with all requests made so
    far; when it objects, the last response comes back with its body
    closed and with the error. *)
Fixpoint clientDo (config : HTTPProbe) (hops : list Hop) (via redirects : Z)
    : DoResult * Z :=
  match hops with
  | [] => (DoError, redirects)
  | HopError :: _ => (DoError, redirects)
  | HopFinal r :: _ => (DoResponse r false, redirects)
  | HopRedirect r :: rest =>
      let '(redirects', stop) := CheckRedirect config (via + 1) in
      if stop then (DoResponse (closeBody r) true, redirects')
      else clientDo config rest (via + 1) redirects'
  end.

(** The body of the loop over config.Headers (lines 150-156). *)
Definition setHeader (request : Request) (kv : string * string) : Request :=
  let '(key, value) := kv in
  if String.eqb (GoStrings.Title key) "Host"
  then mkRequest (ReqMethod request) (URL request) value (Header request) (ReqBody request)
  else mkRequest (ReqMethod request) (URL request) (Host request)
         (<[GoStrings.CanonicalMIMEHeaderKey key := [value]]> (Header request))
         (ReqBody request).

Definition setHeaders (headers : list (string * string)) (request : Request) : Request :=
  fold_left setHeader headers request.

(** The loop over config.ValidStatusCodes (lines 170-176), which stops at
    the first code equal to the status. *)
Fixpoint inValidStatusCodes (status : Z) (codes : list Z) : bool :=
  match codes with
  | [] => false
  | c :: rest => if status =? c then true else inValidStatusCodes status rest
  end.

(** The value of [success] after lines 169-180. *)
Definition statusCheck (config : HTTPProbe) (resp : Response) : bool :=
  if negb (length (ValidStatusCodes config) =? 0)%nat
  then inValidStatusCodes (StatusCode resp) (ValidStatusCodes config)
  else (200 <=? StatusCode resp) && (StatusCode resp <? 300).

(** Lines 65-105: the families, the target with its scheme, and the dial
    protocol. *)
Definition resolveDialProtocol (e : Env) (target : string) (module : ModuleConfig)
    : Run Result (string * string) :=
  let Protocol' :=
    if String.eqb (Protocol (HTTP module)) "" then "tcp" else Protocol (HTTP module) in
  let PreferredIPProtocol' :=
    if String.eqb Protocol' "tcp" && String.eqb (PreferredIPProtocol (HTTP module)) ""
    then "ip6" else PreferredIPProtocol (HTTP module) in
  let fallbackProtocol :=
    if String.eqb PreferredIPProtocol' "ip6" then "ip4" else "ip6" in
  let target :=
    if negb (String.prefix "http://" target) && negb (String.prefix "https://" target)
    then "http://" ++ target else target in
  if String.eqb Protocol' "tcp" then
    match url_Parse e target with
    | None => exit (false, "Could not parse target URL")
    | Some targetURL_Host =>
        let targetHost :=
          match net_SplitHostPort e targetURL_Host with
          | Some (host, _) => host
          | None => targetURL_Host
          end in
        first ← ResolveIPAddr (net_ResolveIPAddr e) PreferredIPProtocol' targetHost;
        ip ← match first with
             | Some ip => mret ip
             | None =>
                 second ← ResolveIPAddr (net_ResolveIPAddr e) fallbackProtocol targetHost;
                 match second with
                 | Some ip => mret ip
                 | None => exit (false, "Error resolving address")
                 end
             end;
        mret (target, if To4_nil ip then "tcp6" else "tcp4")
    end
  else mret (target, Protocol').

(** Lines 163-185: the request is made and the answer is judged. *)
Definition judge (e : Env) (config : HTTPProbe) (answer : DoResult)
    : Run Result Result :=
  match answer with
  | DoError =>
      logf LWarn "Error for HTTP request to %s: %s";;
      mret (false, "")
  | DoResponse resp _ =>
      let success := statusCheck config resp in
      if success && ((0 <? length (FailIfMatchesRegexp config))%nat
                     || (0 <? length (FailIfNotMatchesRegexp config))%nat)
      then call (matchRegularExpressions e (RespBody resp) config)
      else mret (success, "")
  end.

(** Lines 187-207: the TLS policy and the remaining lines of output. *)
Definition report (e : Env) (config : HTTPProbe) (answer : DoResult)
    (redirects : Z) (verdict : Result) : Run Result Result :=
  let resp := match answer with DoError => emptyResponse | DoResponse resp _ => resp end in
  '(isSSL, verdict) ←
    match TLS resp with
    | Some state =>
        Fprint "probe_ssl_earliest_cert_expiry" (getEarliestCertExpiry e state);;
        mret (1, if FailIfSSL config then (false, "SSL failed") else verdict)
    | None =>
        mret (0, if FailIfNotSSL config then (false, "SSL failed") else verdict)
    end;
  Fprint "probe_http_status_code" (StatusCode resp);;
  Fprint "probe_http_content_length" (ContentLength resp);;
  Fprint "probe_http_redirects" redirects;;
  Fprint "probe_http_ssl" isSSL;;
  exit verdict.

(** Lines 59-161: everything up to the request that will be sent. *)
Definition prepare (e : Env) (target : string) (module : ModuleConfig)
    : Run Result Request :=
  let config := HTTP module in
  '(target, dialProtocol) ← resolveDialProtocol e target module;
  (if String.eqb dialProtocol "tcp6"
   then Fprint "probe_ip_protocol" 6
   else Fprint "probe_ip_protocol" 4);;
  when_ (negb (GenerateConfig e))
    (logf LError "Error generating TLS config: %s";;
     exit (false, "Error generating TLS config"));;
  let Method' := if String.eqb (Method config) "" then "GET" else Method config in
  request ← match http_NewRequest e Method' target with
            | None =>
                logf LError "Error creating request for target %s: %s";;
                exit (false, "Error creating request for target")
            | Some host => mret (mkRequest Method' target host ∅ None)
            end;
  let request := setHeaders (Headers config) request in
  mret (if negb (String.eqb (Body config) "")
        then mkRequest (ReqMethod request) (URL request) (Host request) (Header request)
               (Some (Body config))
        else request).

(** *** probeHTTP (lines 59-208) *)

Definition probeHTTP (e : Env) (target : string) (module : ModuleConfig)
    : Run Result Result :=
  let config := HTTP module in
  request ← prepare e target module;
  let '(answer, redirects) := clientDo config (server e request) 0 0 in
  verdict ← judge e config answer;
  report e config answer redirects verdict.

End HTTP.

(** ** icmp.go, in its two versions *)

Module ICMP.

Record ICMPProbe := mkICMPProbe {
  Protocol : string;
  PreferredIPProtocol : string
}.

Record ModuleConfig := mkModule { Timeout : Z; ICMP : ICMPProbe }.

(** icmp.Type is an interface; its values here are of the types
    ipv4.ICMPType and ipv6.ICMPType, and two of them are equal when they
    have the same type and the same number. *)
Inductive ICMPType :=
| ipv4_ICMPType (n : Z)
| ipv6_ICMPType (n : Z).

#[global] Instance ICMPType_eq_dec : EqDecision ICMPType.
Proof. solve_decision. Defined.

Definition ipv4_ICMPTypeEcho : ICMPType := ipv4_ICMPType 8.
Definition ipv4_ICMPTypeEchoReply : ICMPType := ipv4_ICMPType 0.
Definition ipv6_ICMPTypeEchoRequest : ICMPType := ipv6_ICMPType 128.
Definition ipv6_ICMPTypeEchoReply : ICMPType := ipv6_ICMPType 129.

Abbreviation bytes := (list Z).

Record Echo := mkEcho { ID : Z; Seq : Z; Data : bytes }.
Record Message := mkMessage { Type_ : ICMPType; Code : Z; MsgBody : Echo }.

(** []byte(s) *)
Definition bytesOf (s : string) : bytes :=
  map (fun c => Z.of_N (N_of_ascii c)) (list_ascii_of_string s).

(** What one socket.ReadFrom(rb) returns. *)
Inductive ReadResult :=
| ReadTimeout                               (* a net.Error whose Timeout() holds *)
| ReadFailure                               (* any other error *)
| ReadPacket (data : bytes) (peer : string). (* a datagram, and peer.String() *)

(** What the calls out of [probeICMP] return in one run. *)
Record Env := mkEnv {
  net_ResolveIPAddr : string -> string -> option IPAddr;
  lookupTime : Z;                                (* time.Since(resolveStart) *)
  icmp_ListenPacket : string -> string -> bool;  (* no error *)
  os_Getpid : Z;
  Marshal : Message -> option bytes;
  WriteTo : bytes -> IPAddr -> bool;             (* no error *)
  SetReadDeadline : bool;                        (* no error *)
  reads : list ReadResult
}.

(** *** getICMPSequence (lines 32-42 of both versions)

    The mutex makes the increment and the read one step; [icmpSequence]
    is a uint16, so the increment wraps. *)
Definition getICMPSequence {R} : Run R Z :=
  fun s =>
    let next := (icmpSequence s + 1) mod 65536 in
    (mkWorld (w s) (registry s) (logs s) (lookups s) next, Next next).

(** [n] calls one after the other, whatever goroutines make them: the
    values returned, first call first. *)
Fixpoint sequenceCalls (n : nat) (s : World) : list Z * World :=
  match n with
  | O => ([], s)
  | S n' =>
      match @getICMPSequence Z s with
      | (s', Next v) => let '(vs, s'') := sequenceCalls n' s' in (v :: vs, s'')
      | (s', _) => ([], s')
      end
  end.

(** Lines 54-74 (65-85): the family asked for first and the fallback. *)
Definition families (module : ModuleConfig) : string * string :=
  let Protocol' :=
    if String.eqb (Protocol (ICMP module)) "" then "icmp" else Protocol (ICMP module) in
  let PreferredIPProtocol' :=
    if String.eqb Protocol' "icmp" && String.eqb (PreferredIPProtocol (ICMP module)) ""
    then "ip6" else PreferredIPProtocol (ICMP module) in
  if String.eqb Protocol' "icmp4" then ("ip4", "")
  else if String.eqb Protocol' "icmp6" then ("ip6", "")
  else if String.eqb PreferredIPProtocol' "ip6" then (PreferredIPProtocol', "ip4")
  else (PreferredIPProtocol', "ip6").

(** Lines 76-80 (87-91): the lookup, and a second one when the first
    failed and there is a fallback. *)
Definition resolve {R} (e : Env) (target : string) (module : ModuleConfig)
    : Run R (option IPAddr) :=
  let '(PreferredIPProtocol', fallbackProtocol) := families module in
  first ← ResolveIPAddr (net_ResolveIPAddr e) PreferredIPProtocol' target;
  match first with
  | None =>
      if negb (String.eqb fallbackProtocol "")
      then ResolveIPAddr (net_ResolveIPAddr e) fallbackProtocol target
      else mret first
  | Some _ => mret first
  end.

(** One socket.ReadFrom(rb) that brings a datagram: it fills the start of
    the buffer and gives the number of bytes put there. *)
Definition ReadFrom (rb data : bytes) : bytes * nat :=
  let n := Nat.min (length data) (length rb) in
  ((take n data ++ drop n rb)%list, n).

(** rb[2] = 0; rb[3] = 0 *)
Definition clearChecksum (rb : bytes) : bytes := <[3%nat := 0]> (<[2%nat := 0]> rb).

Definition wm (e : Env) (type : ICMPType) (seq : Z) : Message :=
  mkMessage type 0
    (mkEcho (Z.land (os_Getpid e) 65535) seq (bytesOf "Prometheus Blackbox Exporter")).

(** *** The version that writes to the response writer (icmp.go) *)

Module Writer.

Definition Result : Type := bool * string.

(** The loop of lines 139-160. *)
Fixpoint readLoop (ip : IPAddr) (replyType : ICMPType) (wb rb : bytes)
    (events : list ReadResult) : Run Result Result :=
  match events with
  | [] => fun s => (s, Blocked)
  | ReadTimeout :: _ =>
      logf LWarn "Timeout reading from socket for %s: %s";;
      exit (false, "Timeout reading from socket")
  | ReadFailure :: rest =>
      logf LError "Error reading from socket for %s: %s";;
      readLoop ip replyType wb rb rest
  | ReadPacket data peer :: rest =>
      let '(rb, n) := ReadFrom rb data in
      if negb (String.eqb peer (IPString ip)) then readLoop ip replyType wb rb rest
      else
        let rb := if decide (replyType = ipv6_ICMPTypeEchoReply)
                  then clearChecksum rb else rb in
        if decide (take n rb = wb) then exit (true, "")
        else readLoop ip replyType wb rb rest
  end.

(** Lines 88-160: the socket, the echo request and the wait for the reply. *)
Definition echo (e : Env) (ip : IPAddr) : Run Result Result :=
  '(requestType, replyType, listening) ←
    (if To4_nil ip
     then Fprint "probe_ip_protocol" 6;;
          mret (ipv6_ICMPTypeEchoRequest, ipv6_ICMPTypeEchoReply,
                icmp_ListenPacket e "ip6:ipv6-icmp" "::")
     else Fprint "probe_ip_protocol" 4;;
          mret (ipv4_ICMPTypeEcho, ipv4_ICMPTypeEchoReply,
                icmp_ListenPacket e "ip4:icmp" "0.0.0.0"));
  when_ (negb listening)
    (logf LError "Error listening to socket for %s: %s";;
     exit (false, "Error listening to socket"));;
  seq ← getICMPSequence;
  wb ← match Marshal e (wm e requestType seq) with
       | None =>
           logf LError "Error marshalling packet for %s: %s";;
           exit (false, "Error marshalling packet")
       | Some wb => mret wb
       end;
  when_ (negb (WriteTo e wb ip))
    (logf LWarn "Error writing to socket for %s: %s";;
     exit (false, "Error writing to socket"));;
  wb ← match Marshal e (wm e replyType seq) with
       | None =>
           logf LError "Error marshalling packet for %s: %s";;
           exit (false, "Error marshalling packet")
       | Some wb => mret wb
       end;
  let rb := replicate 1500 0 in
  when_ (negb (SetReadDeadline e))
    (logf LError "Error setting socket deadline for %s: %s";;
     exit (false, "Error setting socket deadline"));;
  readLoop ip replyType wb rb (reads e).

(** *** probeICMP (lines 44-161) *)

Definition probeICMP (e : Env) (target : string) (module : ModuleConfig)
    : Run Result Result :=
  resolved ← resolve e target module;
  Fprint "probe_dns_lookup_time_seconds" (lookupTime e);;
  ip ← match resolved with
       | None =>
           logf LWarn "Error resolving address %s: %s";;
           exit (false, "Error resolving address")
       | Some ip => mret ip
       end;
  echo e ip.

End Writer.

(** *** The version that sets registered gauges *)

Module Gauges.

(** The loop of lines 150-171; a bare return gives [success], which is
    false until the reply is found. *)
Fixpoint readLoop (ip : IPAddr) (replyType : ICMPType) (wb rb : bytes)
    (events : list ReadResult) : Run bool bool :=
  match events with
  | [] => fun s => (s, Blocked)
  | ReadTimeout :: _ =>
      logf LWarn "Timeout reading from socket for %s: %s";;
      exit false
  | ReadFailure :: rest =>
      logf LError "Error reading from socket for %s: %s";;
      readLoop ip replyType wb rb rest
  | ReadPacket data peer :: rest =>
      let '(rb, n) := ReadFrom rb data in
      if negb (String.eqb peer (IPString ip)) then readLoop ip replyType wb rb rest
      else
        let rb := if decide (replyType = ipv6_ICMPTypeEchoReply)
                  then clearChecksum rb else rb in
        if decide (take n rb = wb) then exit true
        else readLoop ip replyType wb rb rest
  end.

(** Lines 99-171: the socket, the echo request and the wait for the reply. *)
Definition echo (e : Env) (ip : IPAddr) : Run bool bool :=
  '(requestType, replyType, listening) ←
    (if To4_nil ip
     then GaugeSet "probe_ip_protocol" 6;;
          mret (ipv6_ICMPTypeEchoRequest, ipv6_ICMPTypeEchoReply,
                icmp_ListenPacket e "ip6:ipv6-icmp" "::")
     else GaugeSet "probe_ip_protocol" 4;;
          mret (ipv4_ICMPTypeEcho, ipv4_ICMPTypeEchoReply,
                icmp_ListenPacket e "ip4:icmp" "0.0.0.0"));
  when_ (negb listening)
    (logf LError "Error listening to socket for %s: %s";;
     exit false);;
  seq ← getICMPSequence;
  wb ← match Marshal e (wm e requestType seq) with
       | None =>
           logf LError "Error marshalling packet for %s: %s";;
           exit false
       | Some wb => mret wb
       end;
  when_ (negb (WriteTo e wb ip))
    (logf LWarn "Error writing to socket for %s: %s";;
     exit false);;
  wb ← match Marshal e (wm e replyType seq) with
       | None =>
           logf LError "Error marshalling packet for %s: %s";;
           exit false
       | Some wb => mret wb
       end;
  let rb := replicate 1500 0 in
  when_ (negb (SetReadDeadline e))
    (logf LError "Error setting socket deadline for %s: %s";;
     exit false);;
  readLoop ip replyType wb rb (reads e).

(** *** probeICMP (lines 44-172) *)

Definition probeICMP (e : Env) (target : string) (module : ModuleConfig)
    : Run bool bool :=
  MustRegister "probe_ip_protocol";;
  MustRegister "probe_dns_lookup_time_seconds";;
  resolved ← resolve e target module;
  GaugeAdd "probe_dns_lookup_time_seconds" (lookupTime e);;
  ip ← match resolved with
       | None =>
           logf LWarn "Error resolving address %s: %s";;
           exit false
       | Some ip => mret ip
       end;
  echo e ip.

End Gauges.

End ICMP.

(** ** The DNS prober (package prober) *)

Module DNS.

Record DNSRRValidator := mkValidator {
  FailIfMatchesRegexp : list string;
  FailIfNotMatchesRegexp : list string
}.

(** [ValidRcodes] is a slice that [validRcode] compares with nil: [None]
    is the nil slice, [Some l] a slice that is not nil, empty or not. *)
Record DNSProbe := mkDNSProbe {
  TransportProtocol : string;
  PreferredIPProtocol : string;
  QueryName : string;
  QueryType : string;
  ValidRcodes : option (list string);
  ValidateAnswer : DNSRRValidator;
  ValidateAuthority : DNSRRValidator;
  ValidateAdditional : DNSRRValidator
}.

Record ModuleConfig := mkModule { DNS : DNSProbe }.

(** dns.RR, of which only String() is used: a record is its text. *)
Definition RR := string.

Record Msg := mkMsg {
  Rcode : Z;
  Answer : list RR;
  Ns : list RR;
  Extra : list RR
}.

(** What the calls out of [ProbeDNS] return in one run.  [chooseProtocol]
    is a function of the prober package that is not among the sources at
    hand; what it returns is taken from the environment, and what it
    registers is left out. *)
Record Env := mkEnv {
  net_SplitHostPort : string -> option (string * string);
  chooseProtocol : string -> string -> option IPAddr;
  dns_StringToRcode : gmap string Z;
  dns_StringToType : gmap string Z;
  dns_Fqdn : string -> string;
  Exchange : string -> string -> string -> Z -> option Msg; (* net, address, name, type *)
  regexp_Compile : string -> option (string -> bool)
}.

Definition dns_TypeANY : Z := 255.

(** *** validRRs (lines 30-61) *)

Fixpoint failIfMatches (e : Env) (rr : RR) (res : list string) : Run bool unit :=
  match res with
  | [] => mret tt
  | re :: rest =>
      match MatchString (regexp_Compile e) re rr with
      | None =>
          logf LError "Error matching regexp %q: %s";;
          exit false
      | Some matched =>
          if matched then exit false else failIfMatches e rr rest
      end
  end.

Fixpoint failIfNotMatches (e : Env) (rr : RR) (res : list string) : Run bool unit :=
  match res with
  | [] => mret tt
  | re :: rest =>
      match MatchString (regexp_Compile e) re rr with
      | None =>
          logf LError "Error matching regexp %q: %s";;
          exit false
      | Some matched =>
          if negb matched then exit false else failIfNotMatches e rr rest
      end
  end.

Fixpoint eachRR (e : Env) (rrs : list RR) (v : DNSRRValidator) : Run bool unit :=
  match rrs with
  | [] => mret tt
  | rr :: rest =>
      logf LDebug "Validating RR: %q";;
      failIfMatches e rr (FailIfMatchesRegexp v);;
      failIfNotMatches e rr (FailIfNotMatchesRegexp v);;
      eachRR e rest v
  end.

Definition validRRs (e : Env) (rrs : list RR) (v : DNSRRValidator) : Run bool bool :=
  when_ ((length rrs =? 0)%nat && (0 <? length (FailIfNotMatchesRegexp v))%nat)
    (exit false);;
  eachRR e rrs v;;
  exit true.

(** *** validRcode (lines 63-86) *)

Fixpoint appendRcodes (e : Env) (valid : list string) (validRcodes : list Z)
    : Run bool (list Z) :=
  match valid with
  | [] => mret validRcodes
  | rcode :: rest =>
      match dns_StringToRcode e !! rcode with
      | None =>
          logf LError "Invalid rcode";;
          exit false
      | Some rc => appendRcodes e rest (validRcodes ++ [rc])
      end
  end.

Fixpoint findRcode (rcode : Z) (validRcodes : list Z) : Run bool unit :=
  match validRcodes with
  | [] => mret tt
  | rc :: rest => if rcode =? rc then exit true else findRcode rcode rest
  end.

Definition validRcode (e : Env) (rcode : Z) (valid : option (list string))
    : Run bool bool :=
  validRcodes ← match valid with
                | None => mret [default 0 (dns_StringToRcode e !! "NOERROR")]
                | Some valid => appendRcodes e valid []
                end;
  findRcode rcode validRcodes;;
  logf LError "Rcode is not one of the valid rcodes";;
  exit false.

(** *** ProbeDNS (lines 88-184) *)

(** The record counts that the deferred function will set. *)
Definition Counts : Type := Z * Z * Z.

(** Lines 115-163: the query is sent.  A return carries, next to its
    value, the values that numAnswer, numAuthority and numAdditional have
    at that point. *)
Definition query (e : Env) (target : string) (module : ModuleConfig)
    : Run (bool * Counts) Msg :=
  let none : Counts := (0, 0, 0) in
  let TransportProtocol' :=
    if String.eqb (TransportProtocol (DNS module)) "" then "udp"
    else TransportProtocol (DNS module) in
  '(ip, target) ←
    (if String.eqb TransportProtocol' "udp" || String.eqb TransportProtocol' "tcp"
     then
       let '(targetAddr, port) :=
         match net_SplitHostPort e target with
         | Some hp => hp
         | None => (target, "53")
         end in
       match chooseProtocol e (PreferredIPProtocol (DNS module)) targetAddr with
       | None =>
           logf LError "Error resolving address";;
           exit (false, none)
       | Some ip => mret (ip, GoStrings.JoinHostPort (IPString ip) port)
       end
     else
       logf LError "Configuration error: Expected transport protocol udp or tcp";;
       exit (false, none));
  let dialProtocol := TransportProtocol' ++ (if To4_nil ip then "6" else "4") in
  qt ← (if negb (String.eqb (QueryType (DNS module)) "")
        then match dns_StringToType e !! QueryType (DNS module) with
             | None =>
                 logf LError "Invalid query type";;
                 exit (false, none)
             | Some qt => mret qt
             end
        else mret dns_TypeANY);
  match Exchange e dialProtocol target (dns_Fqdn e (QueryName (DNS module))) qt with
  | None =>
      logf LWarn "Error while sending a DNS query";;
      exit (false, none)
  | Some response => mret response
  end.

(** Lines 164-183: the response is judged. *)
Definition validate (e : Env) (module : ModuleConfig) (response : Msg)
    : Run (bool * Counts) (bool * Counts) :=
  logf LDebug "Got response: %#v";;
  let counts : Counts :=
    (Z.of_nat (length (Answer response)), Z.of_nat (length (Ns response)),
     Z.of_nat (length (Extra response))) in
  ok ← call (validRcode e (Rcode response) (ValidRcodes (DNS module)));
  when_ (negb ok) (exit (false, counts));;
  ok ← call (validRRs e (Answer response) (ValidateAnswer (DNS module)));
  when_ (negb ok)
    (logf LDebug "Answer RRs validation failed";;
     exit (false, counts));;
  ok ← call (validRRs e (Ns response) (ValidateAuthority (DNS module)));
  when_ (negb ok)
    (logf LDebug "Authority RRs validation failed";;
     exit (false, counts));;
  ok ← call (validRRs e (Extra response) (ValidateAdditional (DNS module)));
  when_ (negb ok)
    (logf LDebug "Additional RRs validation failed";;
     exit (false, counts));;
  exit (true, counts).

Definition probe (e : Env) (target : string) (module : ModuleConfig)
    : Run (bool * Counts) (bool * Counts) :=
  response ← query e target module;
  validate e module response.

Definition ProbeDNS (e : Env) (target : string) (module : ModuleConfig)
    : Run bool bool :=
  MustRegister "probe_dns_answer_rrs";;
  MustRegister "probe_dns_authority_rrs";;
  MustRegister "probe_dns_additional_rrs";;
  '(ret, (numAnswer, numAuthority, numAdditional)) ← call (probe e target module);
  (* the deferred function *)
  GaugeSet "probe_dns_answer_rrs" numAnswer;;
  GaugeSet "probe_dns_authority_rrs" numAuthority;;
  GaugeSet "probe_dns_additional_rrs" numAdditional;;
  exit ret.

End DNS.

(** ** What the statements below are about *)

Module Spec.

(** The status rule in the words of the specification: the code is in
    ValidStatusCodes when that list is not empty, in [200,300) otherwise. *)
Definition statusAccepted (codes : list Z) (status : Z) : Prop :=
  match codes with
  | [] => 200 <= status < 300
  | _ :: _ => In status codes
  end.

(** A body check is configured. *)
Definition regexpsConfigured (config : HTTP.HTTPProbe) : bool :=
  negb ((length (HTTP.FailIfMatchesRegexp config) =? 0)%nat
        && (length (HTTP.FailIfNotMatchesRegexp config) =? 0)%nat).

(** The body check lets the body through: it could be read, every
    FailIfMatchesRegexp pattern compiles and does not match it, every
    FailIfNotMatchesRegexp pattern compiles and matches it. *)
Definition bodyAccepted (e : HTTP.Env) (config : HTTP.HTTPProbe)
    (body : option string) : bool :=
  match body with
  | None => false
  | Some b =>
      forallb (fun p => match HTTP.regexp_Compile e p with
                        | Some re => negb (re b)
                        | None => false
                        end) (HTTP.FailIfMatchesRegexp config)
      && forallb (fun p => match HTTP.regexp_Compile e p with
                           | Some re => re b
                           | None => false
                           end) (HTTP.FailIfNotMatchesRegexp config)
  end.

(** The TLS policy forces failure: TLS seen and FailIfSSL, or no TLS and
    FailIfNotSSL. *)
Definition tlsForcesFailure (config : HTTP.HTTPProbe) (resp : HTTP.Response) : bool :=
  match HTTP.TLS resp with
  | Some _ => HTTP.FailIfSSL config
  | None => HTTP.FailIfNotSSL config
  end.

(** The family that is not the preferred one. *)
Definition otherFamily (family : string) : string :=
  if String.eqb family "ip6" then "ip4" else "ip6".

(** The preferred family, ip6 when none is set. *)
Definition preferredFamily (preferred : string) : string :=
  if String.eqb preferred "" then "ip6" else preferred.

(** The lookups that the resolution policy asks for: the preferred
    family, and the other one after it if and only if the first lookup
    failed. *)
Definition attempts (resolver : string -> string -> option IPAddr)
    (preferred host : string) : list (string * string) :=
  match resolver preferred host with
  | Some _ => [(preferred, host)]
  | None => [(preferred, host); (otherFamily preferred, host)]
  end.

(** The target with its scheme (lines 77-79 of http.go). *)
Definition withScheme (target : string) : string :=
  if negb (String.prefix "http://" target) && negb (String.prefix "https://" target)
  then "http://" ++ target else target.

(** The host that probeHTTP resolves, from the Host of the URL. *)
Definition hostToResolve (e : HTTP.Env) (urlHost : string) : string :=
  match HTTP.net_SplitHostPort e urlHost with
  | Some (host, _) => host
  | None => urlHost
  end.

(** The world after one more log call. *)
Definition logged (s : World) (l : Level) (m : string) : World :=
  mkWorld (w s) (registry s) (logs s ++ [mkLog l m]) (lookups s) (icmpSequence s).

(** The bytes of a datagram that the read loop of probeICMP compares with
    the expected reply, for a buffer of [size] bytes: the part that fits
    the buffer, with bytes 2 and 3 set to zero when the reply type is the
    IPv6 one. *)
Definition compared (replyType : ICMP.ICMPType) (size : nat) (data : list Z) : list Z :=
  let received := take (Nat.min (length data) size) data in
  if decide (replyType = ICMP.ipv6_ICMPTypeEchoReply)
  then ICMP.clearChecksum received else received.

(** The two versions of probeICMP end alike: both return, with the same
    success, or both are still reading. *)
Definition sameOutcome (writer : Step (bool * string) (bool * string))
    (gauges : Step bool bool) : Prop :=
  match writer, gauges with
  | Return (success, _), Return success' => success = success'
  | Blocked, Blocked => True
  | _, _ => False
  end.

(** The rcodes that the names of a list stand for. *)
Fixpoint rcodesOf (e : DNS.Env) (names : list string) : list Z :=
  match names with
  | [] => []
  | name :: rest =>
      match DNS.dns_StringToRcode e !! name with
      | Some rc => rc :: rcodesOf e rest
      | None => rcodesOf e rest
      end
  end.

(** validRcode lets the rcode through.  With no list (the nil slice)
    that is the rcode of NOERROR; with a list, every name of the list has
    to be an rcode name and one of them has to be the name of the rcode. *)
Definition rcodeAccepted (e : DNS.Env) (rcode : Z) (valid : option (list string)) : bool :=
  match valid with
  | None => rcode =? default 0 (DNS.dns_StringToRcode e !! "NOERROR")
  | Some names =>
      forallb (fun name => bool_decide (is_Some (DNS.dns_StringToRcode e !! name))) names
      && existsb (fun name => bool_decide (DNS.dns_StringToRcode e !! name = Some rcode)) names
  end.

(** validRRs lets one record through: every FailIfMatchesRegexp pattern
    compiles and does not match its text, every FailIfNotMatchesRegexp
    pattern compiles and matches it. *)
Definition rrAccepted (e : DNS.Env) (v : DNS.DNSRRValidator) (rr : DNS.RR) : bool :=
  forallb (fun re => bool_decide (MatchString (DNS.regexp_Compile e) re rr = Some false))
    (DNS.FailIfMatchesRegexp v)
  && forallb (fun re => bool_decide (MatchString (DNS.regexp_Compile e) re rr = Some true))
       (DNS.FailIfNotMatchesRegexp v).

(** validRRs lets a section through. *)
Definition rrsAccepted (e : DNS.Env) (v : DNS.DNSRRValidator) (rrs : list DNS.RR) : bool :=
  negb ((length rrs =? 0)%nat && (0 <? length (DNS.FailIfNotMatchesRegexp v))%nat)
  && forallb (rrAccepted e v) rrs.

(** The response that the last part of probeHTTP looks at. *)
Definition reported (answer : HTTP.DoResult) : HTTP.Response :=
  match answer with
  | HTTP.DoError => HTTP.emptyResponse
  | HTTP.DoResponse resp _ => resp
  end.

(** The lines that the last part of probeHTTP writes. *)
Definition reportLines (e : HTTP.Env) (resp : HTTP.Response) (redirects : Z) : list Sample :=
  (match HTTP.TLS resp with
   | Some state => [mkSample "probe_ssl_earliest_cert_expiry" (HTTP.getEarliestCertExpiry e state)]
   | None => []
   end ++
   [mkSample "probe_http_status_code" (HTTP.StatusCode resp);
    mkSample "probe_http_content_length" (HTTP.ContentLength resp);
    mkSample "probe_http_redirects" redirects;
    mkSample "probe_http_ssl" (match HTTP.TLS resp with Some _ => 1 | None => 0 end)])%list.

End Spec.

(** ** Environments and modules of the examples *)

Module Examples.

(** strings.Contains *)
Fixpoint contains (sub s : string) : bool :=
  String.prefix sub s ||
  match s with
  | EmptyString => false
  | String _ rest => contains sub rest
  end.

(** regexp.Compile on the patterns of the examples.  A pattern made of
    letters, digits and spaces only is a regular expression that matches
    the texts which contain it.  The one other pattern used is ":[", which
    is no regular expression (the tests of the config package use it for
    that); it gets an error, as does anything else that is not plain. *)
Definition plain (c : ascii) : bool :=
  GoStrings.isDigit c || GoStrings.isLower c || GoStrings.isUpper c || Ascii.eqb c " ".

Definition Compile (pattern : string) : option (string -> bool) :=
  if GoStrings.allBytes plain pattern then Some (contains pattern) else None.

(** Hosts: "example.com" has an address in both families, "v4.example"
    in ip4 only, "nowhere.example" in none. *)
Definition resolver (network host : string) : option IPAddr :=
  if String.eqb host "example.com" then
    if String.eqb network "ip4" then Some (mkIPAddr false "192.0.2.1")
    else Some (mkIPAddr true "2001:db8::1")
  else if String.eqb host "v4.example" then
    if String.eqb network "ip4" then Some (mkIPAddr false "192.0.2.7") else None
  else None.

(** url.Parse on "http://" followed by a bare host. *)
Definition hostOfURL (target : string) : option string :=
  if String.prefix "http://" target
  then Some (substring 7 (String.length target - 7) target)
  else None.

Definition httpEnv (hops : list HTTP.Hop) : HTTP.Env :=
  HTTP.mkEnv hostOfURL (fun _ => None) resolver true (fun _ target => hostOfURL target)
    (fun _ => hops) Compile (fun state => fold_right Z.min 0 state).

Definition httpProbe : HTTP.HTTPProbe :=
  HTTP.mkHTTPProbe [] false false false "" [] [] [] "" "" "".

Definition httpModule : HTTP.ModuleConfig := HTTP.mkModule 5000000000 httpProbe.

Definition response (status : Z) : HTTP.Response :=
  HTTP.mkResponse status 12 None (Some "Hello world!").

(** The same module with fail_if_not_ssl set. *)
Definition httpModuleNotSSL : HTTP.ModuleConfig :=
  HTTP.mkModule 5000000000
    (HTTP.mkHTTPProbe [] false false true "" [] [] [] "" "" "").


(** A module whose one header is spelled "hOST". *)
Definition httpModuleHost : HTTP.ModuleConfig :=
  HTTP.mkModule 5000000000
    (HTTP.mkHTTPProbe [] false false false "" [("hOST", "other.example")] [] [] "" "" "").

Definition icmpModule (protocol preferred : string) : ICMP.ModuleConfig :=
  ICMP.mkModule 5000000000 (ICMP.mkICMPProbe protocol preferred).

(** icmp.Message.Marshal(nil) for an echo message: type, code, a zero
    checksum, identifier, sequence number, data.  (The checksum of an
    IPv4 message is left at zero here as well.) *)
Definition marshal (m : ICMP.Message) : option ICMP.bytes :=
  let type := match ICMP.Type_ m with
              | ICMP.ipv4_ICMPType n | ICMP.ipv6_ICMPType n => n
              end in
  let body := ICMP.MsgBody m in
  Some ([type; ICMP.Code m; 0; 0;
         Z.shiftr (ICMP.ID body) 8; Z.land (ICMP.ID body) 255;
         Z.shiftr (ICMP.Seq body) 8; Z.land (ICMP.Seq body) 255]
        ++ ICMP.Data body)%list.

(** Entries of dns.StringToRcode. *)
Definition StringToRcode : gmap string Z :=
  list_to_map
    [("NOERROR", 0); ("FORMERR", 1); ("SERVFAIL", 2); ("NXDOMAIN", 3); ("NOTIMP", 4);
     ("REFUSED", 5); ("YXDOMAIN", 6); ("YXRRSET", 7); ("NXRRSET", 8);
     ("NOTAUTH", 9); ("NOTZONE", 10)].

(** Some entries of dns.StringToType. *)
Definition StringToType : gmap string Z :=
  list_to_map [("A", 1); ("NS", 2); ("CNAME", 5); ("SOA", 6); ("MX", 15); ("TXT", 16);
               ("AAAA", 28); ("ANY", 255)].

Fixpoint endsWithDot (s : string) : bool :=
  match s with
  | EmptyString => false
  | String c EmptyString => Ascii.eqb c "."
  | String _ rest => endsWithDot rest
  end.

(** dns.Fqdn on names without escapes. *)
Definition Fqdn (s : string) : string := if endsWithDot s then s else s ++ ".".

(** A server that answers every query with [response]. *)
Definition dnsEnv (response : DNS.Msg) : DNS.Env :=
  DNS.mkEnv (fun _ => None)
    (fun preferred host =>
       match resolver (Spec.preferredFamily preferred) host with
       | Some ip => Some ip
       | None => resolver (Spec.otherFamily (Spec.preferredFamily preferred)) host
       end)
    StringToRcode StringToType Fqdn (fun _ _ _ _ => Some response) Compile.

Definition noValidator : DNS.DNSRRValidator := DNS.mkValidator [] [].

Definition dnsModule (valid : option (list string)) : DNS.ModuleConfig :=
  DNS.mkModule
    (DNS.mkDNSProbe "" "" "example.com" "A" valid noValidator noValidator noValidator).

Definition answerA : DNS.RR := "example.com. 300 IN A 192.0.2.1".

(** A NOERROR response with one answer. *)
Definition noerror : DNS.Msg := DNS.mkMsg 0 [answerA] [] [].

(** The echo reply over IPv6 to the first request of process 4242. *)
Definition reply6 : list Z :=
  ([129; 0; 0; 0; 16; 146; 0; 1] ++ ICMP.bytesOf "Prometheus Blackbox Exporter")%list.

Definition icmpEnv (reads : list ICMP.ReadResult) : ICMP.Env :=
  ICMP.mkEnv resolver 1500000 (fun _ _ => true) 4242 marshal (fun _ _ => true) true reads.

End Examples.

(** ** Further notions for the properties of the probers *)

Module Behaviour.

(** The value of the last header, in the order of the loop, whose key
    passes the test of line 151. *)
Fixpoint lastHost (headers : list (string * string)) : option string :=
  match headers with
  | [] => None
  | (key, value) :: rest =>
      match lastHost rest with
      | Some later => Some later
      | None => if String.eqb (GoStrings.Title key) "Host" then Some value else None
      end
  end.

(** The value of the last header, in the order of the loop, that is set
    as an ordinary header under the canonical key [canonical]. *)
Fixpoint lastHeader (canonical : string) (headers : list (string * string))
    : option string :=
  match headers with
  | [] => None
  | (key, value) :: rest =>
      match lastHeader canonical rest with
      | Some later => Some later
      | None =>
          if negb (String.eqb (GoStrings.Title key) "Host")
             && String.eqb (GoStrings.CanonicalMIMEHeaderKey key) canonical
          then Some value else None
      end
  end.

(** What one read decides in the loop of probeICMP: a timeout decides for
    failure; a datagram from the peer decides for success when its bytes
    as the loop compares them ([Spec.compared]: the part that fits the
    buffer, bytes 2 and 3 set to zero for the IPv6 reply type) are the
    expected reply; anything else decides nothing. *)
Definition decides (ip : IPAddr) (replyType : ICMP.ICMPType) (wb : list Z) (size : nat)
    (event : ICMP.ReadResult) : option bool :=
  match event with
  | ICMP.ReadTimeout => Some false
  | ICMP.ReadFailure => None
  | ICMP.ReadPacket data peer =>
      if String.eqb peer (IPString ip)
         && bool_decide (Spec.compared replyType size data = wb)
      then Some true else None
  end.

(** The decision of the first read that decides. *)
Fixpoint firstDecision (ip : IPAddr) (replyType : ICMP.ICMPType) (wb : list Z)
    (size : nat) (events : list ICMP.ReadResult) : option bool :=
  match events with
  | [] => None
  | event :: rest =>
      match decides ip replyType wb size event with
      | Some decision => Some decision
      | None => firstDecision ip replyType wb size rest
      end
  end.

(** The socket that probeICMP listens on for an address. *)
Definition listens (e : ICMP.Env) (ip : IPAddr) : bool :=
  if To4_nil ip then ICMP.icmp_ListenPacket e "ip6:ipv6-icmp" "::"
  else ICMP.icmp_ListenPacket e "ip4:icmp" "0.0.0.0".

(** The address that probeICMP goes on with: that of the first family
    asked for, or that of the fallback family when there is one and the
    first lookup failed. *)
Definition resolved (e : ICMP.Env) (target : string) (module : ICMP.ModuleConfig)
    : option IPAddr :=
  let '(preferred, fallback) := ICMP.families module in
  match ICMP.net_ResolveIPAddr e preferred target with
  | Some ip => Some ip
  | None =>
      if negb (String.eqb fallback "") then ICMP.net_ResolveIPAddr e fallback target
      else None
  end.

(** The types of the echo request and of its reply for an address. *)
Definition requestType (ip : IPAddr) : ICMP.ICMPType :=
  if To4_nil ip then ICMP.ipv6_ICMPTypeEchoRequest else ICMP.ipv4_ICMPTypeEcho.

Definition replyType (ip : IPAddr) : ICMP.ICMPType :=
  if To4_nil ip then ICMP.ipv6_ICMPTypeEchoReply else ICMP.ipv4_ICMPTypeEchoReply.

(** The echo request could be sent and the reply came: the socket was
    opened, both messages were marshalled, the request was written, the
    deadline was set, and the first read that decides is the reply. *)
Definition echoed (e : ICMP.Env) (ip : IPAddr) (seq : Z) : Prop :=
  listens e ip = true
  /\ exists request reply,
       ICMP.Marshal e (ICMP.wm e (requestType ip) seq) = Some request
       /\ ICMP.WriteTo e request ip = true
       /\ ICMP.Marshal e (ICMP.wm e (replyType ip) seq) = Some reply
       /\ ICMP.SetReadDeadline e = true
       /\ firstDecision ip (replyType ip) reply 1500 (ICMP.reads e) = Some true.

(** The numbers of records of a response. *)
Definition countsOf (response : DNS.Msg) : DNS.Counts :=
  (Z.of_nat (length (DNS.Answer response)), Z.of_nat (length (DNS.Ns response)),
   Z.of_nat (length (DNS.Extra response))).

(** A module for probeHTTP with Protocol icmp. *)
Definition httpModuleICMP : HTTP.ModuleConfig :=
  HTTP.mkModule 5000000000
    (HTTP.mkHTTPProbe [] false false false "" [] [] [] "" "icmp" "").

End Behaviour.

(** * Properties *)

(** ** Running the monad *)

Lemma bind_Next {R A B} (m : Run R A) (k : A -> Run R B) s s' a :
  m s = (s', Next a) -> (m ≫= k) s = k a s'.
Proof. intros H. unfold mbind, run_bind. now rewrite H. Qed.

Lemma bind_Return {R A B} (m : Run R A) (k : A -> Run R B) s s' r :
  m s = (s', Return r) -> (m ≫= k) s = (s', Return r).
Proof. intros H. unfold mbind, run_bind. now rewrite H. Qed.

Lemma call_Return {R R'} (m : Run R' R') s s' r :
  m s = (s', Return r) -> @call R R' m s = (s', Next r).
Proof. intros H. unfold call. now rewrite H. Qed.

Ltac run :=
  repeat (cbn [mbind run_bind mret run_ret exit when_ Fprint logf call
               fst snd negb andb orb w registry logs lookups icmpSequence] in *;
          unfold mbind, run_bind, mret, run_ret, exit, when_, Fprint, logf in *).

(** ** probeHTTP: the status rule *)

Section HTTPStatus.
Import HTTP.

Lemma inValidStatusCodes_In status codes :
  inValidStatusCodes status codes = true <-> In status codes.
Proof.
  induction codes as [|c rest IH]; simpl.
  - split; [discriminate | tauto].
  - destruct (Z.eqb_spec status c) as [->|Hne].
    + split; auto.
    + rewrite IH. split; [auto | intros [H|H]; [congruence | exact H]].
Qed.

Lemma statusCheck_statusAccepted config resp :
  statusCheck config resp = true
  <-> Spec.statusAccepted (ValidStatusCodes config) (StatusCode resp).
Proof.
  unfold statusCheck, Spec.statusAccepted.
  destruct (ValidStatusCodes config) as [|c rest] eqn:E; simpl length.
  - simpl. rewrite andb_true_iff, Z.leb_le, Z.ltb_lt. tauto.
  - change (negb (S (length rest) =? 0)%nat) with true. cbv iota.
    apply inValidStatusCodes_In.
Qed.

Lemma failIfMatches_run e body exprs s :
  let ok := forallb (fun p => match regexp_Compile e p with
                              | Some re => negb (re body)
                              | None => false
                              end) exprs in
  if ok then failIfMatches e body exprs s = (s, Next tt)
  else exists s' d, failIfMatches e body exprs s = (s', Return (false, d))
                    /\ w s' = w s /\ lookups s' = lookups s.
Proof.
  induction exprs as [|p rest IH]; simpl; [reflexivity|].
  destruct (regexp_Compile e p) as [re|]; simpl.
  - destruct (re body); simpl; [|exact IH].
    run. eauto.
  - run. eauto.
Qed.

Lemma failIfNotMatches_run e body exprs s :
  let ok := forallb (fun p => match regexp_Compile e p with
                              | Some re => re body
                              | None => false
                              end) exprs in
  if ok then failIfNotMatches e body exprs s = (s, Next tt)
  else exists s' d, failIfNotMatches e body exprs s = (s', Return (false, d))
                    /\ w s' = w s /\ lookups s' = lookups s.
Proof.
  induction exprs as [|p rest IH]; simpl; [reflexivity|].
  destruct (regexp_Compile e p) as [re|]; simpl.
  - destruct (re body); simpl; [exact IH|].
    run. eauto.
  - run. eauto.
Qed.

Lemma matchRegularExpressions_run e body config s :
  exists s' d,
    matchRegularExpressions e body config s
    = (s', Return (Spec.bodyAccepted e config body, d))
    /\ w s' = w s /\ lookups s' = lookups s.
Proof.
  unfold matchRegularExpressions, Spec.bodyAccepted.
  destruct body as [b|]; [|run; eauto].
  pose proof (failIfMatches_run e b (FailIfMatchesRegexp config) s) as H1.
  cbv zeta in H1. run.
  destruct (forallb _ (FailIfMatchesRegexp config)).
  - rewrite H1. simpl.
    pose proof (failIfNotMatches_run e b (FailIfNotMatchesRegexp config) s) as H2.
    cbv zeta in H2.
    destruct (forallb _ (FailIfNotMatchesRegexp config)).
    + rewrite H2. eauto.
    + destruct H2 as (s' & d & -> & ? & ?). eauto.
  - destruct H1 as (s' & d & -> & ? & ?). simpl. eauto.
Qed.

End HTTPStatus.

Section HTTPVerdict.
Import HTTP.

Lemma configured_iff config :
  ((0 <? length (FailIfMatchesRegexp config))%nat
   || (0 <? length (FailIfNotMatchesRegexp config))%nat)
  = Spec.regexpsConfigured config.
Proof.
  unfold Spec.regexpsConfigured.
  destruct (FailIfMatchesRegexp config), (FailIfNotMatchesRegexp config); reflexivity.
Qed.

Lemma judge_response e config resp err s :
  exists s' d,
    judge e config (DoResponse resp err) s
    = (s', Next (statusCheck config resp
                 && (negb (Spec.regexpsConfigured config)
                     || Spec.bodyAccepted e config (RespBody resp)), d))
    /\ w s' = w s /\ lookups s' = lookups s.
Proof.
  unfold judge. rewrite configured_iff.
  destruct (statusCheck config resp); simpl.
  - destruct (Spec.regexpsConfigured config); simpl.
    + destruct (matchRegularExpressions_run e (RespBody resp) config s)
        as (s' & d & H & ? & ?).
      exists s', d. split; [|auto]. now apply call_Return.
    + exists s, "". auto.
  - exists s, "". auto.
Qed.

Lemma judge_error e config s :
  judge e config DoError s
  = (mkWorld (w s) (registry s)
       (logs s ++ [mkLog LWarn "Error for HTTP request to %s: %s"])
       (lookups s) (icmpSequence s),
     Next (false, "")).
Proof. reflexivity. Qed.

Lemma report_run e config answer redirects verdict s :
  exists s',
    report e config answer redirects verdict s
    = (s', Return (if Spec.tlsForcesFailure config (Spec.reported answer)
                   then (false, "SSL failed") else verdict))
    /\ w s' = (w s ++ Spec.reportLines e (Spec.reported answer) redirects)%list
    /\ lookups s' = lookups s
    /\ logs s' = logs s.
Proof.
  unfold report, Spec.tlsForcesFailure, Spec.reportLines.
  fold (Spec.reported answer).
  destruct (TLS (Spec.reported answer)) as [state|]; run; simpl;
    eexists; (split; [reflexivity|]); simpl;
    rewrite <- ?app_assoc; auto.
Qed.

End HTTPVerdict.

(** C1.  When the request of a probe yields a response, the status check
    passes exactly if the status code is in ValidStatusCodes, for a list
    that is not empty, and exactly if it is in [200,300) for an empty one;
    with the list unset 200, 204 and 299 pass and 300 does not.  The
    success that probeHTTP returns is the status check, made false by a
    configured body check that does not accept the body and by the TLS
    policy (TLS seen and FailIfSSL, no TLS and FailIfNotSSL), and not
    otherwise. *)
Theorem probeHTTP_status_rule e target module s s1 request resp err redirects :
  HTTP.prepare e target module s = (s1, Next request) ->
  HTTP.clientDo (HTTP.HTTP module) (HTTP.server e request) 0 0
    = (HTTP.DoResponse resp err, redirects) ->
  let config := HTTP.HTTP module in
  (HTTP.statusCheck config resp = true
   <-> Spec.statusAccepted (HTTP.ValidStatusCodes config) (HTTP.StatusCode resp))
  /\ (HTTP.ValidStatusCodes config = [] ->
      (In (HTTP.StatusCode resp) [200; 204; 299] -> HTTP.statusCheck config resp = true)
      /\ (HTTP.StatusCode resp = 300 -> HTTP.statusCheck config resp = false))
  /\ exists s' diag,
       HTTP.probeHTTP e target module s
       = (s', Return (HTTP.statusCheck config resp
                      && (negb (Spec.regexpsConfigured config)
                          || Spec.bodyAccepted e config (HTTP.RespBody resp))
                      && negb (Spec.tlsForcesFailure config resp), diag)).
Proof.
  intros Hprep Hdo config. split; [apply statusCheck_statusAccepted|]. split.
  - intros Hnil. unfold HTTP.statusCheck. fold config. rewrite Hnil. simpl.
    split.
    + intros [<-|[<-|[<-|[]]]]; reflexivity.
    + intros ->. reflexivity.
  - unfold HTTP.probeHTTP. rewrite (bind_Next _ _ _ _ _ Hprep).
    rewrite Hdo. fold config.
    destruct (judge_response e config resp err s1) as (s2 & d & Hj & _ & _).
    rewrite (bind_Next _ _ _ _ _ Hj).
    destruct (report_run e config (HTTP.DoResponse resp err) redirects
                (HTTP.statusCheck config resp
                 && (negb (Spec.regexpsConfigured config)
                     || Spec.bodyAccepted e config (HTTP.RespBody resp)), d) s2)
      as (s3 & Hr & _).
    rewrite Hr. simpl Spec.reported.
    destruct (Spec.tlsForcesFailure config resp); simpl.
    + exists s3, "SSL failed". now rewrite andb_false_r.
    + exists s3, d. now rewrite andb_true_r.
Qed.

Lemma probeHTTP_status_rule_witness :
  exists s' diag,
    HTTP.probeHTTP (Examples.httpEnv [HTTP.HopFinal (Examples.response 204)])
      "example.com" Examples.httpModule emptyWorld
    = (s', Return (true, diag)).
Proof.
  edestruct (probeHTTP_status_rule
               (Examples.httpEnv [HTTP.HopFinal (Examples.response 204)])
               "example.com" Examples.httpModule emptyWorld)
    as (_ & _ & s' & diag & H).
  - vm_compute. reflexivity.
  - vm_compute. reflexivity.
  - exists s', diag. exact H.
Defined.

(** ** probeHTTP: what is written, and the early returns *)

Section HTTPPrepare.
Import HTTP.

Lemma resolveDialProtocol_frame e target module s s1 st :
  resolveDialProtocol e target module s = (s1, st) ->
  w s1 = w s /\ logs s1 = logs s /\
  match st with
  | Next _ => True
  | Return r => r = (false, "Could not parse target URL")
                \/ r = (false, "Error resolving address")
  | _ => False
  end.
Proof.
  unfold resolveDialProtocol, ResolveIPAddr. run. intros H.
  repeat case_match; simplify_eq; simpl; auto.
Qed.

Lemma prepare_frame e target module s s1 st :
  prepare e target module s = (s1, st) ->
  match st with
  | Next _ => exists ip, (ip = 4 \/ ip = 6)
                         /\ w s1 = (w s ++ [mkSample "probe_ip_protocol" ip])%list
  | Return r =>
      (w s1 = w s
       /\ (r = (false, "Could not parse target URL")
           \/ r = (false, "Error resolving address")))
      \/ ((exists ip, (ip = 4 \/ ip = 6)
                      /\ w s1 = (w s ++ [mkSample "probe_ip_protocol" ip])%list)
          /\ (r = (false, "Error generating TLS config")
              \/ r = (false, "Error creating request for target")))
  | _ => False
  end.
Proof.
  unfold prepare. intros H.
  destruct (resolveDialProtocol e target module s) as [s0 st0] eqn:E.
  destruct (resolveDialProtocol_frame _ _ _ _ _ _ E) as (Hw & _ & Hst).
  unfold mbind at 1, run_bind at 1 in H. rewrite E in H.
  destruct st0 as [[t d]| r | |]; try contradiction.
  - revert H. run.
    repeat case_match; intros; simplify_eq; simpl; rewrite ?Hw; eauto 10.
  - simplify_eq. left. auto.
Qed.

End HTTPPrepare.

(** C5, as the code has it.  When the transport fails and there is no
    response, probeHTTP returns success = false; the diagnostic is empty,
    or "SSL failed" when FailIfNotSSL is set, because the TLS policy is
    still applied to the empty response that stands in.  The status and
    body checks are not made: nothing but the warning is logged, and the
    lines written report status 0, content length 0 and no TLS. *)
Theorem probeHTTP_no_response e target module s s1 request redirects :
  HTTP.prepare e target module s = (s1, Next request) ->
  HTTP.clientDo (HTTP.HTTP module) (HTTP.server e request) 0 0
    = (HTTP.DoError, redirects) ->
  exists s',
    HTTP.probeHTTP e target module s
    = (s', Return (false,
                   if HTTP.FailIfNotSSL (HTTP.HTTP module) then "SSL failed" else ""))
    /\ w s' = (w s1 ++ [mkSample "probe_http_status_code" 0;
                        mkSample "probe_http_content_length" 0;
                        mkSample "probe_http_redirects" redirects;
                        mkSample "probe_http_ssl" 0])%list
    /\ logs s' = (logs s1 ++ [mkLog LWarn "Error for HTTP request to %s: %s"])%list.
Proof.
  intros Hprep Hdo. unfold HTTP.probeHTTP.
  rewrite (bind_Next _ _ _ _ _ Hprep), Hdo.
  rewrite (bind_Next _ _ _ _ _ (judge_error e _ s1)).
  destruct (report_run e (HTTP.HTTP module) HTTP.DoError redirects (false, "")
              (mkWorld (w s1) (registry s1)
                 (logs s1 ++ [mkLog LWarn "Error for HTTP request to %s: %s"])
                 (lookups s1) (icmpSequence s1)))
    as (s' & Hr & Hw & _ & Hl).
  exists s'. rewrite Hr. split; [|split; [exact Hw | exact Hl]].
  unfold Spec.tlsForcesFailure. simpl.
  now destruct (HTTP.FailIfNotSSL (HTTP.HTTP module)).
Qed.

Lemma probeHTTP_no_response_witness :
  exists s',
    HTTP.probeHTTP (Examples.httpEnv [HTTP.HopError]) "example.com"
      Examples.httpModuleNotSSL emptyWorld
    = (s', Return (false, "SSL failed")).
Proof.
  edestruct (probeHTTP_no_response (Examples.httpEnv [HTTP.HopError]) "example.com"
               Examples.httpModuleNotSSL emptyWorld) as (s' & H & _).
  - vm_compute. reflexivity.
  - vm_compute. reflexivity.
  - exists s'. exact H.
Defined.

(** C5 as it was stated does not hold: for a transport that fails with
    no response the diagnostic returned is the empty string, not "request
    error", and with FailIfNotSSL set the TLS check is made and gives "SSL
    failed". *)
Lemma probeHTTP_no_response_counterexample :
  let e := Examples.httpEnv [HTTP.HopError] in
  let run := HTTP.probeHTTP e "example.com" in
  (exists s1 request redirects,
     HTTP.prepare e "example.com" Examples.httpModule emptyWorld = (s1, Next request)
     /\ HTTP.clientDo Examples.httpProbe (HTTP.server e request) 0 0
        = (HTTP.DoError, redirects))
  /\ snd (run Examples.httpModule emptyWorld) = Return (false, "")
  /\ snd (run Examples.httpModule emptyWorld) <> Return (false, "request error")
  /\ snd (run Examples.httpModuleNotSSL emptyWorld) = Return (false, "SSL failed").
Proof.
  cbv zeta. split; [|split; [|split]].
  - do 3 eexists. split; vm_compute; reflexivity.
  - vm_compute. reflexivity.
  - vm_compute. discriminate.
  - vm_compute. reflexivity.
Qed.




(** ** The resolution policy *)

Section HTTPResolution.
Import HTTP.

Lemma resolveDialProtocol_tcp e target module s urlHost :
  Protocol (HTTP module) = "" \/ Protocol (HTTP module) = "tcp" ->
  url_Parse e (Spec.withScheme target) = Some urlHost ->
  let preferred := Spec.preferredFamily (PreferredIPProtocol (HTTP module)) in
  let host := Spec.hostToResolve e urlHost in
  exists s0 st,
    resolveDialProtocol e target module s = (s0, st)
    /\ lookups s0 = (lookups s ++ Spec.attempts (net_ResolveIPAddr e) preferred host)%list
    /\ match net_ResolveIPAddr e preferred host,
             net_ResolveIPAddr e (Spec.otherFamily preferred) host with
       | None, None => st = Return (false, "Error resolving address")
       | _, _ => exists td, st = Next td
       end.
Proof.
  intros Hproto Hurl preferred host.
  unfold resolveDialProtocol.
  assert ((if String.eqb (Protocol (HTTP module)) "" then "tcp"
           else Protocol (HTTP module)) = "tcp") as ->.
  { destruct Hproto as [-> | ->]; reflexivity. }
  change (String.eqb "tcp" "tcp") with true. cbv iota. rewrite andb_true_l.
  fold (Spec.withScheme target). rewrite Hurl.
  fold (Spec.hostToResolve e urlHost). fold host.
  change (if String.eqb (PreferredIPProtocol (HTTP module)) "" then "ip6"
          else PreferredIPProtocol (HTTP module)) with preferred.
  fold (Spec.otherFamily preferred).
  unfold Spec.attempts, ResolveIPAddr. run.
  destruct (net_ResolveIPAddr e preferred host) as [ip|]; simpl.
  - do 2 eexists. split; [reflexivity|]. simpl. eauto.
  - destruct (net_ResolveIPAddr e (Spec.otherFamily preferred) host) as [ip|]; simpl.
    + do 2 eexists. split; [reflexivity|]. simpl. rewrite <- app_assoc. eauto.
    + do 2 eexists. split; [reflexivity|]. simpl. rewrite <- app_assoc. eauto.
Qed.

Lemma failIfMatches_diag e body exprs s s' r :
  failIfMatches e body exprs s = (s', Return r) ->
  r <> (false, "Error resolving address").
Proof.
  revert s. induction exprs as [|p rest IH]; simpl; intros s; [discriminate|].
  run. repeat case_match; intros; simplify_eq; eauto; discriminate.
Qed.

Lemma failIfNotMatches_diag e body exprs s s' r :
  failIfNotMatches e body exprs s = (s', Return r) ->
  r <> (false, "Error resolving address").
Proof.
  revert s. induction exprs as [|p rest IH]; simpl; intros s; [discriminate|].
  run. repeat case_match; intros; simplify_eq; eauto; discriminate.
Qed.

Lemma matchRegularExpressions_diag e body config s s' r :
  matchRegularExpressions e body config s = (s', Return r) ->
  r <> (false, "Error resolving address").
Proof.
  unfold matchRegularExpressions. destruct body as [b|]; run.
  - destruct (failIfMatches e b (FailIfMatchesRegexp config) s) as [s1 [[]|r1| |]] eqn:E1;
      try discriminate.
    + destruct (failIfNotMatches e b (FailIfNotMatchesRegexp config) s1)
        as [s2 [[]|r2| |]] eqn:E2; try discriminate.
      * intros; simplify_eq. discriminate.
      * intros; simplify_eq. eapply failIfNotMatches_diag; eauto.
    + intros; simplify_eq. eapply failIfMatches_diag; eauto.
  - intros; simplify_eq. discriminate.
Qed.

(** After the resolution nothing is looked up, and no return reports a
    resolution failure. *)
Lemma probeHTTP_after_resolution e target module s s0 td :
  resolveDialProtocol e target module s = (s0, Next td) ->
  exists s' r,
    probeHTTP e target module s = (s', Return r)
    /\ lookups s' = lookups s0
    /\ r <> (false, "Error resolving address").
Proof.
  intros Hres.
  destruct (prepare e target module s) as [s1 st1] eqn:Hprep.
  assert (lookups s1 = lookups s0
          /\ match st1 with
             | Next _ => True
             | Return r => r <> (false, "Error resolving address")
             | _ => False
             end) as [Hl1 Hst1].
  { revert Hprep. unfold prepare.
    unfold mbind at 1, run_bind at 1. rewrite Hres. destruct td as [t d].
    run. repeat case_match; intros; simplify_eq; simpl; split; auto; discriminate. }
  unfold probeHTTP.
  destruct st1 as [request|r| |]; try contradiction.
  - rewrite (bind_Next _ _ _ _ _ Hprep).
    destruct (clientDo _ _ 0 0) as [answer redirects].
    assert (exists s2 v, judge e (HTTP module) answer s1 = (s2, Next v)
                         /\ lookups s2 = lookups s1
                         /\ v <> (false, "Error resolving address"))
      as (s2 & v & Hj & Hl2 & Hv).
    { destruct answer as [|resp err].
      - rewrite judge_error. do 2 eexists. split; [reflexivity|].
        split; [reflexivity | discriminate].
      - unfold judge.
        destruct (statusCheck (HTTP module) resp
                  && ((0 <? length (FailIfMatchesRegexp (HTTP module)))%nat
                      || (0 <? length (FailIfNotMatchesRegexp (HTTP module)))%nat)).
        + destruct (matchRegularExpressions_run e (RespBody resp) (HTTP module) s1)
            as (s2 & d & H & _ & Hl).
          exists s2, (Spec.bodyAccepted e (HTTP module) (RespBody resp), d).
          split; [now apply call_Return|]. split; [exact Hl|].
          eapply matchRegularExpressions_diag; eauto.
        + do 2 eexists. split; [reflexivity|]. split; [reflexivity|].
          destruct (statusCheck (HTTP module) resp); discriminate. }
    rewrite (bind_Next _ _ _ _ _ Hj).
    destruct (report_run e (HTTP module) answer redirects v s2) as (s' & Hr & _ & Hl & _).
    rewrite Hr. do 2 eexists. split; [reflexivity|]. split; [congruence|].
    destruct (Spec.tlsForcesFailure _ _); [discriminate | exact Hv].
  - rewrite (bind_Return _ _ _ _ _ Hprep). eauto.
Qed.

End HTTPResolution.

Section ICMPResolution.
Import ICMP.

Lemma families_icmp module :
  Protocol (ICMP module) = "" \/ Protocol (ICMP module) = "icmp" ->
  families module
  = (Spec.preferredFamily (PreferredIPProtocol (ICMP module)),
     Spec.otherFamily (Spec.preferredFamily (PreferredIPProtocol (ICMP module)))).
Proof.
  unfold families, Spec.preferredFamily, Spec.otherFamily.
  intros [-> | ->]; simpl;
    destruct (String.eqb (PreferredIPProtocol (ICMP module)) "") eqn:E1; simpl; try reflexivity;
    destruct (String.eqb (PreferredIPProtocol (ICMP module)) "ip6"); reflexivity.
Qed.

Lemma families_icmp4 module :
  Protocol (ICMP module) = "icmp4" -> families module = ("ip4", "").
Proof. unfold families. now intros ->. Qed.

Lemma families_icmp6 module :
  Protocol (ICMP module) = "icmp6" -> families module = ("ip6", "").
Proof. unfold families. now intros ->. Qed.

Lemma otherFamily_not_empty family : String.eqb (Spec.otherFamily family) "" = false.
Proof. unfold Spec.otherFamily. now destruct (String.eqb family "ip6"). Qed.

(** The lookups of [resolve] and its answer, with a fallback family. *)
Lemma resolve_fallback {R} e target module s preferred :
  families module = (preferred, Spec.otherFamily preferred) ->
  exists s0,
    @resolve R e target module s
    = (s0, Next (match net_ResolveIPAddr e preferred target with
                 | Some ip => Some ip
                 | None => net_ResolveIPAddr e (Spec.otherFamily preferred) target
                 end))
    /\ lookups s0 = (lookups s ++ Spec.attempts (net_ResolveIPAddr e) preferred target)%list
    /\ w s0 = w s /\ registry s0 = registry s /\ logs s0 = logs s
    /\ icmpSequence s0 = icmpSequence s.
Proof.
  intros Hf. unfold resolve, Spec.attempts, ResolveIPAddr. rewrite Hf.
  run. rewrite otherFamily_not_empty. simpl.
  destruct (net_ResolveIPAddr e preferred target); simpl.
  - eexists. split; [reflexivity|]. simpl. auto.
  - eexists. split; [reflexivity|]. simpl. rewrite <- app_assoc. auto.
Qed.

(** The one lookup of [resolve] when there is no fallback. *)
Lemma resolve_forced {R} e target module s family :
  families module = (family, "") ->
  exists s0,
    @resolve R e target module s = (s0, Next (net_ResolveIPAddr e family target))
    /\ lookups s0 = (lookups s ++ [(family, target)])%list
    /\ w s0 = w s /\ registry s0 = registry s /\ logs s0 = logs s
    /\ icmpSequence s0 = icmpSequence s.
Proof.
  intros Hf. unfold resolve, ResolveIPAddr. rewrite Hf. run. simpl.
  destruct (net_ResolveIPAddr e family target); simpl;
    eexists; (split; [reflexivity|]); simpl; auto.
Qed.

Lemma Writer_readLoop_frame ip replyType wb events : forall rb s s' st,
  Writer.readLoop ip replyType wb rb events s = (s', st) ->
  w s' = w s /\ registry s' = registry s /\ lookups s' = lookups s
  /\ icmpSequence s' = icmpSequence s
  /\ (st = Blocked \/ st = Return (true, "")
      \/ st = Return (false, "Timeout reading from socket")).
Proof.
  induction events as [|ev rest IH]; intros rb s s' st; simpl.
  - intros; simplify_eq. auto 10.
  - destruct ev as [| |data peer]; run.
    + intros; simplify_eq. simpl. auto 10.
    + intros H. apply IH in H. simpl in H. exact H.
    + destruct (ReadFrom rb data) as [rb' n].
      repeat case_match; intros Hrun; simplify_eq; simpl; auto 10; now apply IH in Hrun.
Qed.

Lemma Gauges_readLoop_frame ip replyType wb events : forall rb s s' st,
  Gauges.readLoop ip replyType wb rb events s = (s', st) ->
  w s' = w s /\ registry s' = registry s /\ lookups s' = lookups s
  /\ icmpSequence s' = icmpSequence s
  /\ (st = Blocked \/ st = Return true \/ st = Return false).
Proof.
  induction events as [|ev rest IH]; intros rb s s' st; simpl.
  - intros; simplify_eq. auto 10.
  - destruct ev as [| |data peer]; run.
    + intros; simplify_eq. simpl. auto 10.
    + intros H. apply IH in H. simpl in H. exact H.
    + destruct (ReadFrom rb data) as [rb' n].
      repeat case_match; intros Hrun; simplify_eq; simpl; auto 10; now apply IH in Hrun.
Qed.

End ICMPResolution.

(** ** The Host header *)

Section HostHeader.
Import HTTP.

Lemma toUpper_H c : GoStrings.toUpper c = "H"%char -> c = "H"%char \/ c = "h"%char.
Proof.
  destruct c as [[] [] [] [] [] [] [] []]; vm_compute; intros H;
    try discriminate; auto.
Qed.

(** The keys that strings.Title turns into "Host". *)
Lemma Title_Host key :
  GoStrings.Title key = "Host" <-> key = "Host" \/ key = "host".
Proof.
  split; [|intros [-> | ->]; reflexivity].
  unfold GoStrings.Title.
  destruct key as [|c1 [|c2 [|c3 [|c4 [|c5 rest]]]]]; simpl; try discriminate.
  intros H. injection H as H1 H2 H3 H4.
  change (GoStrings.isSeparator " ") with true in H1. cbv iota in H1.
  apply toUpper_H in H1.
  destruct H1 as [-> | ->];
    change (GoStrings.isSeparator "H") with false in H2;
    change (GoStrings.isSeparator "h") with false in H2;
    cbv iota in H2; subst c2;
    change (GoStrings.isSeparator "o") with false in H3; cbv iota in H3; subst c3;
    change (GoStrings.isSeparator "s") with false in H4; cbv iota in H4; subst c4;
    auto.
Qed.

End HostHeader.

(** C6, at the key "hOST".  The loop over the headers tests
    strings.Title(key) == "Host", and strings.Title only raises the first
    letter of a word: the keys that pass the test are "Host" and "host",
    for which the value becomes the Host of the request.  For "hOST" the
    Host of the request stays what it was, and the value is stored as a
    header, under the canonical key "Host"; so it is in the probe of a
    module with that header. *)
Theorem setHeader_Host_spelling :
  (forall key, GoStrings.Title key = "Host" <-> key = "Host" \/ key = "host")
  /\ (forall request value,
        let hosted := HTTP.mkRequest (HTTP.ReqMethod request) (HTTP.URL request) value
                        (HTTP.Header request) (HTTP.ReqBody request) in
        HTTP.setHeader request ("Host", value) = hosted
        /\ HTTP.setHeader request ("host", value) = hosted)
  /\ (forall request value,
        HTTP.setHeader request ("hOST", value)
        = HTTP.mkRequest (HTTP.ReqMethod request) (HTTP.URL request)
            (HTTP.Host request)
            (<["Host" := [value]]> (HTTP.Header request)) (HTTP.ReqBody request))
  /\ (exists s1 request,
        HTTP.prepare (Examples.httpEnv []) "example.com" Examples.httpModuleHost emptyWorld
        = (s1, Next request)
        /\ HTTP.Host request = "example.com"
        /\ HTTP.Header request !! "Host" = Some ["other.example"]).
Proof.
  split; [exact Title_Host|]. split; [|split].
  - intros request value. split; reflexivity.
  - intros request value. reflexivity.
  - do 2 eexists. split; [vm_compute; reflexivity|]. split; reflexivity.
Qed.

(** ** The read loop of probeICMP *)

Section ReadLoop.
Import ICMP.

Lemma ReadFrom_length rb data : length (fst (ReadFrom rb data)) = length rb.
Proof.
  unfold ReadFrom. simpl. rewrite length_app, length_take, length_drop. lia.
Qed.

Lemma clearChecksum_length rb : length (clearChecksum rb) = length rb.
Proof. unfold clearChecksum. now rewrite !length_insert. Qed.

(** What is compared with the expected reply are the bytes that the read
    brought; what the buffer held before does not show. *)
Lemma compared_bytes rb data (clear : bool) :
  let '(rb', n) := ReadFrom rb data in
  take n (if clear then clearChecksum rb' else rb')
  = if clear then clearChecksum (take n data) else take n data.
Proof.
  unfold ReadFrom.
  set (n := Nat.min (length data) (length rb)).
  assert (length (take n data) = n) as Hn by (rewrite length_take; lia).
  destruct clear.
  - unfold clearChecksum. rewrite !take_insert.
    rewrite (take_app_length' _ _ n) by now rewrite Hn.
    repeat case_decide;
      rewrite ?(list_insert_ge (take n data) 2), ?(list_insert_ge _ 3)
        by (rewrite ?length_insert; lia);
      reflexivity.
  - now apply take_app_length'.
Qed.

Lemma compared_spec replyType rb data :
  let '(rb', n) := ReadFrom rb data in
  take n (if decide (replyType = ipv6_ICMPTypeEchoReply) then clearChecksum rb' else rb')
  = Spec.compared replyType (length rb) data.
Proof.
  pose proof (compared_bytes rb data
                (bool_decide (replyType = ipv6_ICMPTypeEchoReply))) as H.
  unfold Spec.compared. unfold ReadFrom in *.
  destruct (decide (replyType = ipv6_ICMPTypeEchoReply)) as [Heq|Hne].
  - now rewrite bool_decide_eq_true_2 in H.
  - now rewrite bool_decide_eq_false_2 in H.
Qed.

(** The loop does not depend on what the buffer holds. *)
Lemma Writer_readLoop_buffer ip replyType wb events : forall rb1 rb2 s,
  length rb1 = length rb2 ->
  Writer.readLoop ip replyType wb rb1 events s
  = Writer.readLoop ip replyType wb rb2 events s.
Proof.
  induction events as [|ev rest IH]; intros rb1 rb2 s Hlen; [reflexivity|].
  destruct ev as [| |data peer]; simpl.
  - reflexivity.
  - run. now apply IH.
  - pose proof (compared_spec replyType rb1 data) as H1.
    pose proof (compared_spec replyType rb2 data) as H2.
    pose proof (ReadFrom_length rb1 data) as L1.
    pose proof (ReadFrom_length rb2 data) as L2.
    unfold ReadFrom in H1, H2, L1, L2. cbn [fst] in L1, L2.
    destruct (negb (String.eqb peer (IPString ip))).
    + apply IH. congruence.
    + rewrite H1, H2, Hlen.
      destruct (decide (Spec.compared replyType (length rb2) data = wb)); [reflexivity|].
      apply IH.
      destruct (decide (replyType = ipv6_ICMPTypeEchoReply));
        rewrite ?clearChecksum_length; congruence.
Qed.

Lemma Gauges_readLoop_buffer ip replyType wb events : forall rb1 rb2 s,
  length rb1 = length rb2 ->
  Gauges.readLoop ip replyType wb rb1 events s
  = Gauges.readLoop ip replyType wb rb2 events s.
Proof.
  induction events as [|ev rest IH]; intros rb1 rb2 s Hlen; [reflexivity|].
  destruct ev as [| |data peer]; simpl.
  - reflexivity.
  - run. now apply IH.
  - pose proof (compared_spec replyType rb1 data) as H1.
    pose proof (compared_spec replyType rb2 data) as H2.
    pose proof (ReadFrom_length rb1 data) as L1.
    pose proof (ReadFrom_length rb2 data) as L2.
    unfold ReadFrom in H1, H2, L1, L2. cbn [fst] in L1, L2.
    destruct (negb (String.eqb peer (IPString ip))).
    + apply IH. congruence.
    + rewrite H1, H2, Hlen.
      destruct (decide (Spec.compared replyType (length rb2) data = wb)); [reflexivity|].
      apply IH.
      destruct (decide (replyType = ipv6_ICMPTypeEchoReply));
        rewrite ?clearChecksum_length; congruence.
Qed.

(** One turn of the loop on a datagram. *)
Lemma Writer_readLoop_packet ip replyType wb rb data peer rest s :
  Writer.readLoop ip replyType wb rb (ReadPacket data peer :: rest) s
  = if String.eqb peer (IPString ip)
       && bool_decide (Spec.compared replyType (length rb) data = wb)
    then (s, Return (true, ""))
    else Writer.readLoop ip replyType wb rb rest s.
Proof.
  simpl.
  pose proof (compared_spec replyType rb data) as H.
  pose proof (ReadFrom_length rb data) as L.
  unfold ReadFrom in H, L. cbn [fst] in L.
  destruct (String.eqb peer (IPString ip)); simpl.
  - rewrite H.
    destruct (decide (Spec.compared replyType (length rb) data = wb)) as [Heq|Hne].
    + now rewrite bool_decide_eq_true_2.
    + rewrite bool_decide_eq_false_2 by assumption.
      apply Writer_readLoop_buffer.
      destruct (decide (replyType = ipv6_ICMPTypeEchoReply));
        rewrite ?clearChecksum_length; congruence.
  - now apply Writer_readLoop_buffer.
Qed.

Lemma Gauges_readLoop_packet ip replyType wb rb data peer rest s :
  Gauges.readLoop ip replyType wb rb (ReadPacket data peer :: rest) s
  = if String.eqb peer (IPString ip)
       && bool_decide (Spec.compared replyType (length rb) data = wb)
    then (s, Return true)
    else Gauges.readLoop ip replyType wb rb rest s.
Proof.
  simpl.
  pose proof (compared_spec replyType rb data) as H.
  pose proof (ReadFrom_length rb data) as L.
  unfold ReadFrom in H, L. cbn [fst] in L.
  destruct (String.eqb peer (IPString ip)); simpl.
  - rewrite H.
    destruct (decide (Spec.compared replyType (length rb) data = wb)) as [Heq|Hne].
    + now rewrite bool_decide_eq_true_2.
    + rewrite bool_decide_eq_false_2 by assumption.
      apply Gauges_readLoop_buffer.
      destruct (decide (replyType = ipv6_ICMPTypeEchoReply));
        rewrite ?clearChecksum_length; congruence.
  - now apply Gauges_readLoop_buffer.
Qed.

(** Bytes 2 and 3 of a datagram do not show in what is compared for the
    IPv6 reply type. *)
Lemma clearChecksum_take_overwritten n (data : list Z) c2 c3 :
  clearChecksum (take n (<[2%nat := c2]> (<[3%nat := c3]> data)))
  = clearChecksum (take n data).
Proof.
  destruct data as [|b0 [|b1 [|b2 [|b3 rest]]]];
    destruct n as [|[|[|[|n]]]]; reflexivity.
Qed.

Lemma compared_ipv6_checksum size (data : list Z) c2 c3 :
  Spec.compared ipv6_ICMPTypeEchoReply size (<[2%nat := c2]> (<[3%nat := c3]> data))
  = Spec.compared ipv6_ICMPTypeEchoReply size data.
Proof.
  unfold Spec.compared. rewrite !length_insert.
  rewrite decide_True by reflexivity.
  apply clearChecksum_take_overwritten.
Qed.

(** The loop returns failure only from a read that timed out. *)
Lemma Writer_readLoop_failure ip replyType wb rb events : forall s s' d,
  Writer.readLoop ip replyType wb rb events s = (s', Return (false, d)) ->
  In ReadTimeout events /\ d = "Timeout reading from socket".
Proof.
  induction events as [|ev rest IH]; intros s s' d; [discriminate|].
  destruct ev as [| |data peer].
  - simpl. run. intros; simplify_eq. auto.
  - simpl. run. intros H. apply IH in H. tauto.
  - rewrite Writer_readLoop_packet.
    destruct (_ && _); [discriminate|].
    intros H. apply IH in H. simpl. tauto.
Qed.

Lemma Gauges_readLoop_failure ip replyType wb rb events : forall s s',
  Gauges.readLoop ip replyType wb rb events s = (s', Return false) ->
  In ReadTimeout events.
Proof.
  induction events as [|ev rest IH]; intros s s'; [discriminate|].
  destruct ev as [| |data peer].
  - simpl. auto.
  - simpl. run. intros H. apply IH in H. tauto.
  - rewrite Gauges_readLoop_packet.
    destruct (_ && _); [discriminate|].
    intros H. apply IH in H. simpl. tauto.
Qed.

End ReadLoop.

(** C7, as the code has it.  In the read loop of either version of
    probeICMP a datagram whose sender is not the resolved address, or whose
    bytes as the loop compares them are not the expected reply, is dropped:
    the loop goes on with the reads that follow, and what it returns is
    what they make it return.  What the loop compares is the part of the
    datagram that fits the buffer, with bytes 2 and 3, the checksum, set
    to zero when the reply type is the IPv6 one: for another reply type a
    datagram that fits the buffer is compared as it is, and for the IPv6
    one two datagrams that differ in bytes 2 and 3 only are compared as
    the same bytes.  A datagram from the resolved address whose bytes as
    compared are the expected reply ends the probe as a success.  A read
    that times out ends the probe as a failure.  Any other read error is
    logged as an error and the loop goes on.  The loop returns a failure
    only when a read has timed out. *)
Theorem readLoop_discards ip replyType wb rb data peer rest s :
  peer <> IPString ip \/ Spec.compared replyType (length rb) data <> wb ->
  (ICMP.Writer.readLoop ip replyType wb rb (ICMP.ReadPacket data peer :: rest) s
   = ICMP.Writer.readLoop ip replyType wb rb rest s
   /\ ICMP.Gauges.readLoop ip replyType wb rb (ICMP.ReadPacket data peer :: rest) s
      = ICMP.Gauges.readLoop ip replyType wb rb rest s)
  /\ (replyType <> ICMP.ipv6_ICMPTypeEchoReply -> (length data <= length rb)%nat ->
      Spec.compared replyType (length rb) data = data)
  /\ (forall c2 c3,
        Spec.compared ICMP.ipv6_ICMPTypeEchoReply (length rb)
          (<[2%nat := c2]> (<[3%nat := c3]> data))
        = Spec.compared ICMP.ipv6_ICMPTypeEchoReply (length rb) data)
  /\ (forall reply,
        Spec.compared replyType (length rb) reply = wb ->
        ICMP.Writer.readLoop ip replyType wb rb
          (ICMP.ReadPacket reply (IPString ip) :: rest) s
        = (s, Return (true, ""))
        /\ ICMP.Gauges.readLoop ip replyType wb rb
             (ICMP.ReadPacket reply (IPString ip) :: rest) s
           = (s, Return true))
  /\ (ICMP.Writer.readLoop ip replyType wb rb (ICMP.ReadTimeout :: rest) s
      = (Spec.logged s LWarn "Timeout reading from socket for %s: %s",
         Return (false, "Timeout reading from socket"))
      /\ ICMP.Gauges.readLoop ip replyType wb rb (ICMP.ReadTimeout :: rest) s
         = (Spec.logged s LWarn "Timeout reading from socket for %s: %s", Return false))
  /\ (ICMP.Writer.readLoop ip replyType wb rb (ICMP.ReadFailure :: rest) s
      = ICMP.Writer.readLoop ip replyType wb rb rest
          (Spec.logged s LError "Error reading from socket for %s: %s")
      /\ ICMP.Gauges.readLoop ip replyType wb rb (ICMP.ReadFailure :: rest) s
         = ICMP.Gauges.readLoop ip replyType wb rb rest
             (Spec.logged s LError "Error reading from socket for %s: %s"))
  /\ (forall events s' d,
        ICMP.Writer.readLoop ip replyType wb rb events s = (s', Return (false, d)) ->
        In ICMP.ReadTimeout events)
  /\ (forall events s',
        ICMP.Gauges.readLoop ip replyType wb rb events s = (s', Return false) ->
        In ICMP.ReadTimeout events).
Proof.
  intros Hmis.
  assert (String.eqb peer (IPString ip)
          && bool_decide (Spec.compared replyType (length rb) data = wb) = false) as Hno.
  { destruct Hmis as [Hpeer | Hbytes].
    - apply String.eqb_neq in Hpeer. now rewrite Hpeer.
    - rewrite bool_decide_eq_false_2 by assumption. apply andb_false_r. }
  split; [|split; [|split; [|split; [|split; [|split; [|split]]]]]].
  - now rewrite Writer_readLoop_packet, Gauges_readLoop_packet, Hno.
  - intros Hv4 Hfits. unfold Spec.compared.
    rewrite decide_False by assumption.
    rewrite Nat.min_l by assumption. apply firstn_all.
  - intros c2 c3. apply compared_ipv6_checksum.
  - intros reply Hreply.
    rewrite Writer_readLoop_packet, Gauges_readLoop_packet.
    rewrite String.eqb_refl, bool_decide_eq_true_2 by assumption.
    split; reflexivity.
  - split; reflexivity.
  - split; reflexivity.
  - intros events s' d H. now apply Writer_readLoop_failure in H.
  - intros events s' H. now apply Gauges_readLoop_failure in H.
Qed.

Lemma readLoop_discards_witness :
  ICMP.Writer.readLoop (mkIPAddr false "192.0.2.1") ICMP.ipv4_ICMPTypeEchoReply
    [0; 0; 247; 255] (replicate 1500 0)
    [ICMP.ReadPacket [0; 0; 247; 255] "192.0.2.99"; ICMP.ReadTimeout] emptyWorld
  = (Spec.logged emptyWorld LWarn "Timeout reading from socket for %s: %s",
     Return (false, "Timeout reading from socket")).
Proof.
  destruct (readLoop_discards (mkIPAddr false "192.0.2.1") ICMP.ipv4_ICMPTypeEchoReply
              [0; 0; 247; 255] (replicate 1500 0) [0; 0; 247; 255] "192.0.2.99"
              [ICMP.ReadTimeout] emptyWorld) as ((H & _) & _).
  - left. discriminate.
  - rewrite H. reflexivity.
Defined.

(** C7 as it was stated does not hold: with the IPv6 reply type, a
    datagram from the resolved address that carries its checksum in bytes
    2 and 3 does not have the bytes of the expected reply, which was
    marshalled with a checksum of zero, and yet it is not dropped.  The
    loop takes it as the reply and returns success, in both versions,
    where the reads that follow would have made it return failure. *)
Lemma readLoop_discards_counterexample :
  let ip := mkIPAddr true "2001:db8::1" in
  let expected := [129; 0; 0; 0; 48; 57; 0; 1; 80] in
  let datagram := [129; 0; 18; 52; 48; 57; 0; 1; 80] in
  let reads := [ICMP.ReadPacket datagram "2001:db8::1"; ICMP.ReadTimeout] in
  datagram <> expected
  /\ ICMP.Writer.readLoop ip ICMP.ipv6_ICMPTypeEchoReply expected (replicate 1500 0)
       reads emptyWorld
     = (emptyWorld, Return (true, ""))
  /\ ICMP.Gauges.readLoop ip ICMP.ipv6_ICMPTypeEchoReply expected (replicate 1500 0)
       reads emptyWorld
     = (emptyWorld, Return true)
  /\ snd (ICMP.Writer.readLoop ip ICMP.ipv6_ICMPTypeEchoReply expected (replicate 1500 0)
            [ICMP.ReadTimeout] emptyWorld)
     = Return (false, "Timeout reading from socket").
Proof.
  cbv zeta. split; [discriminate|]. split; [|split]; vm_compute; reflexivity.
Qed.

(** ** The sequence counter *)

Section Sequence.
Import ICMP.

Lemma sequenceCalls_length n : forall s, length (fst (sequenceCalls n s)) = n.
Proof.
  induction n as [|n IH]; intros s; simpl; [reflexivity|].
  specialize (IH (mkWorld (w s) (registry s) (logs s) (lookups s)
                    ((icmpSequence s + 1) mod 65536))).
  destruct (sequenceCalls n _) as [vs s'']. simpl in *. now rewrite IH.
Qed.

(** The value that the call number [i] (from 0) returns. *)
Lemma sequenceCalls_lookup n : forall s i,
  (i < n)%nat ->
  fst (sequenceCalls n s) !! i = Some ((icmpSequence s + Z.of_nat i + 1) mod 65536).
Proof.
  induction n as [|n IH]; intros s i Hi; [lia|]. simpl.
  specialize (IH (mkWorld (w s) (registry s) (logs s) (lookups s)
                    ((icmpSequence s + 1) mod 65536))).
  destruct (sequenceCalls n _) as [vs s'']. simpl in *.
  destruct i as [|i]; simpl.
  - f_equal. f_equal. lia.
  - rewrite IH by lia. f_equal.
    rewrite <- Z.add_assoc, Zplus_mod_idemp_l.
    f_equal. lia.
Qed.

End Sequence.

(** C8, as the code has it.  Each call of getICMPSequence adds one to
    the shared counter and returns the new value; the counter is a uint16,
    so the value after 65535 is 0.  In a run of calls, whatever goroutines
    make them, call number i returns the counter at the start plus i + 1,
    modulo 65536; two calls that are fewer than 65536 calls apart return
    different values; and as long as the counter has not reached 65535
    the values increase. *)
Theorem getICMPSequence_modulo s n i j vi vj :
  0 <= icmpSequence s < 65536 ->
  (i < j)%nat ->
  fst (ICMP.sequenceCalls n s) !! i = Some vi ->
  fst (ICMP.sequenceCalls n s) !! j = Some vj ->
  vi = (icmpSequence s + Z.of_nat i + 1) mod 65536
  /\ vj = (icmpSequence s + Z.of_nat j + 1) mod 65536
  /\ (Z.of_nat j - Z.of_nat i < 65536 -> vi <> vj)
  /\ (icmpSequence s + Z.of_nat j + 1 < 65536 -> vi < vj).
Proof.
  intros Hs Hij Hi Hj.
  assert (j < n)%nat as Hjn.
  { apply lookup_lt_Some in Hj. now rewrite sequenceCalls_length in Hj. }
  rewrite sequenceCalls_lookup in Hi by lia.
  rewrite sequenceCalls_lookup in Hj by lia.
  injection Hi as <-. injection Hj as <-.
  split; [reflexivity|]. split; [reflexivity|]. split.
  - intros Hclose Heq.
    assert ((icmpSequence s + Z.of_nat j + 1 - (icmpSequence s + Z.of_nat i + 1))
              mod 65536 = 0) as Hd.
    { rewrite Zminus_mod, Heq, Z.sub_diag. reflexivity. }
    replace (icmpSequence s + Z.of_nat j + 1 - (icmpSequence s + Z.of_nat i + 1))
      with (Z.of_nat j - Z.of_nat i) in Hd by lia.
    rewrite Z.mod_small in Hd by lia. lia.
  - intros Hsmall. rewrite !Z.mod_small by lia. lia.
Qed.

Lemma getICMPSequence_modulo_witness :
  fst (ICMP.sequenceCalls 3 emptyWorld) = [1; 2; 3] /\ 1 < 3.
Proof.
  split; [reflexivity|].
  destruct (getICMPSequence_modulo emptyWorld 3 0 2 1 3) as (_ & _ & _ & H).
  - simpl. lia.
  - lia.
  - reflexivity.
  - reflexivity.
  - apply H. simpl. lia.
Defined.

(** C8 as it was stated does not hold: from a counter at 0, call number
    65535 returns 65535 and the next one returns 0, which is smaller, and
    the call after that returns 1, which the first call returned. *)
Lemma getICMPSequence_counterexample :
  let values := fst (ICMP.sequenceCalls (Z.to_nat 65537) emptyWorld) in
  values !! 0%nat = Some 1
  /\ values !! Z.to_nat 65534 = Some 65535
  /\ values !! Z.to_nat 65535 = Some 0
  /\ values !! Z.to_nat 65536 = Some 1.
Proof.
  cbv zeta. rewrite !sequenceCalls_lookup by lia.
  rewrite !Z2Nat.id by lia. repeat split.
Qed.

(** ** The two versions of probeICMP *)

Section TwoVersions.
Import ICMP.

Lemma readLoop_same ip replyType wb events : forall rb s1 s2,
  logs s1 = logs s2 ->
  logs (fst (Writer.readLoop ip replyType wb rb events s1))
  = logs (fst (Gauges.readLoop ip replyType wb rb events s2))
  /\ Spec.sameOutcome (snd (Writer.readLoop ip replyType wb rb events s1))
       (snd (Gauges.readLoop ip replyType wb rb events s2)).
Proof.
  induction events as [|ev rest IH]; intros rb s1 s2 Hlogs.
  - simpl. auto.
  - destruct ev as [| |data peer].
    + simpl. run. simpl. rewrite Hlogs. auto.
    + simpl. run. apply IH. simpl. now rewrite Hlogs.
    + rewrite Writer_readLoop_packet, Gauges_readLoop_packet.
      destruct (_ && _); simpl; [auto | now apply IH].
Qed.

Ltac loop_leaf :=
  match goal with
  | |- context [Writer.readLoop ?ip ?rt ?wb ?rb ?l ?x] =>
    match goal with
    | |- context [Gauges.readLoop ip rt wb rb l ?y] =>
        let Hl := fresh "Hl" in
        let Hl' := fresh "Hl'" in
        let Ho := fresh "Ho" in
        let Ew := fresh "Ew" in
        let Eg := fresh "Eg" in
        assert (logs x = logs y) as Hl by (simpl; congruence);
        destruct (readLoop_same ip rt wb l rb x y Hl) as [Hl' Ho];
        destruct (Writer.readLoop ip rt wb rb l x) as [? ?] eqn:Ew;
        destruct (Gauges.readLoop ip rt wb rb l y) as [? ?] eqn:Eg;
        apply Writer_readLoop_frame in Ew; apply Gauges_readLoop_frame in Eg;
        simpl in Ew, Eg, Hl', Ho;
        destruct Ew as (? & ? & ? & ? & [-> | [-> | ->]]);
        destruct Eg as (? & ? & ? & ? & ?)
    end
  end.

Ltac leaf :=
  do 5 eexists; (split; [reflexivity|]); (split; [reflexivity|]); simpl;
  repeat split; try reflexivity; try discriminate; try congruence; eauto.

(** From the socket on the two versions do the same, one writing
    probe_ip_protocol as a line and the other setting it on its gauge. *)
Lemma echo_same e ip sw sg :
  logs sw = logs sg -> icmpSequence sw = icmpSequence sg ->
  exists sw' stw sg' stg v,
    Writer.echo e ip sw = (sw', stw) /\ Gauges.echo e ip sg = (sg', stg)
    /\ Spec.sameOutcome stw stg
    /\ logs sw' = logs sg' /\ icmpSequence sw' = icmpSequence sg'
    /\ lookups sw' = lookups sw /\ lookups sg' = lookups sg
    /\ w sw' = (w sw ++ [mkSample "probe_ip_protocol" v])%list
    /\ registry sg' = <["probe_ip_protocol" := v]> (registry sg)
    /\ w sg' = w sg /\ registry sw' = registry sw
    /\ stw <> Return (false, "Error resolving address").
Proof.
  intros Hlogs Hseq.
  unfold Writer.echo, Gauges.echo, GaugeSet, getICMPSequence.
  destruct (To4_nil ip); run;
    (destruct (icmp_ListenPacket e _ _); run; [|leaf]);
    rewrite <- Hseq;
    (destruct (Marshal e _) as [wb|]; run; [|leaf]);
    (destruct (WriteTo e wb ip); run; [|leaf]);
    (destruct (Marshal e _) as [wb'|]; run; [|leaf]);
    (destruct (SetReadDeadline e); run; [|leaf]);
    loop_leaf; leaf.
Qed.

(** After the lookups [Writer.probeICMP] looks nothing up, and it
    reports a resolution failure exactly when they gave no address. *)
Lemma Writer_probeICMP_after_resolution e target module s s0 resolved :
  @resolve Writer.Result e target module s = (s0, Next resolved) ->
  exists s' st,
    Writer.probeICMP e target module s = (s', st)
    /\ lookups s' = lookups s0
    /\ (st = Return (false, "Error resolving address") <-> resolved = None).
Proof.
  intros Hres. unfold Writer.probeICMP.
  rewrite (bind_Next _ _ _ _ _ Hres).
  destruct resolved as [ip|].
  - run.
    match goal with
    | |- context [Writer.echo e ip ?x] =>
        destruct (echo_same e ip x x eq_refl eq_refl)
          as (s' & st & _ & _ & _ & Hrun & _ & _ & _ & _ & Hl & _ & _ & _ & _ & _ & Hst)
    end.
    exists s', st. split; [exact Hrun|]. split; [exact Hl|].
    split; [intros H; contradiction | discriminate].
  - run. simpl. do 2 eexists. split; [reflexivity|]. simpl. tauto.
Qed.

End TwoVersions.

(** C2.  With Protocol tcp (set or by default) probeHTTP looks the host
    of the target up in the preferred family, ip6 when none is set, and
    in the other family after that exactly when the first lookup failed;
    it returns "Error resolving address" exactly when both lookups
    failed.  probeICMP with Protocol icmp (set or by default) does the
    same with its target.  With Protocol icmp4 (icmp6) it makes the one
    lookup in ip4 (ip6), whatever family is preferred, and reports the
    resolution failure exactly when that lookup failed. *)
Theorem resolution_policy :
  (forall e target module s urlHost,
     HTTP.Protocol (HTTP.HTTP module) = "" \/ HTTP.Protocol (HTTP.HTTP module) = "tcp" ->
     HTTP.url_Parse e (Spec.withScheme target) = Some urlHost ->
     let preferred := Spec.preferredFamily (HTTP.PreferredIPProtocol (HTTP.HTTP module)) in
     let host := Spec.hostToResolve e urlHost in
     exists s' r,
       HTTP.probeHTTP e target module s = (s', Return r)
       /\ lookups s'
          = (lookups s ++ Spec.attempts (HTTP.net_ResolveIPAddr e) preferred host)%list
       /\ (r = (false, "Error resolving address")
           <-> HTTP.net_ResolveIPAddr e preferred host = None
               /\ HTTP.net_ResolveIPAddr e (Spec.otherFamily preferred) host = None))
  /\ (forall e target module s,
        ICMP.Protocol (ICMP.ICMP module) = "" \/ ICMP.Protocol (ICMP.ICMP module) = "icmp" ->
        let preferred := Spec.preferredFamily (ICMP.PreferredIPProtocol (ICMP.ICMP module)) in
        exists s' st,
          ICMP.Writer.probeICMP e target module s = (s', st)
          /\ lookups s'
             = (lookups s ++ Spec.attempts (ICMP.net_ResolveIPAddr e) preferred target)%list
          /\ (st = Return (false, "Error resolving address")
              <-> ICMP.net_ResolveIPAddr e preferred target = None
                  /\ ICMP.net_ResolveIPAddr e (Spec.otherFamily preferred) target = None))
  /\ (forall e target module s family,
        (ICMP.Protocol (ICMP.ICMP module) = "icmp4" /\ family = "ip4")
        \/ (ICMP.Protocol (ICMP.ICMP module) = "icmp6" /\ family = "ip6") ->
        exists s' st,
          ICMP.Writer.probeICMP e target module s = (s', st)
          /\ lookups s' = (lookups s ++ [(family, target)])%list
          /\ (st = Return (false, "Error resolving address")
              <-> ICMP.net_ResolveIPAddr e family target = None)).
Proof.
  split; [|split].
  - intros e target module s urlHost Hproto Hurl preferred host.
    destruct (resolveDialProtocol_tcp e target module s urlHost Hproto Hurl)
      as (s0 & st & Hres & Hl & Hst).
    fold preferred host in Hl, Hst.
    destruct (HTTP.net_ResolveIPAddr e preferred host) as [ip|] eqn:E1;
      [|destruct (HTTP.net_ResolveIPAddr e (Spec.otherFamily preferred) host)
          as [ip|] eqn:E2].
    1,2: destruct Hst as [td ->];
      destruct (probeHTTP_after_resolution _ _ _ _ _ _ Hres) as (s' & r & Hrun & Hl' & Hr);
      exists s', r; split; [exact Hrun|]; split; [congruence|];
      split; [intros ->; contradiction | intros [? ?]; discriminate].
    subst st. exists s0, (false, "Error resolving address").
    split; [|split; [exact Hl | tauto]].
    unfold HTTP.probeHTTP, HTTP.prepare.
    erewrite bind_Return; [reflexivity|].
    erewrite bind_Return; [reflexivity|]. exact Hres.
  - intros e target module s Hproto preferred.
    destruct (@resolve_fallback ICMP.Writer.Result e target module s preferred
                (families_icmp module Hproto))
      as (s0 & Hres & Hl & _).
    destruct (Writer_probeICMP_after_resolution _ _ _ _ _ _ Hres)
      as (s' & st & Hrun & Hl' & Hst).
    exists s', st. split; [exact Hrun|]. split; [congruence|].
    rewrite Hst.
    destruct (ICMP.net_ResolveIPAddr e preferred target);
      [split; [discriminate | intros [? _]; discriminate] | tauto].
  - intros e target module s family Hcase.
    assert (ICMP.families module = (family, "")) as Hf.
    { destruct Hcase as [[H ->] | [H ->]];
        [now apply families_icmp4 | now apply families_icmp6]. }
    destruct (@resolve_forced ICMP.Writer.Result e target module s family Hf)
      as (s0 & Hres & Hl & _).
    destruct (Writer_probeICMP_after_resolution _ _ _ _ _ _ Hres)
      as (s' & st & Hrun & Hl' & Hst).
    exists s', st. split; [exact Hrun|]. split; [congruence | exact Hst].
Qed.

Lemma resolution_policy_witness :
  lookups (fst (HTTP.probeHTTP (Examples.httpEnv [HTTP.HopFinal (Examples.response 200)])
                  "v4.example" Examples.httpModule emptyWorld))
  = [("ip6", "v4.example"); ("ip4", "v4.example")]
  /\ lookups (fst (ICMP.Writer.probeICMP (Examples.icmpEnv []) "nowhere.example"
                     (Examples.icmpModule "" "ip4") emptyWorld))
     = [("ip4", "nowhere.example"); ("ip6", "nowhere.example")]
  /\ lookups (fst (ICMP.Writer.probeICMP (Examples.icmpEnv []) "example.com"
                     (Examples.icmpModule "icmp4" "ip6") emptyWorld))
     = [("ip4", "example.com")].
Proof.
  destruct resolution_policy as (Hhttp & Hicmp & Hforced).
  split; [|split].
  - destruct (Hhttp (Examples.httpEnv [HTTP.HopFinal (Examples.response 200)])
                "v4.example" Examples.httpModule emptyWorld "v4.example"
                (or_introl eq_refl) eq_refl) as (s' & r & Hrun & Hl & _).
    rewrite Hrun. simpl fst. rewrite Hl. reflexivity.
  - destruct (Hicmp (Examples.icmpEnv []) "nowhere.example"
                (Examples.icmpModule "" "ip4") emptyWorld (or_introl eq_refl))
      as (s' & st & Hrun & Hl & _).
    rewrite Hrun. simpl fst. rewrite Hl. reflexivity.
  - destruct (Hforced (Examples.icmpEnv []) "example.com"
                (Examples.icmpModule "icmp4" "ip6") emptyWorld "ip4"
                (or_introl (conj eq_refl eq_refl)))
      as (s' & st & Hrun & Hl & _).
    rewrite Hrun. simpl fst. rewrite Hl. reflexivity.
Defined.


Section Resolve.
Import ICMP.

Lemma resolve_run e target module :
  exists extra resolved, forall R s,
    @resolve R e target module s
    = (mkWorld (w s) (registry s) (logs s) (lookups s ++ extra) (icmpSequence s),
       Next resolved).
Proof.
  unfold resolve, ResolveIPAddr. destruct (families module) as [preferred fallback].
  destruct (net_ResolveIPAddr e preferred target) as [ip|] eqn:E1.
  - exists [(preferred, target)], (Some ip). intros R s. run. reflexivity.
  - destruct (negb (String.eqb fallback "")) eqn:E2.
    + exists [(preferred, target); (fallback, target)], (net_ResolveIPAddr e fallback target).
      intros R s. run. simpl. now rewrite <- app_assoc.
    + exists [(preferred, target)], None. intros R s. run. reflexivity.
Qed.

End Resolve.

(** ** The DNS prober *)

Section DNSChecks.
Import DNS.

Lemma rr_failIfMatches_run e rr res s :
  if forallb (fun re => bool_decide (MatchString (regexp_Compile e) re rr = Some false)) res
  then failIfMatches e rr res s = (s, Next tt)
  else exists s', failIfMatches e rr res s = (s', Return false)
                  /\ registry s' = registry s.
Proof.
  induction res as [|re rest IH]; simpl; [reflexivity|].
  destruct (MatchString (regexp_Compile e) re rr) as [[|]|]; simpl; run;
    first [exact IH | eauto].
Qed.

Lemma rr_failIfNotMatches_run e rr res s :
  if forallb (fun re => bool_decide (MatchString (regexp_Compile e) re rr = Some true)) res
  then failIfNotMatches e rr res s = (s, Next tt)
  else exists s', failIfNotMatches e rr res s = (s', Return false)
                  /\ registry s' = registry s.
Proof.
  induction res as [|re rest IH]; simpl; [reflexivity|].
  destruct (MatchString (regexp_Compile e) re rr) as [[|]|]; simpl; run;
    first [exact IH | eauto].
Qed.

Lemma eachRR_run e v rrs : forall s,
  exists s',
    eachRR e rrs v s
    = (s', if forallb (Spec.rrAccepted e v) rrs then Next tt else Return false)
    /\ registry s' = registry s.
Proof.
  induction rrs as [|rr rest IH]; intros s; simpl; [eauto|].
  run. unfold Spec.rrAccepted at 1.
  match goal with
  | |- context [failIfMatches e rr ?l ?x] =>
      pose proof (rr_failIfMatches_run e rr l x) as H1
  end.
  destruct (forallb _ (FailIfMatchesRegexp v)); simpl.
  - rewrite H1.
    match goal with
    | |- context [failIfNotMatches e rr ?l ?x] =>
        pose proof (rr_failIfNotMatches_run e rr l x) as H2
    end.
    destruct (forallb _ (FailIfNotMatchesRegexp v)); simpl.
    + rewrite H2. destruct (IH (mkWorld (w s) (registry s)
                                  (logs s ++ [mkLog LDebug "Validating RR: %q"])
                                  (lookups s) (icmpSequence s))) as (s' & -> & Hr).
      eauto.
    + destruct H2 as (s' & -> & Hr). eauto.
  - destruct H1 as (s' & -> & Hr). eauto.
Qed.

Lemma validRRs_run e rrs v s :
  exists s',
    validRRs e rrs v s = (s', Return (Spec.rrsAccepted e v rrs))
    /\ registry s' = registry s.
Proof.
  unfold validRRs, Spec.rrsAccepted. run.
  destruct ((length rrs =? 0)%nat && (0 <? length (FailIfNotMatchesRegexp v))%nat); simpl.
  - eauto.
  - destruct (eachRR_run e v rrs s) as (s' & -> & Hr).
    destruct (forallb _ rrs); eauto.
Qed.


Lemma forallb_false {A} (f : A -> bool) l :
  forallb f l = false <-> exists x, In x l /\ f x = false.
Proof.
  induction l as [|a l IH]; simpl.
  - split; [discriminate | intros (x & [] & _)].
  - rewrite andb_false_iff, IH. split.
    + intros [H | (x & Hx & Hf)]; eauto.
    + intros (x & [<- | Hx] & Hf); eauto.
Qed.

Lemma rrAccepted_false e v rr :
  Spec.rrAccepted e v rr = false
  <-> (exists re, In re (FailIfMatchesRegexp v)
                  /\ MatchString (regexp_Compile e) re rr <> Some false)
      \/ (exists re, In re (FailIfNotMatchesRegexp v)
                     /\ MatchString (regexp_Compile e) re rr <> Some true).
Proof.
  unfold Spec.rrAccepted. rewrite andb_false_iff, !forallb_false.
  split; (intros [(re & Hin & H) | (re & Hin & H)]; [left | right]; exists re;
          (split; [exact Hin|]));
    first [now apply bool_decide_eq_false in H | now apply bool_decide_eq_false].
Qed.

Lemma appendRcodes_run e valid : forall validRcodes s,
  if forallb (fun name => bool_decide (is_Some (dns_StringToRcode e !! name))) valid
  then appendRcodes e valid validRcodes s
       = (s, Next (validRcodes ++ Spec.rcodesOf e valid)%list)
  else exists s', appendRcodes e valid validRcodes s = (s', Return false)
                  /\ registry s' = registry s.
Proof.
  induction valid as [|name rest IH]; intros validRcodes s; simpl.
  - now rewrite app_nil_r.
  - destruct (dns_StringToRcode e !! name) as [rc|] eqn:E; simpl.
    + try rewrite bool_decide_eq_true_2 by eauto. simpl.
      specialize (IH (validRcodes ++ [rc])%list s).
      destruct (forallb _ rest); [|exact IH].
      rewrite IH. now rewrite <- app_assoc.
    + try rewrite bool_decide_eq_false_2 by (intros [? ?]; discriminate). simpl.
      run. eauto.
Qed.

Lemma findRcode_run rcode validRcodes s :
  findRcode rcode validRcodes s
  = (s, if existsb (Z.eqb rcode) validRcodes then Return true else Next tt).
Proof.
  induction validRcodes as [|rc rest IH]; simpl; [reflexivity|].
  destruct (rcode =? rc); simpl; [reflexivity | exact IH].
Qed.

Lemma existsb_rcodes e rcode names :
  existsb (Z.eqb rcode) (Spec.rcodesOf e names)
  = existsb (fun name => bool_decide (dns_StringToRcode e !! name = Some rcode)) names.
Proof.
  induction names as [|name rest IH]; simpl; [reflexivity|].
  destruct (dns_StringToRcode e !! name) as [rc|]; simpl.
  - rewrite IH. f_equal.
    destruct (Z.eqb_spec rcode rc) as [->|Hne].
    + now rewrite bool_decide_eq_true_2.
    + rewrite bool_decide_eq_false_2; [reflexivity | congruence].
  - rewrite IH. reflexivity.
Qed.

Lemma validRcode_run e rcode valid s :
  exists s',
    validRcode e rcode valid s = (s', Return (Spec.rcodeAccepted e rcode valid))
    /\ registry s' = registry s.
Proof.
  unfold validRcode, Spec.rcodeAccepted. destruct valid as [names|].
  - pose proof (appendRcodes_run e names [] s) as H.
    unfold mbind at 1, run_bind at 1.
    destruct (forallb _ names); simpl.
    + rewrite H. simpl. unfold mbind at 1, run_bind at 1.
      rewrite findRcode_run, existsb_rcodes.
      destruct (existsb _ names); run; eauto.
    + destruct H as (s' & -> & Hr). eauto.
  - unfold mbind at 1, run_bind at 1. simpl. unfold mbind at 1, run_bind at 1. simpl.
    destruct (rcode =? _); run; eauto.
Qed.

(** What the query gives does not depend on the world. *)
Lemma query_run e target module :
  exists st, forall s,
    exists s', query e target module s = (s', st) /\ registry s' = registry s.
Proof.
  unfold query.
  set (TransportProtocol' := if String.eqb (TransportProtocol (DNS module)) "" then "udp"
                             else TransportProtocol (DNS module)).
  destruct (String.eqb TransportProtocol' "udp" || String.eqb TransportProtocol' "tcp").
  2:{ eexists. intros s. run. eauto. }
  destruct (match net_SplitHostPort e target with
            | Some hp => hp
            | None => (target, "53")
            end) as [targetAddr port].
  destruct (chooseProtocol e (PreferredIPProtocol (DNS module)) targetAddr) as [ip|].
  2:{ eexists. intros s. run. eauto. }
  destruct (negb (String.eqb (QueryType (DNS module)) "")).
  - destruct (dns_StringToType e !! QueryType (DNS module)) as [qt|].
    2:{ eexists. intros s. run. eauto. }
    run. destruct (Exchange e _ _ _ qt) as [response|];
      eexists; intros s; run; eauto.
  - run. destruct (Exchange e _ _ _ dns_TypeANY) as [response|];
      eexists; intros s; run; eauto.
Qed.

End DNSChecks.

(** C3, as the code has it.  For a response that was received,
    validRcode passes, when ValidRcodes is the nil slice (no list given),
    exactly if the rcode is that of NOERROR; when a list is given, empty
    or not, exactly if every name in it is an rcode name and one of them
    is the name of the rcode of the response (so an empty list lets no
    rcode pass).  When validRcode does not pass ProbeDNS returns false. *)
Theorem validRcode_verdict e target module s response :
  registry s !! "probe_dns_answer_rrs" = None ->
  registry s !! "probe_dns_authority_rrs" = None ->
  registry s !! "probe_dns_additional_rrs" = None ->
  snd (DNS.query e target module s) = Next response ->
  let table := DNS.dns_StringToRcode e in
  let rcode := DNS.Rcode response in
  let valid := DNS.ValidRcodes (DNS.DNS module) in
  let ok := Spec.rcodeAccepted e rcode valid in
  (forall s0, exists s', DNS.validRcode e rcode valid s0 = (s', Return ok))
  /\ (valid = None -> (ok = true <-> rcode = default 0 (table !! "NOERROR")))
  /\ (forall names,
        valid = Some names ->
        (ok = true <-> (forall name, In name names -> is_Some (table !! name))
                       /\ exists name, In name names /\ table !! name = Some rcode))
  /\ (ok = false -> exists s', DNS.ProbeDNS e target module s = (s', Return false)).
Proof.
  intros H1 H2 H3 Hq table rcode valid ok.
  split; [|split; [|split]].
  - intros s0. destruct (validRcode_run e rcode valid s0) as (s' & H & _). eauto.
  - intros Hv. unfold ok, Spec.rcodeAccepted. rewrite Hv. apply Z.eqb_eq.
  - intros names Hv. unfold ok, Spec.rcodeAccepted. rewrite Hv.
    rewrite andb_true_iff, forallb_forall, existsb_exists.
    split; intros [Hall (name & Hin & Hname)]; (split; [|exists name; split; [exact Hin|]]).
    + intros n Hn. specialize (Hall n Hn). now apply bool_decide_eq_true in Hall.
    + now apply bool_decide_eq_true in Hname.
    + intros n Hn. apply bool_decide_eq_true. auto.
    + now apply bool_decide_eq_true.
  - intros Hok.
    destruct (query_run e target module) as (st & Hst).
    assert (st = Next response) as ->.
    { destruct (Hst s) as (s' & E & _). rewrite E in Hq. exact Hq. }
    unfold DNS.ProbeDNS, MustRegister, GaugeSet, DNS.probe, DNS.validate.
    run. rewrite H1. run. rewrite lookup_insert_ne by discriminate. rewrite H2. run.
    rewrite !lookup_insert_ne by discriminate. rewrite H3. run.
    unfold call at 1.
    match goal with
    | |- context [DNS.query e target module ?x] =>
        destruct (Hst x) as (s1 & -> & _)
    end.
    unfold call at 1.
    match goal with
    | |- context [DNS.validRcode e ?r ?v ?x] =>
        destruct (validRcode_run e r v x) as (s2 & -> & _)
    end.
    fold rcode valid ok. rewrite Hok. simpl. eauto.
Qed.

Lemma validRcode_verdict_witness :
  exists s',
    DNS.ProbeDNS (Examples.dnsEnv Examples.noerror) "example.com"
      (Examples.dnsModule (Some ["NXDOMAIN"])) emptyWorld
    = (s', Return false).
Proof.
  destruct (validRcode_verdict (Examples.dnsEnv Examples.noerror) "example.com"
              (Examples.dnsModule (Some ["NXDOMAIN"])) emptyWorld Examples.noerror
              eq_refl eq_refl eq_refl) as (_ & _ & _ & H).
  - vm_compute. reflexivity.
  - apply H. vm_compute. reflexivity.
Defined.

(** C3 as it was stated does not hold: with a list of valid rcodes that
    is given and empty, a response with rcode NOERROR does not pass, and
    ProbeDNS returns false for it; it passes when no list is given. *)
Lemma validRcode_counterexample :
  let e := Examples.dnsEnv Examples.noerror in
  DNS.dns_StringToRcode e !! "NOERROR" = Some 0
  /\ DNS.Rcode Examples.noerror = 0
  /\ snd (DNS.validRcode e 0 (Some []) emptyWorld) = Return false
  /\ snd (DNS.ProbeDNS e "example.com" (Examples.dnsModule (Some [])) emptyWorld)
     = Return false
  /\ snd (DNS.ProbeDNS e "example.com" (Examples.dnsModule None) emptyWorld)
     = Return true.
Proof. cbv zeta. repeat split; vm_compute; reflexivity. Qed.

(** C4, as the code has it.  An empty section fails exactly if
    FailIfNotMatchesRegexp is not empty.  A section with records fails
    exactly if, for some record, some FailIfMatchesRegexp pattern matches
    its text or does not compile, or some FailIfNotMatchesRegexp pattern
    does not match its text or does not compile. *)
Theorem validRRs_verdict e rrs v s :
  exists s' ok,
    DNS.validRRs e rrs v s = (s', Return ok)
    /\ (rrs = [] -> (ok = false <-> DNS.FailIfNotMatchesRegexp v <> []))
    /\ (rrs <> [] ->
        (ok = false
         <-> exists rr,
               In rr rrs
               /\ ((exists re, In re (DNS.FailIfMatchesRegexp v)
                               /\ MatchString (DNS.regexp_Compile e) re rr <> Some false)
                   \/ (exists re, In re (DNS.FailIfNotMatchesRegexp v)
                                  /\ MatchString (DNS.regexp_Compile e) re rr
                                     <> Some true)))).
Proof.
  destruct (validRRs_run e rrs v s) as (s' & H & _).
  exists s', (Spec.rrsAccepted e v rrs). split; [exact H|].
  unfold Spec.rrsAccepted. split.
  - intros ->. simpl.
    destruct (DNS.FailIfNotMatchesRegexp v); simpl; split; congruence.
  - intros Hne.
    destruct rrs as [|rr0 rest]; [contradiction|].
    change (length (rr0 :: rest) =? 0)%nat with false.
    rewrite andb_false_l, andb_true_l, forallb_false.
    split; intros (rr & Hin & Hrr); exists rr; (split; [exact Hin|]);
      now apply rrAccepted_false.
Qed.

Lemma validRRs_verdict_witness :
  snd (DNS.validRRs (Examples.dnsEnv Examples.noerror) [Examples.answerA]
         (DNS.mkValidator ["A 192"] []) emptyWorld)
  = Return false.
Proof.
  destruct (validRRs_verdict (Examples.dnsEnv Examples.noerror) [Examples.answerA]
              (DNS.mkValidator ["A 192"] []) emptyWorld) as (s' & ok & H & _ & Hne).
  rewrite H. simpl. f_equal. apply Hne; [discriminate|].
  exists Examples.answerA. split; [left; reflexivity|].
  left. exists "A 192". split; [left; reflexivity|].
  vm_compute. discriminate.
Defined.

(** C4 as it was stated does not hold: with the one FailIfMatchesRegexp
    pattern ":[", which does not compile, a section with a record fails,
    although no pattern matches the record and there is no
    FailIfNotMatchesRegexp pattern for it to miss. *)
Lemma validRRs_counterexample :
  let e := Examples.dnsEnv Examples.noerror in
  let v := DNS.mkValidator [":["] [] in
  let rrs := [Examples.answerA] in
  DNS.regexp_Compile e ":[" = None
  /\ snd (DNS.validRRs e rrs v emptyWorld) = Return false
  /\ ~ (exists rr,
          In rr rrs
          /\ ((exists re, In re (DNS.FailIfMatchesRegexp v)
                          /\ MatchString (DNS.regexp_Compile e) re rr = Some true)
              \/ (exists re, In re (DNS.FailIfNotMatchesRegexp v)
                             /\ MatchString (DNS.regexp_Compile e) re rr <> Some true))).
Proof.
  cbv zeta. split; [reflexivity|]. split; [vm_compute; reflexivity|].
  intros (rr & Hin & [(re & Hre & Hm) | (re & [] & _)]).
  destruct Hre as [<-|[]]. destruct Hin as [<-|[]].
  vm_compute in Hm. discriminate.
Qed.

(** * Further properties *)

(** ** More on probeHTTP *)

Section HTTPBody.
Import HTTP.

Lemma failIfMatches_diagnostic e body exprs : forall s s' r,
  failIfMatches e body exprs s = (s', Return r) ->
  (r = (false, "Could not compile regexp")
   /\ exists p, In p exprs /\ regexp_Compile e p = None)
  \/ r = (false, "Match failed").
Proof.
  induction exprs as [|p rest IH]; intros s s' r; simpl; [discriminate|].
  destruct (regexp_Compile e p) as [re|] eqn:E.
  - destruct (re body).
    + run. intros; simplify_eq. auto.
    + intros H. apply IH in H. destruct H as [(-> & q & Hq & Hc) | ->]; eauto 10.
  - run. intros; simplify_eq. left. eauto.
Qed.

Lemma failIfNotMatches_diagnostic e body exprs : forall s s' r,
  failIfNotMatches e body exprs s = (s', Return r) ->
  (r = (false, "Could not compile regexp")
   /\ exists p, In p exprs /\ regexp_Compile e p = None)
  \/ r = (false, "Match failed").
Proof.
  induction exprs as [|p rest IH]; intros s s' r; simpl; [discriminate|].
  destruct (regexp_Compile e p) as [re|] eqn:E.
  - destruct (re body); simpl.
    + intros H. apply IH in H. destruct H as [(-> & q & Hq & Hc) | ->]; eauto 10.
    + run. intros; simplify_eq. auto.
  - run. intros; simplify_eq. left. eauto.
Qed.

End HTTPBody.

Lemma matchRegularExpressions_outcome e reader config s :
  exists s' ok diag,
    HTTP.matchRegularExpressions e reader config s = (s', Return (ok, diag))
    /\ ok = Spec.bodyAccepted e config reader
    /\ (ok = true <-> diag = "")
    /\ (diag = "Error reading HTTP body" <-> reader = None)
    /\ (diag = "Could not compile regexp" ->
        exists p, In p (HTTP.FailIfMatchesRegexp config
                        ++ HTTP.FailIfNotMatchesRegexp config)%list
                  /\ HTTP.regexp_Compile e p = None)
    /\ In diag [""; "Error reading HTTP body"; "Could not compile regexp"; "Match failed"].
Proof.
  destruct (matchRegularExpressions_run e reader config s) as (s' & d & Hrun & _).
  exists s', (Spec.bodyAccepted e config reader), d.
  split; [exact Hrun|]. split; [reflexivity|].
  revert Hrun. unfold HTTP.matchRegularExpressions, Spec.bodyAccepted.
  destruct reader as [b|].
  2:{ run. intros; simplify_eq. simpl. repeat split; try discriminate; auto. }
  run.
  destruct (HTTP.failIfMatches e b (HTTP.FailIfMatchesRegexp config) s)
    as [s1 [[]|r1| |]] eqn:E1; try discriminate.
  - destruct (HTTP.failIfNotMatches e b (HTTP.FailIfNotMatchesRegexp config) s1)
      as [s2 [[]|r2| |]] eqn:E2; try discriminate.
    + intros H. injection H as _ Hok <-. rewrite <- Hok.
      repeat split; try discriminate; simpl; auto.
    + intros H. injection H as <- Hr.
      apply failIfNotMatches_diagnostic in E2.
      destruct E2 as [(-> & p & Hp & Hc) | ->]; injection Hr as Hok <-; rewrite <- Hok;
        repeat split; try discriminate; simpl; auto 10.
      intros _. exists p. rewrite in_app_iff. auto.
  - intros H. injection H as <- Hr.
    apply failIfMatches_diagnostic in E1.
    destruct E1 as [(-> & p & Hp & Hc) | ->]; injection Hr as Hok <-; rewrite <- Hok;
      repeat split; try discriminate; simpl; auto 10.
    intros _. exists p. rewrite in_app_iff. auto.
Qed.

(** X1.  matchRegularExpressions returns true exactly if the body could
    be read, every FailIfMatchesRegexp pattern compiles and does not match
    it and every FailIfNotMatchesRegexp pattern compiles and matches it,
    and then with the empty diagnostic.  A failure always names its
    reason: "Error reading HTTP body" exactly when the body could not be
    read; "Could not compile regexp" only when a configured pattern does
    not compile; "Match failed" otherwise. *)
Theorem matchRegularExpressions_verdict e reader config s :
  exists s' ok diag,
    HTTP.matchRegularExpressions e reader config s = (s', Return (ok, diag))
    /\ ok = Spec.bodyAccepted e config reader
    /\ (ok = true <-> diag = "")
    /\ (diag = "Error reading HTTP body" <-> reader = None)
    /\ (diag = "Could not compile regexp" ->
        exists p, In p (HTTP.FailIfMatchesRegexp config
                        ++ HTTP.FailIfNotMatchesRegexp config)%list
                  /\ HTTP.regexp_Compile e p = None)
    /\ In diag [""; "Error reading HTTP body"; "Could not compile regexp"; "Match failed"].
Proof. exact (matchRegularExpressions_outcome e reader config s). Qed.

Section HTTPRequest.
Import HTTP.

Lemma setHeaders_fields headers : forall request,
  ReqMethod (setHeaders headers request) = ReqMethod request
  /\ URL (setHeaders headers request) = URL request
  /\ ReqBody (setHeaders headers request) = ReqBody request.
Proof.
  unfold setHeaders.
  induction headers as [|[key value] rest IH]; intros request; cbn [fold_left]; [auto|].
  destruct (IH (setHeader request (key, value))) as (-> & -> & ->).
  unfold setHeader. destruct (String.eqb _ "Host"); auto.
Qed.

Lemma withScheme_prefix target :
  String.prefix "http://" (Spec.withScheme target) = true
  \/ String.prefix "https://" (Spec.withScheme target) = true.
Proof.
  unfold Spec.withScheme.
  destruct (String.prefix "http://" target) eqn:E1; simpl; [auto|].
  destruct (String.prefix "https://" target) eqn:E2; simpl; [auto|].
  left. destruct target; reflexivity.
Qed.

(** What [resolveDialProtocol] hands on is the target with its scheme. *)
Lemma resolveDialProtocol_target e target module s s0 t d :
  resolveDialProtocol e target module s = (s0, Next (t, d)) ->
  t = Spec.withScheme target.
Proof.
  unfold resolveDialProtocol, ResolveIPAddr. fold (Spec.withScheme target). run.
  repeat case_match; intros; simplify_eq; reflexivity.
Qed.

End HTTPRequest.

(** X2.  The request that probeHTTP sends has a URL with a scheme: the
    target as given when it starts with "http://" or "https://", the
    target after "http://" otherwise.  Its method is the configured one,
    GET when none is configured, and it has a body exactly when a
    non-empty Body is configured; the headers change none of these. *)
Theorem prepare_request e target module s s1 request :
  HTTP.prepare e target module s = (s1, Next request) ->
  HTTP.URL request = Spec.withScheme target
  /\ (String.prefix "http://" (HTTP.URL request) = true
      \/ String.prefix "https://" (HTTP.URL request) = true)
  /\ HTTP.ReqMethod request
     = (if String.eqb (HTTP.Method (HTTP.HTTP module)) "" then "GET"
        else HTTP.Method (HTTP.HTTP module))
  /\ HTTP.ReqBody request
     = (if String.eqb (HTTP.Body (HTTP.HTTP module)) "" then None
        else Some (HTTP.Body (HTTP.HTTP module))).
Proof.
  intros H.
  assert (HTTP.URL request = Spec.withScheme target
          /\ HTTP.ReqMethod request
             = (if String.eqb (HTTP.Method (HTTP.HTTP module)) "" then "GET"
                else HTTP.Method (HTTP.HTTP module))
          /\ HTTP.ReqBody request
             = (if String.eqb (HTTP.Body (HTTP.HTTP module)) "" then None
                else Some (HTTP.Body (HTTP.HTTP module)))) as (Hu & Hm & Hb).
  { revert H. unfold HTTP.prepare.
    destruct (HTTP.resolveDialProtocol e target module s) as [s0 [[t d]|r| |]] eqn:E;
      unfold mbind at 1, run_bind at 1; rewrite E; try discriminate.
    apply resolveDialProtocol_target in E. subst t.
    run.
    destruct (String.eqb (HTTP.Body (HTTP.HTTP module)) ""); simpl;
      repeat case_match; intros; simplify_eq; cbn [HTTP.URL HTTP.ReqMethod HTTP.ReqBody];
      match goal with
      | |- context [HTTP.setHeaders ?h ?r] =>
          destruct (setHeaders_fields h r) as (Hm & Hu & Hb)
      end;
      rewrite ?Hm, ?Hu, ?Hb; auto. }
  rewrite Hu. auto using withScheme_prefix.
Qed.

Lemma prepare_request_witness :
  exists s1 request,
    HTTP.prepare (Examples.httpEnv []) "example.com" Examples.httpModule emptyWorld
    = (s1, Next request)
    /\ HTTP.URL request = "http://example.com" /\ HTTP.ReqMethod request = "GET".
Proof.
  do 2 eexists. split; [vm_compute; reflexivity|].
  match goal with
  | |- HTTP.URL ?r = _ /\ _ =>
      destruct (prepare_request (Examples.httpEnv []) "example.com" Examples.httpModule
                  emptyWorld
                  (mkWorld [mkSample "probe_ip_protocol" 6] ∅ [] [("ip6", "example.com")] 0)
                  r eq_refl) as (Hu & _ & Hm & _)
  end.
  split; [exact Hu | exact Hm].
Defined.

Section HTTPAfterDial.
Import HTTP.

(** From the dial protocol on: the line probe_ip_protocol comes first,
    and nothing is looked up. *)
Lemma probeHTTP_after_dial e target module s s0 t d :
  resolveDialProtocol e target module s = (s0, Next (t, d)) ->
  exists s' r rest,
    probeHTTP e target module s = (s', Return r)
    /\ lookups s' = lookups s0
    /\ w s' = (w s0 ++ mkSample "probe_ip_protocol" (if String.eqb d "tcp6" then 6 else 4)
                 :: rest)%list.
Proof.
  intros Hres.
  destruct (prepare e target module s) as [s1 st1] eqn:Hprep.
  assert (lookups s1 = lookups s0
          /\ w s1 = (w s0 ++ [mkSample "probe_ip_protocol"
                                (if String.eqb d "tcp6" then 6 else 4)])%list
          /\ match st1 with Next _ | Return _ => True | _ => False end)
    as (Hl1 & Hw1 & Hst1).
  { revert Hprep. unfold prepare.
    unfold mbind at 1, run_bind at 1. rewrite Hres.
    run. destruct (String.eqb d "tcp6");
      repeat case_match; intros; simplify_eq; simpl; auto. }
  unfold probeHTTP.
  destruct st1 as [request|r| |]; try contradiction.
  - rewrite (bind_Next _ _ _ _ _ Hprep).
    destruct (clientDo _ _ 0 0) as [answer redirects].
    assert (exists s2 v, judge e (HTTP module) answer s1 = (s2, Next v)
                         /\ lookups s2 = lookups s1 /\ w s2 = w s1)
      as (s2 & v & Hj & Hl2 & Hw2).
    { destruct answer as [|resp err].
      - rewrite judge_error. eauto.
      - destruct (judge_response e (HTTP module) resp err s1) as (s2 & dg & -> & ? & ?).
        eauto. }
    rewrite (bind_Next _ _ _ _ _ Hj).
    destruct (report_run e (HTTP module) answer redirects v s2)
      as (s' & Hr & Hw & Hl & _).
    rewrite Hr. do 3 eexists. split; [reflexivity|]. split; [congruence|].
    rewrite Hw, Hw2, Hw1, <- app_assoc. reflexivity.
  - rewrite (bind_Return _ _ _ _ _ Hprep). exists s1, r, [].
    split; [reflexivity|]. auto.
Qed.

Lemma resolveDialProtocol_other e target module s :
  Protocol (HTTP module) <> "" -> Protocol (HTTP module) <> "tcp" ->
  resolveDialProtocol e target module s
  = (s, Next (Spec.withScheme target, Protocol (HTTP module))).
Proof.
  intros H1 H2. unfold resolveDialProtocol.
  apply String.eqb_neq in H1. apply String.eqb_neq in H2.
  rewrite H1, H2. reflexivity.
Qed.

Lemma resolveDialProtocol_dial e target module s urlHost ip :
  Protocol (HTTP module) = "" \/ Protocol (HTTP module) = "tcp" ->
  url_Parse e (Spec.withScheme target) = Some urlHost ->
  let preferred := Spec.preferredFamily (PreferredIPProtocol (HTTP module)) in
  let host := Spec.hostToResolve e urlHost in
  match net_ResolveIPAddr e preferred host with
  | Some first => Some first
  | None => net_ResolveIPAddr e (Spec.otherFamily preferred) host
  end = Some ip ->
  exists s0,
    resolveDialProtocol e target module s
    = (s0, Next (Spec.withScheme target, if To4_nil ip then "tcp6" else "tcp4"))
    /\ w s0 = w s.
Proof.
  intros Hproto Hurl preferred host Hip.
  unfold resolveDialProtocol.
  assert ((if String.eqb (Protocol (HTTP module)) "" then "tcp"
           else Protocol (HTTP module)) = "tcp") as ->.
  { destruct Hproto as [-> | ->]; reflexivity. }
  change (String.eqb "tcp" "tcp") with true. cbv iota. rewrite andb_true_l.
  fold (Spec.withScheme target). rewrite Hurl.
  fold (Spec.hostToResolve e urlHost). fold host.
  change (if String.eqb (PreferredIPProtocol (HTTP module)) "" then "ip6"
          else PreferredIPProtocol (HTTP module)) with preferred.
  fold (Spec.otherFamily preferred).
  unfold ResolveIPAddr. run.
  destruct (net_ResolveIPAddr e preferred host) as [first|]; simpl.
  - injection Hip as ->. eauto.
  - rewrite Hip. simpl. eauto.
Qed.

End HTTPAfterDial.

(** X3.  With a Protocol other than tcp (and not left empty) probeHTTP
    looks no address up: it dials with the Protocol as it is, and the
    first line it writes is probe_ip_protocol 6 if the Protocol is
    "tcp6" and probe_ip_protocol 4 for anything else. *)
Theorem probeHTTP_other_protocol e target module s :
  HTTP.Protocol (HTTP.HTTP module) <> "" ->
  HTTP.Protocol (HTTP.HTTP module) <> "tcp" ->
  exists s' r rest,
    HTTP.probeHTTP e target module s = (s', Return r)
    /\ lookups s' = lookups s
    /\ w s' = (w s ++ mkSample "probe_ip_protocol"
                        (if String.eqb (HTTP.Protocol (HTTP.HTTP module)) "tcp6"
                         then 6 else 4) :: rest)%list.
Proof.
  intros H1 H2.
  exact (probeHTTP_after_dial e target module s s _ _
           (resolveDialProtocol_other e target module s H1 H2)).
Qed.

Lemma probeHTTP_other_protocol_witness :
  exists s' r rest,
    HTTP.probeHTTP (Examples.httpEnv []) "nowhere.example" Behaviour.httpModuleICMP
      emptyWorld = (s', Return r)
    /\ lookups s' = []
    /\ w s' = mkSample "probe_ip_protocol" 4 :: rest.
Proof.
  apply (probeHTTP_other_protocol (Examples.httpEnv []) "nowhere.example"
           Behaviour.httpModuleICMP emptyWorld); discriminate.
Defined.

(** X4.  With Protocol tcp the line probe_ip_protocol follows the address
    that was resolved, not the family that was preferred: it is 6 when
    To4 of the address used (that of the preferred family, or of the other
    family when the first lookup failed) is nil, and 4 otherwise. *)
Theorem probeHTTP_reports_resolved_family e target module s urlHost ip :
  HTTP.Protocol (HTTP.HTTP module) = "" \/ HTTP.Protocol (HTTP.HTTP module) = "tcp" ->
  HTTP.url_Parse e (Spec.withScheme target) = Some urlHost ->
  let preferred := Spec.preferredFamily (HTTP.PreferredIPProtocol (HTTP.HTTP module)) in
  let host := Spec.hostToResolve e urlHost in
  match HTTP.net_ResolveIPAddr e preferred host with
  | Some first => Some first
  | None => HTTP.net_ResolveIPAddr e (Spec.otherFamily preferred) host
  end = Some ip ->
  exists s' r rest,
    HTTP.probeHTTP e target module s = (s', Return r)
    /\ w s' = (w s ++ mkSample "probe_ip_protocol" (if To4_nil ip then 6 else 4)
                        :: rest)%list.
Proof.
  intros Hproto Hurl preferred host Hip.
  destruct (resolveDialProtocol_dial e target module s urlHost ip Hproto Hurl Hip)
    as (s0 & Hres & Hw).
  destruct (probeHTTP_after_dial _ _ _ _ _ _ _ Hres) as (s' & r & rest & Hrun & _ & Hw').
  exists s', r, rest. split; [exact Hrun|].
  rewrite Hw', Hw. now destruct (To4_nil ip).
Qed.

Lemma probeHTTP_reports_resolved_family_witness :
  exists s' r rest,
    HTTP.probeHTTP (Examples.httpEnv []) "v4.example" Examples.httpModule emptyWorld
    = (s', Return r)
    /\ w s' = mkSample "probe_ip_protocol" 4 :: rest.
Proof.
  exact (probeHTTP_reports_resolved_family (Examples.httpEnv []) "v4.example"
           Examples.httpModule emptyWorld "v4.example" (mkIPAddr false "192.0.2.7")
           (or_introl eq_refl) eq_refl eq_refl).
Defined.

Section HTTPDiagnostics.
Import HTTP.

(** What [judge] hands on for a response: the verdict has an empty
    diagnostic exactly if it is a success or the status was rejected. *)
Lemma judge_diagnostic e config resp err s :
  exists s' ok d,
    judge e config (DoResponse resp err) s = (s', Next (ok, d))
    /\ (ok = false /\ d = "" <-> statusCheck config resp = false).
Proof.
  unfold judge.
  destruct (statusCheck config resp) eqn:Hs; simpl.
  - destruct ((0 <? length (FailIfMatchesRegexp config))%nat
              || (0 <? length (FailIfNotMatchesRegexp config))%nat).
    + destruct (matchRegularExpressions_outcome e (RespBody resp) config s)
        as (s' & ok & d & Hrun & _ & Hd & _).
      exists s', ok, d. split; [now apply call_Return|].
      split; [|discriminate]. intros [-> ->].
      destruct Hd as [_ Hd]. specialize (Hd eq_refl). discriminate.
    + exists s, true, "". split; [reflexivity|]. split; [intros [? _]|]; discriminate.
  - exists s, false, "". split; [reflexivity|]. tauto.
Qed.

End HTTPDiagnostics.

(** X5.  probeHTTP fails without a diagnostic in two cases only: the
    request was made and either brought no response or brought one whose
    status code is not accepted, and the TLS policy did not turn the
    outcome into "SSL failed".  Every other failure carries a diagnostic
    that is not empty. *)
Theorem probeHTTP_silent_failure e target module s :
  snd (HTTP.probeHTTP e target module s) = Return (false, "")
  <-> exists s1 request,
        HTTP.prepare e target module s = (s1, Next request)
        /\ let answer := fst (HTTP.clientDo (HTTP.HTTP module) (HTTP.server e request) 0 0) in
           Spec.tlsForcesFailure (HTTP.HTTP module) (Spec.reported answer) = false
           /\ match answer with
              | HTTP.DoError => True
              | HTTP.DoResponse resp _ => HTTP.statusCheck (HTTP.HTTP module) resp = false
              end.
Proof.
  unfold HTTP.probeHTTP.
  destruct (HTTP.prepare e target module s) as [s1 st1] eqn:Hprep.
  pose proof (prepare_frame _ _ _ _ _ _ Hprep) as Hframe.
  destruct st1 as [request|r| |]; try contradiction.
  - rewrite (bind_Next _ _ _ _ _ Hprep).
    destruct (HTTP.clientDo _ _ 0 0) as [answer redirects] eqn:Hdo.
    assert (exists s2 ok d,
              HTTP.judge e (HTTP.HTTP module) answer s1 = (s2, Next (ok, d))
              /\ (ok = false /\ d = ""
                  <-> match answer with
                      | HTTP.DoError => True
                      | HTTP.DoResponse resp _ =>
                          HTTP.statusCheck (HTTP.HTTP module) resp = false
                      end)) as (s2 & ok & d & Hj & Hv).
    { destruct answer as [|resp err].
      - rewrite judge_error. do 3 eexists. split; [reflexivity|]. tauto.
      - apply judge_diagnostic. }
    rewrite (bind_Next _ _ _ _ _ Hj).
    destruct (report_run e (HTTP.HTTP module) answer redirects (ok, d) s2)
      as (s' & Hr & _).
    rewrite Hr. simpl snd.
    split.
    + intros H. exists s1, request. split; [reflexivity|]. rewrite Hdo. simpl.
      destruct (Spec.tlsForcesFailure _ _); [discriminate|].
      split; [reflexivity|]. apply Hv. injection H as -> ->. auto.
    + intros (s1' & request' & Heq & Htls & Hans). simplify_eq.
      rewrite Hdo in Htls, Hans. simpl in Htls, Hans. rewrite Htls.
      apply Hv in Hans. destruct Hans as [-> ->]. reflexivity.
  - rewrite (bind_Return _ _ _ _ _ Hprep). simpl. split.
    + intros H. injection H as ->.
      destruct Hframe as [[_ [H|H]] | [_ [H|H]]]; discriminate.
    + intros (? & ? & ? & _). discriminate.
Qed.

Section HTTPHeaders.
Import HTTP.

Lemma setHeaders_Host headers : forall request,
  Host (setHeaders headers request)
  = default (Host request) (Behaviour.lastHost headers).
Proof.
  unfold setHeaders.
  induction headers as [|[key value] rest IH]; intros request; [reflexivity|].
  cbn [fold_left Behaviour.lastHost]. rewrite IH.
  destruct (Behaviour.lastHost rest) as [later|]; [reflexivity|].
  unfold setHeader. destruct (String.eqb (GoStrings.Title key) "Host"); reflexivity.
Qed.

Lemma setHeaders_Header canonical headers : forall request,
  Header (setHeaders headers request) !! canonical
  = match Behaviour.lastHeader canonical headers with
    | Some value => Some [value]
    | None => Header request !! canonical
    end.
Proof.
  unfold setHeaders.
  induction headers as [|[key value] rest IH]; intros request; [reflexivity|].
  cbn [fold_left Behaviour.lastHeader]. rewrite IH.
  destruct (Behaviour.lastHeader canonical rest) as [later|]; [reflexivity|].
  unfold setHeader. destruct (String.eqb (GoStrings.Title key) "Host"); simpl; [reflexivity|].
  destruct (String.eqb_spec (GoStrings.CanonicalMIMEHeaderKey key) canonical) as [->|Hne].
  - apply lookup_insert_eq.
  - now apply lookup_insert_ne.
Qed.

End HTTPHeaders.

(** X6.  After the loop over the headers the Host of the request is the
    value of the last header, in the order of the loop, whose key passes
    the Host test, and the Host it had when there is none.  Under each
    canonical key the request holds exactly one value, that of the last
    header set under this key, and what was there before when there is
    none: a later header replaces an earlier one, it is not added to it. *)
Theorem setHeaders_last_wins headers request canonical :
  HTTP.Host (HTTP.setHeaders headers request)
  = default (HTTP.Host request) (Behaviour.lastHost headers)
  /\ HTTP.Header (HTTP.setHeaders headers request) !! canonical
     = match Behaviour.lastHeader canonical headers with
       | Some value => Some [value]
       | None => HTTP.Header request !! canonical
       end.
Proof. split; [apply setHeaders_Host | apply setHeaders_Header]. Qed.

Section HTTPRedirects.
Import HTTP.

Lemma clientDo_redirects config hops : forall via redirects,
  0 <= via <= 10 -> 0 <= redirects <= 11 ->
  0 <= snd (clientDo config hops via redirects) <= 11
  /\ (NoFollowRedirects config = true ->
      snd (clientDo config hops via redirects) = redirects
      \/ snd (clientDo config hops via redirects) = via + 1).
Proof.
  induction hops as [|hop rest IH]; intros via redirects Hvia Hred; simpl; [auto|].
  destruct hop as [|r|r]; simpl; auto.
  destruct (10 <? via + 1) eqn:E; simpl.
  - apply Z.ltb_lt in E. split; [lia | auto].
  - apply Z.ltb_ge in E.
    destruct (NoFollowRedirects config) eqn:En; simpl.
    + split; [lia | auto].
    + split; [apply IH; lia | discriminate].
Qed.

End HTTPRedirects.

(** X7.  With the client asking CheckRedirect before every redirect it
    follows, probeHTTP never follows more than ten: the redirect count
    that it reports is at most 11, and at most 1 when NoFollowRedirects
    is set. *)
Theorem clientDo_redirect_bound config hops :
  let redirects := snd (HTTP.clientDo config hops 0 0) in
  0 <= redirects <= 11
  /\ (HTTP.NoFollowRedirects config = true -> redirects <= 1).
Proof.
  destruct (clientDo_redirects config hops 0 0) as [Hb Hn]; try lia.
  split; [exact Hb|]. intros H. destruct (Hn H) as [-> | ->]; lia.
Qed.

(** ** More on probeICMP *)

Section ICMPLoop.
Import ICMP.

Lemma Writer_readLoop_decision ip replyType wb rb events : forall s,
  snd (Writer.readLoop ip replyType wb rb events s)
  = match Behaviour.firstDecision ip replyType wb (length rb) events with
    | Some true => Return (true, "")
    | Some false => Return (false, "Timeout reading from socket")
    | None => Blocked
    end.
Proof.
  induction events as [|event rest IH]; intros s; [reflexivity|].
  destruct event as [| |data peer].
  - reflexivity.
  - simpl. run. apply IH.
  - rewrite Writer_readLoop_packet. cbn [Behaviour.firstDecision Behaviour.decides].
    destruct (_ && _); [reflexivity | apply IH].
Qed.

Lemma Gauges_readLoop_decision ip replyType wb rb events : forall s,
  snd (Gauges.readLoop ip replyType wb rb events s)
  = match Behaviour.firstDecision ip replyType wb (length rb) events with
    | Some decision => Return decision
    | None => Blocked
    end.
Proof.
  induction events as [|event rest IH]; intros s; [reflexivity|].
  destruct event as [| |data peer].
  - reflexivity.
  - simpl. run. apply IH.
  - rewrite Gauges_readLoop_packet. cbn [Behaviour.firstDecision Behaviour.decides].
    destruct (_ && _); [reflexivity | apply IH].
Qed.

End ICMPLoop.

(** X8.  What the read loop of probeICMP returns is decided by the first
    read that is a timeout or a datagram from the resolved peer whose
    bytes as the loop compares them (the part that fits the buffer, with
    bytes 2 and 3 set to zero for the IPv6 reply type) are the expected
    reply: failure for the timeout, success for the datagram; while no
    read decides, the loop keeps reading.  Read errors, datagrams from
    other senders and datagrams that compare as other bytes before that
    read change nothing, and this is so in both versions. *)
Theorem readLoop_first_decision ip replyType wb rb events s :
  snd (ICMP.Writer.readLoop ip replyType wb rb events s)
  = match Behaviour.firstDecision ip replyType wb (length rb) events with
    | Some true => Return (true, "")
    | Some false => Return (false, "Timeout reading from socket")
    | None => Blocked
    end
  /\ snd (ICMP.Gauges.readLoop ip replyType wb rb events s)
     = match Behaviour.firstDecision ip replyType wb (length rb) events with
       | Some decision => Return decision
       | None => Blocked
       end.
Proof.
  split; [apply Writer_readLoop_decision | apply Gauges_readLoop_decision].
Qed.

(** X9.  For the IPv6 reply type the loop does not look at bytes 2 and 3
    of a datagram, the checksum: with any two values there the loop does
    what it does with the datagram as it is.  For the IPv4 reply type a
    datagram from the peer is taken as the reply exactly if the bytes that
    fit the buffer are the expected ones. *)
Theorem readLoop_checksum ip wb rb data peer rest s c2 c3 :
  ICMP.Writer.readLoop ip ICMP.ipv6_ICMPTypeEchoReply wb rb
    (ICMP.ReadPacket (<[2%nat := c2]> (<[3%nat := c3]> data)) peer :: rest) s
  = ICMP.Writer.readLoop ip ICMP.ipv6_ICMPTypeEchoReply wb rb
      (ICMP.ReadPacket data peer :: rest) s
  /\ ICMP.Gauges.readLoop ip ICMP.ipv6_ICMPTypeEchoReply wb rb
       (ICMP.ReadPacket (<[2%nat := c2]> (<[3%nat := c3]> data)) peer :: rest) s
     = ICMP.Gauges.readLoop ip ICMP.ipv6_ICMPTypeEchoReply wb rb
         (ICMP.ReadPacket data peer :: rest) s
  /\ (ICMP.Writer.readLoop ip ICMP.ipv4_ICMPTypeEchoReply wb rb
        [ICMP.ReadPacket data peer] s = (s, Return (true, ""))
      <-> peer = IPString ip /\ take (Nat.min (length data) (length rb)) data = wb).
Proof.
  split; [|split].
  - rewrite !Writer_readLoop_packet. now rewrite compared_ipv6_checksum.
  - rewrite !Gauges_readLoop_packet. now rewrite compared_ipv6_checksum.
  - rewrite Writer_readLoop_packet. unfold Spec.compared.
    rewrite decide_False by discriminate. cbv zeta.
    destruct (String.eqb_spec peer (IPString ip)) as [->|Hne]; simpl.
    + destruct (decide (take (Nat.min (length data) (length rb)) data = wb)) as [Heq|Hneq].
      * rewrite bool_decide_eq_true_2 by assumption. tauto.
      * rewrite bool_decide_eq_false_2 by assumption.
        split; [discriminate | intros [_ ?]; contradiction].
    + split; [discriminate | intros [? _]; contradiction].
Qed.

Section ICMPEcho.
Import ICMP.

Lemma resolve_resolved {R} e target module s :
  exists s0,
    @resolve R e target module s = (s0, Next (Behaviour.resolved e target module))
    /\ w s0 = w s /\ registry s0 = registry s /\ logs s0 = logs s
    /\ icmpSequence s0 = icmpSequence s.
Proof.
  unfold resolve, Behaviour.resolved, ResolveIPAddr.
  destruct (families module) as [preferred fallback]. run.
  destruct (net_ResolveIPAddr e preferred target) as [ip|]; simpl.
  - eexists. split; [reflexivity|]. simpl. auto.
  - destruct (negb (String.eqb fallback "")); simpl;
      eexists; (split; [reflexivity|]); simpl; auto.
Qed.

Ltac writer_loop :=
  match goal with
  | |- context [Writer.readLoop ?ip ?rt ?wb ?rb ?l ?x] =>
      let Hd := fresh "Hd" in
      let E := fresh "E" in
      pose proof (Writer_readLoop_decision ip rt wb rb l x) as Hd;
      destruct (Writer.readLoop ip rt wb rb l x) as [? ?] eqn:E;
      apply Writer_readLoop_frame in E; simpl in E; cbn [snd] in Hd;
      destruct E as (? & ? & ? & ? & _)
  end.

Ltac fail_leaf :=
  do 2 eexists; (split; [reflexivity|]); simpl;
  (split; [reflexivity|]); (split; [reflexivity|]); (split; [reflexivity|]);
  (split;
   [ let Habs := fresh in intros Habs; discriminate Habs
   | let Hl := fresh in let Hm1 := fresh in let Hw := fresh in
     let Hm2 := fresh in let Hdl := fresh in let Hf := fresh in
     intros (Hl & ? & ? & Hm1 & Hw & Hm2 & Hdl & Hf); simplify_eq;
     first [congruence | discriminate] ]).

(** What [Writer.echo] does to the world, and when it succeeds. *)
Lemma Writer_echo_effects e ip s :
  exists s' st,
    Writer.echo e ip s = (s', st)
    /\ w s' = (w s ++ [mkSample "probe_ip_protocol" (if To4_nil ip then 6 else 4)])%list
    /\ registry s' = registry s
    /\ icmpSequence s'
       = (if Behaviour.listens e ip then (icmpSequence s + 1) mod 65536
          else icmpSequence s)
    /\ (st = Return (true, "")
        <-> Behaviour.echoed e ip ((icmpSequence s + 1) mod 65536)).
Proof.
  unfold Writer.echo, getICMPSequence, Behaviour.echoed, Behaviour.listens,
    Behaviour.requestType, Behaviour.replyType.
  destruct (To4_nil ip); run;
    (destruct (icmp_ListenPacket e _ _); run; [|fail_leaf]);
    (match goal with
     | |- context [match Marshal e ?m with _ => _ end] =>
         destruct (Marshal e m) as [request|] eqn:E1
     end; run; [|fail_leaf]);
    (destruct (WriteTo e request ip) eqn:E2; run; [|fail_leaf]);
    (match goal with
     | |- context [match Marshal e ?m with _ => _ end] =>
         destruct (Marshal e m) as [reply|] eqn:E3
     end; run; [|fail_leaf]);
    (destruct (SetReadDeadline e) eqn:E4; run; [|fail_leaf]);
    writer_loop;
    (do 2 eexists; (split; [reflexivity|]);
     (split; [assumption|]); (split; [assumption|]); (split; [assumption|]);
     split;
     [ intros ->; split; [reflexivity|]; exists request, reply; repeat split; auto;
       rewrite length_replicate in Hd;
       destruct (Behaviour.firstDecision _ _ _ _ _) as [[|]|]; congruence
     | intros (_ & ? & ? & ? & ? & ? & ? & Hfirst); simplify_eq;
       rewrite length_replicate, Hfirst; reflexivity ]).
Qed.

End ICMPEcho.

Section ICMPProbe.
Import ICMP.

Lemma Writer_probeICMP_run e target module s :
  exists s' st,
    Writer.probeICMP e target module s = (s', st)
    /\ w s' = (w s ++ mkSample "probe_dns_lookup_time_seconds" (lookupTime e)
                 :: match Behaviour.resolved e target module with
                    | Some ip => [mkSample "probe_ip_protocol" (if To4_nil ip then 6 else 4)]
                    | None => []
                    end)%list
    /\ icmpSequence s'
       = match Behaviour.resolved e target module with
         | Some ip => if Behaviour.listens e ip then (icmpSequence s + 1) mod 65536
                      else icmpSequence s
         | None => icmpSequence s
         end
    /\ (st = Return (true, "")
        <-> exists ip, Behaviour.resolved e target module = Some ip
                       /\ Behaviour.echoed e ip ((icmpSequence s + 1) mod 65536)).
Proof.
  unfold Writer.probeICMP.
  destruct (@resolve_resolved Writer.Result e target module s)
    as (s0 & Hres & Hw & _ & _ & Hseq).
  rewrite (bind_Next _ _ _ _ _ Hres).
  destruct (Behaviour.resolved e target module) as [ip|].
  - run.
    match goal with
    | |- context [Writer.echo e ip ?x] =>
        destruct (Writer_echo_effects e ip x) as (s' & st & -> & Hw' & _ & Hseq' & Hst)
    end.
    simpl in Hw', Hseq', Hst. exists s', st. split; [reflexivity|].
    split; [rewrite Hw', Hw, <- app_assoc; reflexivity|].
    split; [rewrite Hseq', Hseq; reflexivity|].
    rewrite Hst, Hseq. split; [eauto|].
    intros (ip' & Heq & H). now injection Heq as <-.
  - run. do 2 eexists. split; [reflexivity|]. simpl.
    split; [now rewrite Hw|]. split; [exact Hseq|].
    split; [discriminate | intros (? & ? & _); discriminate].
Qed.

(** The gauge of probe_ip_protocol after [Gauges.echo]. *)
Lemma Gauges_echo_registry e ip s :
  registry (fst (Gauges.echo e ip s))
  = <["probe_ip_protocol" := if To4_nil ip then 6 else 4]> (registry s).
Proof.
  destruct (echo_same e ip s s eq_refl eq_refl)
    as (sw & stw & sg & stg & v & Hw & -> & _ & _ & _ & _ & _ & Hlines & Hr & _).
  destruct (Writer_echo_effects e ip s) as (sw' & stw' & Hw' & Hlines' & _).
  rewrite Hw in Hw'. injection Hw' as <- <-.
  rewrite Hlines in Hlines'. apply app_inv_head in Hlines'.
  injection Hlines' as ->. exact Hr.
Qed.

End ICMPProbe.

(** ** The two versions of probeICMP, side by side *)

Section TwoRegistries.

(** The registry after the gauge version has registered its two gauges,
    added the lookup time and set probe_ip_protocol. *)
Lemma registry_resolved (r : gmap string Z) (t v : Z) :
  <["probe_ip_protocol" := v]>
    (<["probe_dns_lookup_time_seconds" := 0 + t]>
       (<["probe_dns_lookup_time_seconds" := 0]> (<["probe_ip_protocol" := 0]> r)))
  = <["probe_ip_protocol" := v]> (<["probe_dns_lookup_time_seconds" := t]> r).
Proof.
  apply map_eq. intros k.
  destruct (decide (k = "probe_ip_protocol")) as [->|Hk]; [now simplify_map_eq|].
  destruct (decide (k = "probe_dns_lookup_time_seconds")) as [->|Hk'];
    now simplify_map_eq.
Qed.

(** The same when probe_ip_protocol was never set. *)
Lemma registry_unresolved (r : gmap string Z) (t : Z) :
  <["probe_dns_lookup_time_seconds" := 0 + t]>
    (<["probe_dns_lookup_time_seconds" := 0]> (<["probe_ip_protocol" := 0]> r))
  = <["probe_ip_protocol" := 0]> (<["probe_dns_lookup_time_seconds" := t]> r).
Proof.
  apply map_eq. intros k.
  destruct (decide (k = "probe_ip_protocol")) as [->|Hk]; [now simplify_map_eq|].
  destruct (decide (k = "probe_dns_lookup_time_seconds")) as [->|Hk'];
    now simplify_map_eq.
Qed.

End TwoRegistries.

(** C10, as the code has it.  On every target, module and run of the
    environment, started with a registry that does not hold their two
    gauges yet, the two versions of probeICMP end alike: both return, with
    the same success, or both are still waiting for a read.  They make the
    same lookups, log the same and leave the sequence counter the same.
    Both report the lookup time, when the resolution fails as well: one
    writes the line and nothing to the registry, the other sets the gauge
    and writes no line.  When the target was resolved both report
    probe_ip_protocol with the same value, 6 or 4.  When it was not, both
    return failure, the version with the writer writes no line
    probe_ip_protocol, and the version with gauges, which registered
    the gauge at its start, leaves it in the registry with the value 0. *)
Theorem probeICMP_same_outcome e target module s :
  registry s !! "probe_ip_protocol" = None ->
  registry s !! "probe_dns_lookup_time_seconds" = None ->
  let lookup := mkSample "probe_dns_lookup_time_seconds" (ICMP.lookupTime e) in
  exists sw stw sg stg,
    ICMP.Writer.probeICMP e target module s = (sw, stw)
    /\ ICMP.Gauges.probeICMP e target module s = (sg, stg)
    /\ Spec.sameOutcome stw stg
    /\ logs sw = logs sg /\ lookups sw = lookups sg
    /\ icmpSequence sw = icmpSequence sg
    /\ w sg = w s /\ registry sw = registry s
    /\ match Behaviour.resolved e target module with
       | Some ip =>
           let protocol := if To4_nil ip then 6 else 4 in
           w sw = (w s ++ [lookup; mkSample "probe_ip_protocol" protocol])%list
           /\ registry sg
              = <["probe_ip_protocol" := protocol]>
                  (<["probe_dns_lookup_time_seconds" := ICMP.lookupTime e]> (registry s))
       | None =>
           stw = Return (false, "Error resolving address") /\ stg = Return false
           /\ w sw = (w s ++ [lookup])%list
           /\ registry sg
              = <["probe_ip_protocol" := 0]>
                  (<["probe_dns_lookup_time_seconds" := ICMP.lookupTime e]> (registry s))
       end.
Proof.
  intros H1 H2 lookup. subst lookup.
  destruct (resolve_run e target module) as (extra & resolved & Hres).
  assert (resolved = Behaviour.resolved e target module) as ->.
  { destruct (@resolve_resolved bool e target module s) as (s0 & Hres' & _).
    rewrite Hres in Hres'. now injection Hres'. }
  unfold ICMP.Writer.probeICMP, ICMP.Gauges.probeICMP, MustRegister, GaugeAdd.
  run. rewrite H1. run. rewrite lookup_insert_ne by discriminate. rewrite H2.
  rewrite !Hres. run. rewrite lookup_insert_eq. simpl default.
  destruct (Behaviour.resolved e target module) as [ip|].
  - match goal with
    | |- context [ICMP.Writer.echo e ip ?x] =>
      match goal with
      | |- context [ICMP.Gauges.echo e ip ?y] =>
          destruct (echo_same e ip x y eq_refl eq_refl)
            as (sw & stw & sg & stg & v & Ew & Eg & Ho & Hl & Hseq & Hlw & Hlg
                & _ & _ & Hwg & Hrw & _);
          destruct (Writer_echo_effects e ip x) as (sw' & stw' & Ew' & Hw & _);
          pose proof (Gauges_echo_registry e ip y) as Hr
      end
    end.
    rewrite Ew in Ew'. injection Ew' as <- <-.
    rewrite Eg in Hr. rewrite Ew, Eg. simpl in *.
    exists sw, stw, sg, stg.
    repeat split; try eassumption; try congruence.
    + rewrite Hw, <- app_assoc. reflexivity.
    + rewrite Hr. apply registry_resolved.
  - do 4 eexists. split; [reflexivity|]. split; [reflexivity|]. simpl.
    repeat split; try reflexivity. apply registry_unresolved.
Qed.

Lemma probeICMP_same_outcome_witness :
  let e := Examples.icmpEnv [ICMP.ReadPacket Examples.reply6 "2001:db8::1"] in
  snd (ICMP.Writer.probeICMP e "example.com" (Examples.icmpModule "" "") emptyWorld)
  = Return (true, "")
  /\ snd (ICMP.Gauges.probeICMP e "example.com" (Examples.icmpModule "" "") emptyWorld)
     = Return true.
Proof.
  cbv zeta.
  destruct (probeICMP_same_outcome
              (Examples.icmpEnv [ICMP.ReadPacket Examples.reply6 "2001:db8::1"])
              "example.com" (Examples.icmpModule "" "") emptyWorld eq_refl eq_refl)
    as (sw & stw & sg & stg & Hw & Hg & Ho & _).
  rewrite Hg. vm_compute in Hw. injection Hw as <- <-.
  split; [vm_compute; reflexivity|].
  destruct stg as [a|r| |]; simpl in Ho; try contradiction. now subst r.
Defined.

(** C10 as it was stated does not hold in its second half.  On a target
    that cannot be resolved both versions report the lookup time, so they
    do not differ in that; and they do differ in something else: the
    version with gauges leaves probe_ip_protocol in the registry, with the
    value 0, where the version with the writer reports no
    probe_ip_protocol at all. *)
Lemma probeICMP_same_outcome_counterexample :
  let e := Examples.icmpEnv [] in
  let module := Examples.icmpModule "" "" in
  let writer := ICMP.Writer.probeICMP e "nowhere.example" module emptyWorld in
  let gauges := ICMP.Gauges.probeICMP e "nowhere.example" module emptyWorld in
  snd writer = Return (false, "Error resolving address")
  /\ snd gauges = Return false
  /\ w (fst writer) = [mkSample "probe_dns_lookup_time_seconds" (ICMP.lookupTime e)]
  /\ registry (fst gauges) !! "probe_dns_lookup_time_seconds" = Some (ICMP.lookupTime e)
  /\ registry (fst gauges) !! "probe_ip_protocol" = Some 0
  /\ w (fst gauges) = [].
Proof.
  cbv zeta. repeat split; vm_compute; reflexivity.
Qed.

(** X10.  The version of probeICMP that writes to the response writer
    always writes probe_dns_lookup_time_seconds first, when the target
    could not be resolved as well; probe_ip_protocol follows exactly when
    it was resolved, with 6 for an address whose To4 is nil and 4
    otherwise.  It writes nothing else, whatever happens afterwards. *)
Theorem Writer_probeICMP_lines e target module s :
  w (fst (ICMP.Writer.probeICMP e target module s))
  = (w s ++ mkSample "probe_dns_lookup_time_seconds" (ICMP.lookupTime e)
       :: match Behaviour.resolved e target module with
          | Some ip => [mkSample "probe_ip_protocol" (if To4_nil ip then 6 else 4)]
          | None => []
          end)%list.
Proof.
  destruct (Writer_probeICMP_run e target module s) as (s' & st & -> & H & _).
  exact H.
Qed.

(** X11.  A probe takes a sequence number only once it has a socket: the
    shared counter is advanced by one (modulo 65536) when the target was
    resolved and the socket was opened, and is left as it was when the
    probe fails before that. *)
Theorem Writer_probeICMP_sequence e target module s :
  icmpSequence (fst (ICMP.Writer.probeICMP e target module s))
  = match Behaviour.resolved e target module with
    | Some ip => if Behaviour.listens e ip then (icmpSequence s + 1) mod 65536
                 else icmpSequence s
    | None => icmpSequence s
    end.
Proof.
  destruct (Writer_probeICMP_run e target module s) as (s' & st & -> & _ & H & _).
  exact H.
Qed.

(** X12.  probeICMP returns success exactly if the target was resolved,
    the socket was opened, the request and the expected reply were
    marshalled, the request was written, the read deadline was set, and
    the first read that decides brought the reply from the resolved peer;
    the request carries the sequence number that follows the counter. *)
Theorem Writer_probeICMP_success e target module s :
  snd (ICMP.Writer.probeICMP e target module s) = Return (true, "")
  <-> exists ip,
        Behaviour.resolved e target module = Some ip
        /\ Behaviour.echoed e ip ((icmpSequence s + 1) mod 65536).
Proof.
  destruct (Writer_probeICMP_run e target module s) as (s' & st & -> & _ & _ & H).
  exact H.
Qed.

(** X13.  In the version with gauges, started with a registry that does
    not hold them yet, probe_dns_lookup_time_seconds ends as the time of
    the lookup, and probe_ip_protocol ends as 6 or 4 after the resolved
    address; when the target could not be resolved the gauge
    probe_ip_protocol is there all the same, with the value 0. *)
Theorem Gauges_probeICMP_gauges e target module s :
  registry s !! "probe_ip_protocol" = None ->
  registry s !! "probe_dns_lookup_time_seconds" = None ->
  let final := registry (fst (ICMP.Gauges.probeICMP e target module s)) in
  final !! "probe_dns_lookup_time_seconds" = Some (ICMP.lookupTime e)
  /\ final !! "probe_ip_protocol"
     = Some (match Behaviour.resolved e target module with
             | Some ip => if To4_nil ip then 6 else 4
             | None => 0
             end).
Proof.
  intros H1 H2.
  destruct (@resolve_resolved bool e target module
              (mkWorld (w s)
                 (<["probe_dns_lookup_time_seconds" := 0]>
                    (<["probe_ip_protocol" := 0]> (registry s)))
                 (logs s) (lookups s) (icmpSequence s)))
    as (s0 & Hres & _ & Hr & _).
  simpl in Hr.
  unfold ICMP.Gauges.probeICMP, MustRegister, GaugeAdd.
  run. rewrite H1. run. rewrite lookup_insert_ne by discriminate. rewrite H2.
  rewrite Hres. run. rewrite Hr, lookup_insert_eq. simpl default.
  destruct (Behaviour.resolved e target module) as [ip|].
  - match goal with
    | |- context [ICMP.Gauges.echo e ip ?x] =>
        pose proof (Gauges_echo_registry e ip x) as Hg
    end.
    simpl in Hg. cbv zeta.
    match goal with
    | |- context [ICMP.Gauges.echo e ip ?x] =>
        destruct (ICMP.Gauges.echo e ip x) as [sg stg]
    end.
    simpl in *. rewrite Hg. simplify_map_eq. auto.
  - simpl. simplify_map_eq. auto.
Qed.

Lemma Gauges_probeICMP_gauges_witness :
  registry (fst (ICMP.Gauges.probeICMP (Examples.icmpEnv []) "nowhere.example"
                   (Examples.icmpModule "" "") emptyWorld))
  !! "probe_ip_protocol" = Some 0.
Proof.
  exact (proj2 (Gauges_probeICMP_gauges (Examples.icmpEnv []) "nowhere.example"
                  (Examples.icmpModule "" "") emptyWorld eq_refl eq_refl)).
Defined.

(** X14.  The value that getICMPSequence returns is the counter after
    the call and lies in 0..65535, whatever the counter was; nothing else
    in the world changes.  In a run of calls the values come round with
    period 65536: the call 65536 calls after another returns what that one
    returned. *)
Theorem getICMPSequence_period s n i v :
  fst (ICMP.sequenceCalls n s) !! i = Some v ->
  0 <= v < 65536
  /\ (forall u, fst (ICMP.sequenceCalls n s) !! (i + Z.to_nat 65536)%nat = Some u -> u = v)
  /\ (let '(s', st) := @ICMP.getICMPSequence Z s in
      st = Next (icmpSequence s') /\ 0 <= icmpSequence s' < 65536
      /\ w s' = w s /\ registry s' = registry s /\ logs s' = logs s
      /\ lookups s' = lookups s).
Proof.
  intros Hi.
  assert (i < n)%nat as Hin.
  { apply lookup_lt_Some in Hi. now rewrite sequenceCalls_length in Hi. }
  rewrite sequenceCalls_lookup in Hi by exact Hin. injection Hi as <-.
  split; [apply Z.mod_pos_bound; lia|]. split.
  - intros u Hu.
    assert (i + Z.to_nat 65536 < n)%nat as Hjn.
    { apply lookup_lt_Some in Hu. now rewrite sequenceCalls_length in Hu. }
    rewrite sequenceCalls_lookup in Hu by exact Hjn. injection Hu as <-.
    rewrite Nat2Z.inj_add, Z2Nat.id by lia.
    replace (icmpSequence s + (Z.of_nat i + 65536) + 1)
      with (icmpSequence s + Z.of_nat i + 1 + 1 * 65536) by lia.
    apply Z_mod_plus_full.
  - simpl. repeat split; try reflexivity; apply Z.mod_pos_bound; lia.
Qed.

Lemma getICMPSequence_period_witness :
  fst (ICMP.sequenceCalls 2 (mkWorld [] ∅ [] [] 65535)) = [0; 1] /\ 0 <= 0 < 65536.
Proof.
  split; [reflexivity|].
  exact (proj1 (getICMPSequence_period (mkWorld [] ∅ [] [] 65535) 2 0 0 eq_refl)).
Defined.

(** ** More on the DNS prober *)

Section DNSProbe.
Import DNS.

Lemma validate_run e module response s :
  exists s',
    validate e module response s
    = (s', Return (Spec.rcodeAccepted e (Rcode response) (ValidRcodes (DNS module))
                   && Spec.rrsAccepted e (ValidateAnswer (DNS module)) (Answer response)
                   && Spec.rrsAccepted e (ValidateAuthority (DNS module)) (Ns response)
                   && Spec.rrsAccepted e (ValidateAdditional (DNS module)) (Extra response),
                   Behaviour.countsOf response))
    /\ registry s' = registry s.
Proof.
  unfold validate, Behaviour.countsOf. run.
  unfold call at 1.
  match goal with
  | |- context [validRcode e ?r ?v ?x] =>
      destruct (validRcode_run e r v x) as (s1 & -> & Hr1)
  end.
  simpl in Hr1.
  destruct (Spec.rcodeAccepted _ _ _); simpl;
    [|eexists; split; [reflexivity|]; simpl; congruence].
  unfold call at 1.
  destruct (validRRs_run e (Answer response) (ValidateAnswer (DNS module)) s1)
    as (s2 & -> & Hr2).
  destruct (Spec.rrsAccepted e (ValidateAnswer (DNS module)) _); simpl;
    [|eexists; split; [reflexivity|]; simpl; congruence].
  unfold call at 1.
  destruct (validRRs_run e (Ns response) (ValidateAuthority (DNS module)) s2)
    as (s3 & -> & Hr3).
  destruct (Spec.rrsAccepted e (ValidateAuthority (DNS module)) _); simpl;
    [|eexists; split; [reflexivity|]; simpl; congruence].
  unfold call at 1.
  destruct (validRRs_run e (Extra response) (ValidateAdditional (DNS module)) s3)
    as (s4 & -> & Hr4).
  destruct (Spec.rrsAccepted e (ValidateAdditional (DNS module)) _); simpl;
    eexists; (split; [reflexivity|]); simpl; congruence.
Qed.

(** A return of [query] is a failure with all counts at zero. *)
Lemma query_return e target module s s' r :
  query e target module s = (s', Return r) -> r = (false, (0, 0, 0)).
Proof.
  unfold query. run.
  repeat case_match; intros; simplify_eq; reflexivity.
Qed.

Lemma query_step e target module s :
  match snd (query e target module s) with
  | Next _ | Return _ => True
  | _ => False
  end.
Proof.
  unfold query. run.
  repeat case_match; simplify_eq; simpl; auto.
Qed.

(** ProbeDNS from a registry without its gauges. *)
Lemma ProbeDNS_run e target module s :
  registry s !! "probe_dns_answer_rrs" = None ->
  registry s !! "probe_dns_authority_rrs" = None ->
  registry s !! "probe_dns_additional_rrs" = None ->
  let '(ok, (answers, authorities, additionals)) :=
    match snd (query e target module s) with
    | Next response =>
        (Spec.rcodeAccepted e (Rcode response) (ValidRcodes (DNS module))
         && Spec.rrsAccepted e (ValidateAnswer (DNS module)) (Answer response)
         && Spec.rrsAccepted e (ValidateAuthority (DNS module)) (Ns response)
         && Spec.rrsAccepted e (ValidateAdditional (DNS module)) (Extra response),
         Behaviour.countsOf response)
    | _ => (false, (0, 0, 0))
    end in
  exists s',
    ProbeDNS e target module s = (s', Return ok)
    /\ registry s' = <["probe_dns_additional_rrs" := additionals]>
                       (<["probe_dns_authority_rrs" := authorities]>
                          (<["probe_dns_answer_rrs" := answers]>
                             (<["probe_dns_additional_rrs" := 0]>
                                (<["probe_dns_authority_rrs" := 0]>
                                   (<["probe_dns_answer_rrs" := 0]> (registry s)))))).
Proof.
  intros H1 H2 H3.
  destruct (query_run e target module) as (st & Hst).
  pose proof (query_step e target module s) as Hstep.
  destruct (Hst s) as (sq & Hq & _). rewrite Hq in Hstep |- *. simpl in Hstep |- *.
  unfold ProbeDNS, MustRegister, GaugeSet, probe.
  run. rewrite H1. run. rewrite lookup_insert_ne by discriminate. rewrite H2. run.
  rewrite !lookup_insert_ne by discriminate. rewrite H3. run.
  unfold call at 1.
  match goal with
  | |- context [query e target module ?x] =>
      destruct (Hst x) as (s1 & Hq1 & Hr1); rewrite Hq1
  end.
  simpl in Hr1.
  destruct st as [response|r| |]; try contradiction.
  - destruct (validate_run e module response s1) as (s2 & -> & Hr2).
    unfold Behaviour.countsOf. simpl.
    eexists. split; [reflexivity|]. simpl. now rewrite Hr2, Hr1.
  - apply query_return in Hq1. subst r. simpl.
    eexists. split; [reflexivity|]. simpl. now rewrite Hr1.
Qed.

End DNSProbe.

(** X15.  ProbeDNS, started with a registry that does not hold its
    gauges yet, sets the three record gauges on every way out: to the
    numbers of answer, authority and additional records when a response
    was received, whether it is then accepted or not, and to 0 when the
    probe fails before a response is there. *)
Theorem ProbeDNS_counts e target module s :
  registry s !! "probe_dns_answer_rrs" = None ->
  registry s !! "probe_dns_authority_rrs" = None ->
  registry s !! "probe_dns_additional_rrs" = None ->
  let final := registry (fst (DNS.ProbeDNS e target module s)) in
  let '(answers, authorities, additionals) :=
    match snd (DNS.query e target module s) with
    | Next response => Behaviour.countsOf response
    | _ => (0, 0, 0)
    end in
  final !! "probe_dns_answer_rrs" = Some answers
  /\ final !! "probe_dns_authority_rrs" = Some authorities
  /\ final !! "probe_dns_additional_rrs" = Some additionals.
Proof.
  intros H1 H2 H3.
  pose proof (ProbeDNS_run e target module s H1 H2 H3) as H.
  cbv zeta.
  destruct (snd (DNS.query e target module s)) as [response|r| |];
    unfold Behaviour.countsOf in *;
    destruct H as (s' & -> & Hr); simpl; rewrite Hr; simplify_map_eq; auto.
Qed.

Lemma ProbeDNS_counts_witness :
  registry (fst (DNS.ProbeDNS (Examples.dnsEnv Examples.noerror) "example.com"
                   (Examples.dnsModule (Some ["NXDOMAIN"])) emptyWorld))
  !! "probe_dns_answer_rrs" = Some 1.
Proof.
  exact (proj1 (ProbeDNS_counts (Examples.dnsEnv Examples.noerror) "example.com"
                  (Examples.dnsModule (Some ["NXDOMAIN"])) emptyWorld
                  eq_refl eq_refl eq_refl)).
Defined.

(** X16.  ProbeDNS, started with a registry that does not hold its gauges
    yet, returns true exactly if the query brought a response, validRcode
    accepts its rcode, and validRRs accepts its answer, authority and
    additional sections, each with the validator of that section. *)
Theorem ProbeDNS_success e target module s :
  registry s !! "probe_dns_answer_rrs" = None ->
  registry s !! "probe_dns_authority_rrs" = None ->
  registry s !! "probe_dns_additional_rrs" = None ->
  snd (DNS.ProbeDNS e target module s) = Return true
  <-> exists response,
        snd (DNS.query e target module s) = Next response
        /\ Spec.rcodeAccepted e (DNS.Rcode response) (DNS.ValidRcodes (DNS.DNS module)) = true
        /\ Spec.rrsAccepted e (DNS.ValidateAnswer (DNS.DNS module)) (DNS.Answer response)
           = true
        /\ Spec.rrsAccepted e (DNS.ValidateAuthority (DNS.DNS module)) (DNS.Ns response)
           = true
        /\ Spec.rrsAccepted e (DNS.ValidateAdditional (DNS.DNS module)) (DNS.Extra response)
           = true.
Proof.
  intros H1 H2 H3.
  pose proof (ProbeDNS_run e target module s H1 H2 H3) as H.
  destruct (snd (DNS.query e target module s)) as [response|r| |].
  - unfold Behaviour.countsOf in H. destruct H as (s' & -> & _). simpl. split.
    + intros Hok. injection Hok as Hok.
      rewrite !andb_true_iff in Hok. exists response. tauto.
    + intros (response' & Heq & Ha & Hb & Hc & Hd). injection Heq as <-.
      now rewrite Ha, Hb, Hc, Hd.
  - destruct H as (s' & -> & _). simpl.
    split; [discriminate | intros (? & ? & _); discriminate].
  - destruct H as (s' & -> & _). simpl.
    split; [discriminate | intros (? & ? & _); discriminate].
  - destruct H as (s' & -> & _). simpl.
    split; [discriminate | intros (? & ? & _); discriminate].
Qed.

Lemma ProbeDNS_success_witness :
  snd (DNS.ProbeDNS (Examples.dnsEnv Examples.noerror) "example.com"
         (Examples.dnsModule (Some ["NXDOMAIN"; "NOERROR"])) emptyWorld)
  = Return true.
Proof.
  apply (ProbeDNS_success (Examples.dnsEnv Examples.noerror) "example.com"
           (Examples.dnsModule (Some ["NXDOMAIN"; "NOERROR"])) emptyWorld
           eq_refl eq_refl eq_refl).
  exists Examples.noerror. repeat split; vm_compute; reflexivity.
Defined.

Section DNSOrder.
Import DNS.

Lemma rcodeAccepted_permutation e rcode names names' :
  Permutation names names' ->
  Spec.rcodeAccepted e rcode (Some names) = Spec.rcodeAccepted e rcode (Some names').
Proof.
  intros Hp. unfold Spec.rcodeAccepted.
  f_equal; apply eq_true_iff_eq.
  - rewrite !forallb_forall. split; intros H x Hx; apply H.
    + now apply (Permutation_in x (Permutation_sym Hp)).
    + now apply (Permutation_in x Hp).
  - rewrite !existsb_exists.
    split; intros (x & Hx & H); exists x; (split; [|exact H]).
    + now apply (Permutation_in x Hp).
    + now apply (Permutation_in x (Permutation_sym Hp)).
Qed.

Lemma rrsAccepted_each e v rrs :
  rrs <> [] ->
  Spec.rrsAccepted e v rrs = forallb (fun rr => Spec.rrsAccepted e v [rr]) rrs.
Proof.
  intros Hne. unfold Spec.rrsAccepted.
  destruct rrs as [|rr0 rest]; [contradiction|].
  change (length (rr0 :: rest) =? 0)%nat with false. rewrite andb_false_l, andb_true_l.
  generalize (rr0 :: rest). intros l.
  induction l as [|rr l IH]; [reflexivity|].
  cbn [forallb]. rewrite IH. simpl. now rewrite andb_true_r.
Qed.

End DNSOrder.

(** X17.  The verdict of validRcode does not depend on the order of the
    names in ValidRcodes: two lists with the same names, each as many
    times, give the same result for every rcode. *)
Theorem validRcode_permutation e rcode names names' s :
  Permutation names names' ->
  snd (DNS.validRcode e rcode (Some names) s)
  = snd (DNS.validRcode e rcode (Some names') s).
Proof.
  intros Hp.
  destruct (validRcode_run e rcode (Some names) s) as (s1 & -> & _).
  destruct (validRcode_run e rcode (Some names') s) as (s2 & -> & _).
  simpl. f_equal. now apply rcodeAccepted_permutation.
Qed.

Lemma validRcode_permutation_witness :
  snd (DNS.validRcode (Examples.dnsEnv Examples.noerror) 3
         (Some ["NOERROR"; "NXDOMAIN"]) emptyWorld)
  = snd (DNS.validRcode (Examples.dnsEnv Examples.noerror) 3
           (Some ["NXDOMAIN"; "NOERROR"]) emptyWorld).
Proof.
  apply validRcode_permutation. apply perm_swap.
Defined.

(** X18.  validRRs judges the records of a section one by one: a section
    with records passes exactly if each of its records alone would pass.
    So every FailIfNotMatchesRegexp pattern has to match every record of
    the section, not just one of them. *)
Theorem validRRs_each_record e v rrs s :
  rrs <> [] ->
  snd (DNS.validRRs e rrs v s) = Return true
  <-> forall rr, In rr rrs -> snd (DNS.validRRs e [rr] v s) = Return true.
Proof.
  intros Hne.
  destruct (validRRs_run e rrs v s) as (s1 & -> & _). simpl.
  rewrite (rrsAccepted_each e v rrs Hne).
  split.
  - intros H rr Hin. injection H as H. rewrite forallb_forall in H.
    destruct (validRRs_run e [rr] v s) as (s2 & -> & _). simpl.
    now rewrite (H rr Hin).
  - intros H. f_equal. apply forallb_forall. intros rr Hin.
    specialize (H rr Hin).
    destruct (validRRs_run e [rr] v s) as (s2 & Hrun & _).
    rewrite Hrun in H. now injection H.
Qed.

Lemma validRRs_each_record_witness :
  snd (DNS.validRRs (Examples.dnsEnv Examples.noerror)
         [Examples.answerA; "example.com. 300 IN A 198.51.100.1"]
         (DNS.mkValidator [] ["192"]) emptyWorld)
  <> Return true.
Proof.
  intros H.
  apply (validRRs_each_record (Examples.dnsEnv Examples.noerror)
           (DNS.mkValidator [] ["192"])
           [Examples.answerA; "example.com. 300 IN A 198.51.100.1"] emptyWorld)
    with (rr := "example.com. 300 IN A 198.51.100.1") in H.
  - vm_compute in H. discriminate H.
  - discriminate.
  - right. left. reflexivity.
Defined.

Section HTTPSuccess.
Import HTTP.

Lemma judge_verdict e config resp err s :
  let ok := statusCheck config resp
            && (negb (Spec.regexpsConfigured config)
                || Spec.bodyAccepted e config (RespBody resp)) in
  exists s' d,
    judge e config (DoResponse resp err) s = (s', Next (ok, d))
    /\ (ok = true -> d = "").
Proof.
  cbv zeta. unfold judge. rewrite configured_iff.
  destruct (statusCheck config resp); simpl.
  - destruct (Spec.regexpsConfigured config); simpl.
    + destruct (matchRegularExpressions_outcome e (RespBody resp) config s)
        as (s' & ok & d & Hrun & -> & Hd & _).
      exists s', d. split; [now apply call_Return | apply Hd].
    + exists s, "". auto.
  - exists s, "". auto.
Qed.

End HTTPSuccess.

(** X19.  The TLS policy has the last word in probeHTTP: once the request
    has been made, a response with TLS under FailIfSSL, and a response
    without TLS, or no response at all, under FailIfNotSSL, give failure
    with the diagnostic "SSL failed", whatever the status code and the
    body were. *)
Theorem probeHTTP_tls_policy e target module s s1 request :
  HTTP.prepare e target module s = (s1, Next request) ->
  Spec.tlsForcesFailure (HTTP.HTTP module)
    (Spec.reported (fst (HTTP.clientDo (HTTP.HTTP module) (HTTP.server e request) 0 0)))
  = true ->
  snd (HTTP.probeHTTP e target module s) = Return (false, "SSL failed").
Proof.
  intros Hprep Htls. unfold HTTP.probeHTTP.
  rewrite (bind_Next _ _ _ _ _ Hprep).
  destruct (HTTP.clientDo _ _ 0 0) as [answer redirects]. simpl in Htls.
  assert (exists s2 v, HTTP.judge e (HTTP.HTTP module) answer s1 = (s2, Next v))
    as (s2 & v & Hj).
  { destruct answer as [|resp err].
    - rewrite judge_error. eauto.
    - destruct (judge_response e (HTTP.HTTP module) resp err s1) as (s2 & d & -> & _).
      eauto. }
  rewrite (bind_Next _ _ _ _ _ Hj).
  destruct (report_run e (HTTP.HTTP module) answer redirects v s2) as (s' & -> & _).
  simpl. now rewrite Htls.
Qed.

Lemma probeHTTP_tls_policy_witness :
  snd (HTTP.probeHTTP (Examples.httpEnv [HTTP.HopFinal (Examples.response 200)])
         "example.com" Examples.httpModuleNotSSL emptyWorld)
  = Return (false, "SSL failed").
Proof.
  apply (probeHTTP_tls_policy
           (Examples.httpEnv [HTTP.HopFinal (Examples.response 200)])
           "example.com" Examples.httpModuleNotSSL emptyWorld
           (mkWorld [mkSample "probe_ip_protocol" 6] ∅ [] [("ip6", "example.com")] 0)
           (HTTP.mkRequest "GET" "http://example.com" "example.com" ∅ None));
    reflexivity.
Defined.

(** X20.  probeHTTP returns success exactly if the request was made and
    brought a response, the status check passed, the body check, when one
    is configured, accepted the body, and the TLS policy did not force
    failure; a success always comes with the empty diagnostic. *)
Theorem probeHTTP_success e target module s diag :
  snd (HTTP.probeHTTP e target module s) = Return (true, diag)
  <-> diag = ""
      /\ exists s1 request resp err redirects,
           HTTP.prepare e target module s = (s1, Next request)
           /\ HTTP.clientDo (HTTP.HTTP module) (HTTP.server e request) 0 0
              = (HTTP.DoResponse resp err, redirects)
           /\ HTTP.statusCheck (HTTP.HTTP module) resp = true
           /\ (negb (Spec.regexpsConfigured (HTTP.HTTP module))
               || Spec.bodyAccepted e (HTTP.HTTP module) (HTTP.RespBody resp)) = true
           /\ Spec.tlsForcesFailure (HTTP.HTTP module) resp = false.
Proof.
  unfold HTTP.probeHTTP.
  destruct (HTTP.prepare e target module s) as [s1 st1] eqn:Hprep.
  pose proof (prepare_frame _ _ _ _ _ _ Hprep) as Hframe.
  destruct st1 as [request|r| |]; try contradiction.
  - rewrite (bind_Next _ _ _ _ _ Hprep).
    destruct (HTTP.clientDo _ _ 0 0) as [answer redirects] eqn:Hdo.
    destruct answer as [|resp err].
    + rewrite (bind_Next _ _ _ _ _ (judge_error e _ s1)).
      destruct (report_run e (HTTP.HTTP module) HTTP.DoError redirects (false, "")
                  (mkWorld (w s1) (registry s1)
                     (logs s1 ++ [mkLog LWarn "Error for HTTP request to %s: %s"])
                     (lookups s1) (icmpSequence s1))) as (s' & -> & _).
      simpl. split.
      * destruct (Spec.tlsForcesFailure _ _); discriminate.
      * intros (_ & ? & ? & ? & ? & ? & Heq & Hdo' & _). simplify_eq. congruence.
    + destruct (judge_verdict e (HTTP.HTTP module) resp err s1) as (s2 & d & Hj & Hd).
      rewrite (bind_Next _ _ _ _ _ Hj).
      destruct (report_run e (HTTP.HTTP module) (HTTP.DoResponse resp err) redirects
                  (HTTP.statusCheck (HTTP.HTTP module) resp
                   && (negb (Spec.regexpsConfigured (HTTP.HTTP module))
                       || Spec.bodyAccepted e (HTTP.HTTP module) (HTTP.RespBody resp)), d)
                  s2) as (s' & -> & _).
      simpl. split.
      * destruct (Spec.tlsForcesFailure (HTTP.HTTP module) resp) eqn:Htls;
          [discriminate|].
        intros H. injection H as Hok <-.
        split; [now apply Hd|].
        apply andb_true_iff in Hok. destruct Hok as [Hs Hb].
        exists s1, request, resp, err, redirects. auto.
      * intros (-> & s1' & request' & resp' & err' & redirects' & Heq & Hdo' & Hs & Hb & Htls).
        simplify_eq. rewrite Hdo in Hdo'. simplify_eq.
        rewrite Htls, Hs, Hb in *. simpl. f_equal. f_equal.
        now apply Hd.
  - rewrite (bind_Return _ _ _ _ _ Hprep). simpl. split.
    + intros H. injection H as ->.
      destruct Hframe as [[_ [H|H]] | [_ [H|H]]]; discriminate.
    + intros (_ & ? & ? & ? & ? & ? & ? & _). discriminate.
Qed.

Section ICMPDiagnostics.
Import ICMP.

Lemma Writer_echo_return e ip s s' ok d :
  Writer.echo e ip s = (s', Return (ok, d)) ->
  if ok then d = ""
  else In d ["Error listening to socket"; "Error marshalling packet";
             "Error writing to socket"; "Error setting socket deadline";
             "Timeout reading from socket"].
Proof.
  unfold Writer.echo, getICMPSequence.
  destruct (To4_nil ip); run;
    (destruct (icmp_ListenPacket e _ _); run;
     [|intros; simplify_eq; simpl; auto]);
    (match goal with
     | |- context [match Marshal e ?m with _ => _ end] =>
         destruct (Marshal e m) as [request|]
     end; run; [|intros; simplify_eq; simpl; auto]);
    (destruct (WriteTo e request ip); run; [|intros; simplify_eq; simpl; auto]);
    (match goal with
     | |- context [match Marshal e ?m with _ => _ end] =>
         destruct (Marshal e m) as [reply|]
     end; run; [|intros; simplify_eq; simpl; auto]);
    (destruct (SetReadDeadline e); run; [|intros; simplify_eq; simpl; auto 10]);
    intros H; apply Writer_readLoop_frame in H;
    destruct H as (_ & _ & _ & _ & [? | [? | ?]]); simplify_eq; simpl; auto 10.
Qed.

End ICMPDiagnostics.

(** X21.  The version of probeICMP that returns a diagnostic never fails
    without one: a failure names the step that failed (resolution, socket,
    marshalling, write, deadline) or the timeout of the read, and success
    comes with the empty diagnostic. *)
Theorem Writer_probeICMP_diagnostic e target module s ok d :
  snd (ICMP.Writer.probeICMP e target module s) = Return (ok, d) ->
  if ok then d = ""
  else In d ["Error resolving address"; "Error listening to socket";
             "Error marshalling packet"; "Error writing to socket";
             "Error setting socket deadline"; "Timeout reading from socket"].
Proof.
  unfold ICMP.Writer.probeICMP.
  destruct (@resolve_resolved ICMP.Writer.Result e target module s) as (s0 & Hres & _).
  rewrite (bind_Next _ _ _ _ _ Hres).
  destruct (Behaviour.resolved e target module) as [ip|]; run.
  - match goal with
    | |- context [ICMP.Writer.echo e ip ?x] =>
        destruct (ICMP.Writer.echo e ip x) as [s' st] eqn:E
    end.
    simpl. intros ->. apply Writer_echo_return in E.
    destruct ok; [exact E | simpl in E |- *; tauto].
  - simpl. intros H. injection H as <- <-. simpl. auto.
Qed.

Lemma Writer_probeICMP_diagnostic_witness :
  In "Error resolving address"
    ["Error resolving address"; "Error listening to socket";
     "Error marshalling packet"; "Error writing to socket";
     "Error setting socket deadline"; "Timeout reading from socket"].
Proof.
  exact (Writer_probeICMP_diagnostic (Examples.icmpEnv []) "nowhere.example"
           (Examples.icmpModule "" "") emptyWorld false "Error resolving address" eq_refl).
Defined.

(** X22.  Leaving ValidRcodes out is the same as listing NOERROR alone,
    provided dns.StringToRcode knows the name NOERROR: validRcode gives
    the same verdict for every rcode. *)
Theorem validRcode_default e rcode s :
  is_Some (DNS.dns_StringToRcode e !! "NOERROR") ->
  snd (DNS.validRcode e rcode None s) = snd (DNS.validRcode e rcode (Some ["NOERROR"]) s).
Proof.
  intros [noerror Hn].
  destruct (validRcode_run e rcode None s) as (s1 & -> & _).
  destruct (validRcode_run e rcode (Some ["NOERROR"]) s) as (s2 & -> & _).
  simpl. rewrite Hn. simpl.
  rewrite ?orb_false_r, ?andb_true_l. f_equal.
  destruct (Z.eqb_spec rcode noerror) as [->|Hne].
  - now rewrite bool_decide_eq_true_2.
  - rewrite bool_decide_eq_false_2; [reflexivity | congruence].
Qed.

Lemma validRcode_default_witness :
  snd (DNS.validRcode (Examples.dnsEnv Examples.noerror) 0 None emptyWorld)
  = snd (DNS.validRcode (Examples.dnsEnv Examples.noerror) 0 (Some ["NOERROR"]) emptyWorld).
Proof.
  apply validRcode_default. exists 0. reflexivity.
Defined.
